(** * EEG blink detection engine: detector loops, signal conditioning, calibration

    Shallow embedding of the detection engine of the EEG Pong dashboard:
      - [AppV3]   : src/app_v3.py            (rolling median baseline + Schmitt trigger)
      - [AppV4]   : src/app_v4_bp-filter.py  (windowed filtering + Schmitt trigger + calibration)
      - [BlinkDetectionV2] : src/EEG/blink_detection_v2.py (rolling mean baseline + debounce)
      - [DetectionAnalysis] : src/detection_analysis.py (detector, measurement run, endpoints)

    Numbers.  The Python code computes on IEEE doubles.  Amplitudes (microvolt),
    thresholds and clock readings are embedded as exact rationals [Q]; every
    comparison and every branch is the one of the source.  The only place where
    the source can produce a NaN (the median or mean of an empty window) is
    embedded as [None], and the branches that compare against it behave as all
    comparisons with NaN do (they are false).  Where the code rounds to
    decimals ([round(x, 1)], [round(x, 2)]) the statements say that the result
    is a decimal within half a unit of its last place of the exact value; they
    do not say which neighbour is taken at a tie, which in the code depends on
    the last bit of the double.  Where the code converts a posted integer with
    [float], the range of doubles is modelled: the conversion raises beyond
    it.

    Clock.  [time.time()] is read once per sample; a sample of the model carries
    the clock reading taken when it is processed. *)

From Stdlib Require Import QArith Qabs Qround Qminmax ZArith List Bool Lia Lqa.
From Stdlib Require Import Sorting.Sorted.
From Stdlib Require Strings.String.
Import ListNotations.
Local Open Scope Q_scope.

(** ** Python comparisons on numbers *)

Definition Qgtb (x y : Q) : bool := negb (Qle_bool x y).   (* x >  y *)
Definition Qltb (x y : Q) : bool := negb (Qle_bool y x).   (* x <  y *)
Definition Qgeb (x y : Q) : bool := Qle_bool y x.          (* x >= y *)

(** ** numpy reductions used by the loops *)

Definition Qsum (l : list Q) : Q := fold_right Qplus 0 l.

(** [np.mean]: NaN ([None]) on an empty sequence. *)
Definition Qmean (l : list Q) : Q := Qsum l / inject_Z (Z.of_nat (length l)).

Definition np_mean (l : list Q) : option Q :=
  match l with
  | [] => None
  | _ :: _ => Some (Qmean l)
  end.

(** [np.max(np.abs(l))] on a non-empty sequence. *)
Definition max_abs (l : list Q) : Q :=
  match l with
  | [] => 0
  | x :: r => fold_left (fun m y => if Qltb m (Qabs y) then Qabs y else m) r (Qabs x)
  end.

(** Python's [round(x, 1)]: nearest multiple of one tenth of the exact value
    of [x], ties to even.  Numbers are exact rationals here; the code rounds
    the double it has computed, which at a tie of the exact value (0.15, say)
    lies just beside it, so there the code may return either of the two
    neighbouring tenths.  What both do is return a tenth within 0.05 of the
    value. *)
Definition round_half_even (q : Q) : Z :=
  let f := Qfloor q in
  match Qcompare (q - inject_Z f) (1 # 2) with
  | Lt => f
  | Gt => (f + 1)%Z
  | Eq => if Z.even f then f else (f + 1)%Z
  end.

Definition py_round1 (x : Q) : Q := inject_Z (round_half_even (x * 10)) / 10.

(** [l[-n:]] *)
Definition last_n {A : Type} (n : nat) (l : list A) : list A :=
  if (n =? 0)%nat then l else skipn (length l - n) l.

Fixpoint insert_sorted (x : Q) (l : list Q) : list Q :=
  match l with
  | [] => [x]
  | y :: r => if Qle_bool x y then x :: l else y :: insert_sorted x r
  end.

Definition sort_Q (l : list Q) : list Q := fold_right insert_sorted [] l.

(** [np.median]: middle element of the sorted data, or the mean of the two
    middle elements when the length is even; NaN ([None]) on empty data. *)
Definition np_median (l : list Q) : option Q :=
  match l with
  | [] => None
  | _ :: _ =>
      let s := sort_Q l in
      let n := length s in
      if Nat.even n
      then Some ((nth (n / 2 - 1) s 0 + nth (n / 2) s 0) / 2)
      else Some (nth (n / 2) s 0)
  end.

(** ** [collections.deque(maxlen=n)]

    [append] on a full deque drops the oldest (leftmost) item; a deque of
    [maxlen] 0 stays empty. *)
Definition deque_append (maxlen : nat) (d : list Q) (x : Q) : list Q :=
  if (maxlen =? 0)%nat then d
  else if (length d <? maxlen)%nat then d ++ [x]
  else tl d ++ [x].

(** ** [scipy.signal]: the filter provider

    The coefficient formulas and the numeric core of [filtfilt] belong to
    scipy, not to the repository; they are an interface here.  What the loops
    depend on is scipy's input validation: the designers raise [ValueError]
    when a normalised frequency is not strictly between 0 and 1, and
    [filtfilt] raises [ValueError] when the signal is not strictly longer than
    the edge padding, which is [padlen] when given and
    [3 * max(len(a), len(b))] otherwise. *)

Record coeffs : Type := mkCoeffs { coef_b : list Q; coef_a : list Q }.

Class FilterProvider : Type := {
  (** [iirnotch(w0, Q)] *)
  iirnotch : Q -> Q -> coeffs;
  (** [butter(order, [low, high], btype="band")] *)
  butter_band : nat -> Q -> Q -> coeffs;
  (** the padded forward-backward pass of [filtfilt], given the edge length *)
  zero_phase : coeffs -> nat -> list Q -> list Q
}.


(** A Python call either returns or raises. *)
Inductive result (A : Type) : Type :=
| Ok (a : A)
| ValueError.
Arguments Ok {A} a.
Arguments ValueError {A}.

Definition bind {A B : Type} (r : result A) (k : A -> result B) : result B :=
  match r with
  | Ok a => k a
  | ValueError => ValueError
  end.

(** [iirnotch(w0, Q)] with its validation [0 < w0 < 1]. *)
Definition checked_iirnotch {P : FilterProvider} (w0 q : Q) : result coeffs :=
  if Qltb 0 w0 && Qltb w0 1 then Ok (iirnotch w0 q) else ValueError.

(** [butter(order, [low, high], btype="band")] with its validation
    [0 < Wn < 1] of both critical frequencies. *)
Definition checked_butter_band {P : FilterProvider} (order : nat) (low high : Q)
  : result coeffs :=
  if Qltb 0 low && Qltb low 1 && Qltb 0 high && Qltb high 1
  then Ok (butter_band order low high)
  else ValueError.

(** [filtfilt(b, a, x, padlen=...)] *)
Definition filtfilt {P : FilterProvider} (c : coeffs) (padlen : option nat) (x : list Q)
  : result (list Q) :=
  let ntaps := Nat.max (length (coef_a c)) (length (coef_b c)) in
  let edge := match padlen with Some p => p | None => (ntaps * 3)%nat end in
  if (length x <=? edge)%nat then ValueError else Ok (zero_phase c edge x).

(** [0.5 * (s[idx_a, :] + s[idx_b, :])] on two rows of equal length. *)
Fixpoint combine_channels (a b : list Q) : list Q :=
  match a, b with
  | x :: a', y :: b' => (1 # 2) * (x + y) :: combine_channels a' b'
  | _, _ => []
  end.

(** One processed sample: the conditioned value and the clock reading
    [now = time.time()] taken while it is processed. *)
Record sample : Type := mkSample { v_raw : Q; now : Q }.

(** ** Flask endpoints: request bodies and answers *)

(** A parsed JSON value ([request.get_json()]).  A number written with a
    fraction or an exponent is read as a Python float ([JNum], the finite
    double it denotes); a number written as an integer is read as a Python
    int of any size ([JInt]).  Of an array or an object the handlers can only
    observe whether it is empty, so these carry their size. *)
Inductive json : Type :=
| JNull
| JBool (b : bool)
| JNum (q : Q)
| JInt (z : Z)
| JStr (s : String.string)
| JArr (size : nat)
| JObj (size : nat).

Inductive exc : Type := TypeError | BadValue | ZeroDivisionError | OverflowError.

(** What a handler does: it returns, or an exception ends it (Flask answers
    500); either way the writes made before stay. *)
Inductive outcome (A : Type) : Type :=
| Returns (a : A)
| Raises (e : exc).
Arguments Returns {A} a.
Arguments Raises {A} e.

(** [float(s)] on a string: the number the text denotes, [None] when the text
    is rejected ([ValueError]).  Reading numerals is Python's, not the
    repository's. *)
Class FloatParser : Type := { float_of_string : String.string -> option Q }.

(** [float(n)] on an int: the nearest double, ties to even, or [None] when
    that lies beyond the largest double ([OverflowError: int too large to
    convert to float]).  An integer of fewer than 54 bits is converted
    exactly; a longer one is rounded to 53 significant bits. *)
Definition int_to_double (z : Z) : option Z :=
  let a := Z.abs z in
  let e := (Z.log2 a - 52)%Z in
  if (e <=? 0)%Z then Some z
  else
    let q := (a / 2 ^ e)%Z in
    let r := (a mod 2 ^ e)%Z in
    let half := (2 ^ (e - 1))%Z in
    let m := if (r <? half)%Z then q
             else if (half <? r)%Z then (q + 1)%Z
             else if Z.even q then q else (q + 1)%Z in
    if (m * 2 ^ e <? 2 ^ 1024)%Z then Some (Z.sgn z * (m * 2 ^ e))%Z else None.

(** [float(v)] *)
Definition py_float {F : FloatParser} (v : json) : outcome Q :=
  match v with
  | JNum q => Returns q
  | JInt z =>
      match int_to_double z with
      | Some d => Returns (inject_Z d)
      | None => Raises OverflowError
      end
  | JBool b => Returns (if b then 1 else 0)
  | JStr s =>
      match float_of_string s with
      | Some q => Returns q
      | None => Raises BadValue
      end
  | JNull | JArr _ | JObj _ => Raises TypeError
  end.

(** Truth value of [v] in a condition. *)
Definition truthy (v : json) : bool :=
  match v with
  | JNull => false
  | JBool b => b
  | JNum q => negb (Qeq_bool q 0)
  | JInt z => negb (z =? 0)%Z
  | JStr String.EmptyString => false
  | JStr _ => true
  | JArr n => negb (n =? 0)%nat
  | JObj n => negb (n =? 0)%nat
  end.

(** [v != ""] *)
Definition not_empty_string (v : json) : bool :=
  match v with
  | JStr String.EmptyString => false
  | _ => true
  end.

(** What [api_settings] reads of the posted object: [data[k]] for the two keys
    it looks up, [None] when [k in data] is false. *)
Record settings_body : Type := mkBody {
  body_threshold_uv : option json;
  body_cooldown_secs : option json
}.

(** The POST branch shared by the three [api_settings] handlers; [use v] is the
    extra test on the value ([True] in app_v3, [v != ""] in app_v4, [v] itself
    in detection_analysis).  The threshold is converted and stored before the
    cooldown is looked at. *)
Definition post_settings {F : FloatParser} (use : json -> bool) (data : settings_body)
    (threshold_uv cooldown_secs : Q) : outcome unit * (Q * Q) :=
  let r1 :=
    match body_threshold_uv data with
    | Some v => if use v then py_float v else Returns threshold_uv
    | None => Returns threshold_uv
    end in
  match r1 with
  | Raises e => (Raises e, (threshold_uv, cooldown_secs))
  | Returns th =>
      match body_cooldown_secs data with
      | Some v =>
          if use v
          then match py_float v with
               | Returns cd => (Returns tt, (th, cd))
               | Raises e => (Raises e, (th, cooldown_secs))
               end
          else (Returns tt, (th, cooldown_secs))
      | None => (Returns tt, (th, cooldown_secs))
      end
  end.

(** [l[::step]] for [step >= 1]: the items at positions 0, step, 2*step, ...;
    [skip] counts the items still to pass over. *)
Fixpoint every_nth (skip step : nat) (l : list Q) : list Q :=
  match l with
  | [] => []
  | x :: r =>
      match skip with
      | O => x :: every_nth (step - 1) step r
      | S k => every_nth k step r
      end
  end.

(** [l[::step]]; a zero step raises [ValueError]. *)
Definition slice_step (step : nat) (l : list Q) : outcome (list Q) :=
  if (step =? 0)%nat then Raises BadValue else Returns (every_nth 0 step l).

Definition MAX_SIGNAL_POINTS : nat := 1000.

(** Body of [api_signal] (app_v3 lines 771-778, app_v4 lines 177-183) on the
    copy of [signal_buffer]. *)
Definition downsample (samples : list Q) : outcome (list Q) :=
  if (MAX_SIGNAL_POINTS <? length samples)%nat
  then slice_step (length samples / MAX_SIGNAL_POINTS) samples
  else Returns samples.

(** Python's [round(x, 2)] on the exact value of [x]; at a tie of the exact
    value the double the code rounds may fall to either neighbour, as for
    [py_round1]. *)
Definition py_round2 (x : Q) : Q := inject_Z (round_half_even (x * 100)) / 100.

(** [x / y] *)
Definition py_div (x y : Q) : outcome Q :=
  if Qeq_bool y 0 then Raises ZeroDivisionError else Returns (x / y).

Definition obind {A B : Type} (r : outcome A) (k : A -> outcome B) : outcome B :=
  match r with
  | Returns a => k a
  | Raises e => Raises e
  end.

(** ** src/app_v3.py *)
Module AppV3.

Definition BASELINE_WIN_SECS : nat := 2.
Definition SIGNAL_BUFFER_SECS : nat := 10.
Definition DEFAULT_THRESHOLD_UV : Q := 150.
Definition DEFAULT_COOLDOWN_SECS : Q := 2 # 10.
Definition BLINK_OFF_FACTOR : Q := 3 # 10.

(** [last_event_text]: the f-string of the source, kept as its fields. *)
Inductive event_text : Type :=
| NoEventsYet
| BlinkAt (t v_abs base_level diff th_on th_off cd : Q)
| DetectorError.

(** The module-level variables guarded by [state_lock]. *)
Record shared : Type := mkShared {
  detector_running : bool;
  threshold_uv : Q;
  cooldown_secs : Q;
  last_blink_ts : Q;
  last_event_text : event_text;
  blink_pending : bool;
  signal_buffer : list Q
}.

Definition initial_shared : shared :=
  {| detector_running := false;
     threshold_uv := DEFAULT_THRESHOLD_UV;
     cooldown_secs := DEFAULT_COOLDOWN_SECS;
     last_blink_ts := 0;
     last_event_text := NoEventsYet;
     blink_pending := false;
     signal_buffer := [] |}.

(** Locals of [eeg_detector_loop] that live across samples. *)
Record detector : Type := mkDetector {
  sh : shared;
  baseline_buf : list Q;
  blink_active : bool
}.

Definition baseline_len (fs : nat) : nat := (BASELINE_WIN_SECS * fs)%nat.
Definition signal_len (fs : nat) : nat := (SIGNAL_BUFFER_SECS * fs)%nat.

Definition push_signal (fs : nat) (s : shared) (x : Q) : shared :=
  {| detector_running := detector_running s;
     threshold_uv := threshold_uv s;
     cooldown_secs := cooldown_secs s;
     last_blink_ts := last_blink_ts s;
     last_event_text := last_event_text s;
     blink_pending := blink_pending s;
     signal_buffer := deque_append (signal_len fs) (signal_buffer s) x |}.

(** The write block under [state_lock] of the enter branch. *)
Definition emit (s : shared) (t : Q) (txt : event_text) : shared :=
  {| detector_running := detector_running s;
     threshold_uv := threshold_uv s;
     cooldown_secs := cooldown_secs s;
     last_blink_ts := t;
     last_event_text := txt;
     blink_pending := true;
     signal_buffer := signal_buffer s |}.

Definition BANDPASS : Q * Q := (1, 15).
Definition NOTCH_HZ : Q := 50.

(** [design_bandpass] and [design_notch] (lines 59-69).  The frequencies are
    divided by [ny = 0.5 * fs]; at [fs = 0] Python raises at the division, an
    exception the loop handles like scipy's, and the quotient is 0 here, which
    the validation rejects. *)
Definition design_bandpass {P : FilterProvider} (fs : nat) (low high : Q) (order : nat)
  : result coeffs :=
  let ny := (1 # 2) * inject_Z (Z.of_nat fs) in
  checked_butter_band order (low / ny) (high / ny).

Definition design_notch {P : FilterProvider} (fs : nat) (f0 q : Q) : result coeffs :=
  let ny := (1 # 2) * inject_Z (Z.of_nat fs) in
  checked_iirnotch (f0 / ny) q.

(** Lines 103-104: both filters are designed once, before the warm-up; when a
    design raises, the loop ends in its error state before any chunk is read. *)
Definition design_filters {P : FilterProvider} (fs : nat)
  : result (option coeffs * option coeffs) :=
  bind (design_bandpass fs (fst BANDPASS) (snd BANDPASS) 4)
       (fun bp =>
          bind (design_notch fs NOTCH_HZ 30)
               (fun nf => Ok (Some bp, Some nf))).

(** [apply_filters(x, fs, bp, nf)] (lines 71-79) *)
Definition apply_filters {P : FilterProvider} (x : list Q) (bp nf : option coeffs)
  : result (list Q) :=
  bind (match nf with
        | Some c => filtfilt c (Some 50%nat) x
        | None => Ok x
        end)
       (fun y =>
          match bp with
          | Some c => filtfilt c (Some 50%nat) y
          | None => Ok y
          end).

(** [bx = apply_filters(bx, fs, bp, nf) if bx.size > 30 else bx] *)
Definition condition {P : FilterProvider} (bx : list Q) (bp nf : option coeffs)
  : result (list Q) :=
  if (30 <? length bx)%nat then apply_filters bx bp nf else Ok bx.

(** The filters the iterations work with: the coefficients of the two designs
    of [design_filters] once these have succeeded. *)
Definition loop_bp {P : FilterProvider} (fs : nat) : option coeffs :=
  let ny := (1 # 2) * inject_Z (Z.of_nat fs) in
  Some (butter_band 4 (fst BANDPASS / ny) (snd BANDPASS / ny)).
Definition loop_nf {P : FilterProvider} (fs : nat) : option coeffs :=
  let ny := (1 # 2) * inject_Z (Z.of_nat fs) in
  Some (iirnotch (NOTCH_HZ / ny) 30).

(** [over_on = (diff > th_on) and (v_abs > th_on)] *)
Definition over_on (th_on v_abs base_level : Q) : bool :=
  Qgtb (v_abs - base_level) th_on && Qgtb v_abs th_on.

(** Body of [for v_raw, v_abs in zip(bx, abs_bx)] (lines 151-181); [th] and
    [cd] are the copies of [threshold_uv] and [cooldown_secs] taken for the
    chunk.  The second component is the event written by this sample, if any. *)
Definition sample_step (fs : nat) (th cd : Q) (d : detector) (s : sample)
  : detector * option event_text :=
  let v_abs := Qabs (v_raw s) in
  let buf := deque_append (baseline_len fs) (baseline_buf d) v_abs in
  let sh1 := push_signal fs (sh d) (v_raw s) in
  if (length buf <? baseline_len fs)%nat
  then ({| sh := sh1; baseline_buf := buf; blink_active := blink_active d |}, None)
  else
    match np_median buf with
    | None =>
        ({| sh := sh1; baseline_buf := buf; blink_active := blink_active d |}, None)
    | Some base_level =>
        let diff := v_abs - base_level in
        let th_on := th in
        let th_off := th * BLINK_OFF_FACTOR in
        let txt := BlinkAt (now s) v_abs base_level diff th_on th_off cd in
        let enter :=
          over_on th_on v_abs base_level && negb (blink_active d)
          && Qgeb (now s - last_blink_ts sh1) cd in
        let active1 := if enter then true else blink_active d in
        let sh2 := if enter then emit sh1 (now s) txt else sh1 in
        let active2 := if active1 && Qltb diff th_off then false else active1 in
        ({| sh := sh2; baseline_buf := buf; blink_active := active2 |},
         if enter then Some txt else None)
    end.

(** The inner loop over the samples of a chunk: final state and the events
    written, oldest first. *)
Fixpoint detect_samples (fs : nat) (th cd : Q) (d : detector) (ss : list sample)
  : detector * list event_text :=
  match ss with
  | [] => (d, [])
  | s :: r =>
      let '(d1, e) := sample_step fs th cd d s in
      let '(d2, es) := detect_samples fs th cd d1 r in
      (d2, match e with Some x => x :: es | None => es end)
  end.

(** The detector state after each sample of the loop. *)
Fixpoint states_after (fs : nat) (th cd : Q) (d : detector) (ss : list sample)
  : list detector :=
  match ss with
  | [] => []
  | s :: r =>
      let d1 := fst (sample_step fs th cd d s) in
      d1 :: states_after fs th cd d1 r
  end.

(** One iteration of [while detector_running] on an already conditioned
    chunk: the configuration is copied under the lock, then the samples are
    processed. *)
Definition process_chunk (fs : nat) (d : detector) (chunk : list sample)
  : detector * list event_text :=
  let th := threshold_uv (sh d) in
  let cd := cooldown_secs (sh d) in
  detect_samples fs th cd d chunk.

Fixpoint run_chunks (fs : nat) (d : detector) (chunks : list (list sample))
  : detector * list event_text :=
  match chunks with
  | [] => (d, [])
  | c :: r =>
      let '(d1, es1) := process_chunk fs d c in
      let '(d2, es2) := run_chunks fs d1 r in
      (d2, es1 ++ es2)
  end.

(** [except Exception as e] followed by [finally]: the error is reported in
    [last_event_text] and the loop is over. *)
Definition report_error (s : shared) : shared :=
  {| detector_running := false;
     threshold_uv := threshold_uv s;
     cooldown_secs := cooldown_secs s;
     last_blink_ts := last_blink_ts s;
     last_event_text := DetectorError;
     blink_pending := blink_pending s;
     signal_buffer := signal_buffer s |}.

Fixpoint with_clock (bx clock : list Q) : list sample :=
  match bx, clock with
  | v :: bx', t :: clock' => mkSample v t :: with_clock bx' clock'
  | _, _ => []
  end.

(** One iteration of the main loop on a non-empty raw chunk (lines 141-181):
    combination, conditioning, detection; [clock] holds the readings of
    [time.time()] of the samples. *)
Definition loop_iteration {P : FilterProvider} (fs : nat) (d : detector)
    (row_a row_b clock : list Q) : detector * list event_text :=
  match condition (combine_channels row_a row_b) (loop_bp fs) (loop_nf fs) with
  | ValueError =>
      ({| sh := report_error (sh d);
          baseline_buf := baseline_buf d;
          blink_active := blink_active d |}, [])
  | Ok bx => process_chunk fs d (with_clock bx clock)
  end.

Definition event_time (e : event_text) : Q :=
  match e with
  | BlinkAt t _ _ _ _ _ _ => t
  | _ => 0
  end.

(** One iteration of the warm-up loop on a non-empty raw chunk (lines
    114-130): the magnitudes go to the baseline window, the conditioned values
    to the plot buffer; nothing is detected. *)
Definition warmup_iteration {P : FilterProvider} (fs : nat) (d : detector)
    (row_a row_b : list Q) : detector :=
  match condition (combine_channels row_a row_b) (loop_bp fs) (loop_nf fs) with
  | ValueError =>
      {| sh := report_error (sh d);
         baseline_buf := baseline_buf d;
         blink_active := blink_active d |}
  | Ok bx =>
      {| sh := fold_left (push_signal fs) bx (sh d);
         baseline_buf := fold_left (deque_append (baseline_len fs)) (map Qabs bx)
                           (baseline_buf d);
         blink_active := blink_active d |}
  end.

(** [api_events] (lines 762-768): the answer [(blink, last_event)] and the
    state with the flag cleared. *)
Definition api_events (s : shared) : (bool * event_text) * shared :=
  ((blink_pending s, last_event_text s),
   {| detector_running := detector_running s;
      threshold_uv := threshold_uv s;
      cooldown_secs := cooldown_secs s;
      last_blink_ts := last_blink_ts s;
      last_event_text := last_event_text s;
      blink_pending := false;
      signal_buffer := signal_buffer s |}).

Definition with_settings (s : shared) (th cd : Q) : shared :=
  {| detector_running := detector_running s;
     threshold_uv := th;
     cooldown_secs := cd;
     last_blink_ts := last_blink_ts s;
     last_event_text := last_event_text s;
     blink_pending := blink_pending s;
     signal_buffer := signal_buffer s |}.

(** [api_settings], POST (lines 746-753) *)
Definition api_settings_post {F : FloatParser} (data : settings_body) (s : shared)
  : outcome unit * shared :=
  let '(r, (th, cd)) :=
    post_settings (fun _ => true) data (threshold_uv s) (cooldown_secs s) in
  (r, with_settings s th cd).

(** [api_settings], GET (lines 754-759) *)
Definition api_settings_get (s : shared) : Q * Q := (threshold_uv s, cooldown_secs s).

(** [api_signal] (lines 771-778) *)
Definition api_signal (s : shared) : outcome (list Q) := downsample (signal_buffer s).

Definition CHUNK_SECS : Q := 5 # 100.

(** [int(fs * CHUNK_SECS)]: the number of samples asked of the board per
    chunk. *)
Definition chunk_len (fs : nat) : nat :=
  Z.to_nat (Qfloor (inject_Z (Z.of_nat fs) * CHUNK_SECS)).

End AppV3.

(** Calibration readings: [{"noise": [...], "blinks": [...]}] *)
Record readings : Type := mkReadings { noise : list Q; blinks : list Q }.

(** JSON answer of the [finish_calibration] endpoint. *)
Inductive calibration_response : Type :=
| Failure                              (* {"success": False} *)
| Success (suggested_threshold : Q).   (* {"success": True, "suggested_threshold": ...} *)

(** ** src/app_v4_bp-filter.py *)
Module AppV4.

Definition NOTCH_HZ : Q := 50.
Definition DEFAULT_THRESHOLD_UV : Q := 150.
Definition DEFAULT_COOLDOWN_SECS : Q := 2 # 10.
Definition BLINK_OFF_FACTOR : Q := 3 # 10.
Definition SIGNAL_MAXLEN : nat := 2500.

Inductive event_text : Type :=
| NoEventsYet
| Blink (abs_val : Q)       (* f"BLINK! {abs_val:.1f} uV" *)
| ErrorText.

Record shared : Type := mkShared {
  detector_running : bool;
  threshold_uv : Q;
  cooldown_secs : Q;
  last_blink_ts : Q;
  last_event_text : event_text;
  blink_pending : bool;
  signal_buffer : list Q;
  calibration_readings : readings;
  fs_global : nat
}.

Definition initial_shared : shared :=
  {| detector_running := false;
     threshold_uv := DEFAULT_THRESHOLD_UV;
     cooldown_secs := DEFAULT_COOLDOWN_SECS;
     last_blink_ts := 0;
     last_event_text := NoEventsYet;
     blink_pending := false;
     signal_buffer := [];
     calibration_readings := {| noise := []; blinks := [] |};
     fs_global := 250 |}.

(** [apply_filters(data, fs, notch_freq)] (lines 39-50).  The filters are
    designed anew on every call, so scipy validates the frequencies each time;
    at [fs = 0] Python raises at the division by [nyq], and the quotient is 0
    here, which the validation rejects. *)
Definition apply_filters {P : FilterProvider} (data : list Q) (fs : nat) (notch_freq : Q)
  : result (list Q) :=
  if (length data <? 100)%nat then Ok data
  else
    let nyq := (1 # 2) * inject_Z (Z.of_nat fs) in
    bind (if negb (Qeq_bool notch_freq 0)
          then bind (checked_iirnotch (notch_freq / nyq) 30)
                    (fun c => filtfilt c None data)
          else Ok data)
         (fun data1 =>
            let low := 1 / nyq in
            let high := 15 / nyq in
            bind (checked_butter_band 4 low high)
                 (fun c => filtfilt c None data1)).

Record detector : Type := mkDetector {
  sh : shared;
  raw_processing_buffer : list Q;
  blink_active : bool
}.

(** What the enter branch writes under the lock. *)
Record event : Type := mkEvent { ev_time : Q; ev_text : event_text }.

Definition emit (s : shared) (e : event) : shared :=
  {| detector_running := detector_running s;
     threshold_uv := threshold_uv s;
     cooldown_secs := cooldown_secs s;
     last_blink_ts := ev_time e;
     last_event_text := ev_text e;
     blink_pending := true;
     signal_buffer := signal_buffer s;
     calibration_readings := calibration_readings s;
     fs_global := fs_global s |}.

(** Body of [for val in filtered_window[-len(raw_chunk):]] (lines 100-111). *)
Definition sample_step (th cd : Q) (d : detector) (s : sample)
  : detector * option event :=
  let abs_val := Qabs (v_raw s) in
  if Qgtb abs_val th && negb (blink_active d)
     && Qgtb (now s - last_blink_ts (sh d)) cd
  then
    let e := {| ev_time := now s; ev_text := Blink abs_val |} in
    ({| sh := emit (sh d) e;
        raw_processing_buffer := raw_processing_buffer d;
        blink_active := true |}, Some e)
  else if blink_active d && Qltb abs_val (th * BLINK_OFF_FACTOR)
  then
    ({| sh := sh d;
        raw_processing_buffer := raw_processing_buffer d;
        blink_active := false |}, None)
  else (d, None).

Fixpoint detect_samples (th cd : Q) (d : detector) (ss : list sample)
  : detector * list event :=
  match ss with
  | [] => (d, [])
  | s :: r =>
      let '(d1, e) := sample_step th cd d s in
      let '(d2, es) := detect_samples th cd d1 r in
      (d2, match e with Some x => x :: es | None => es end)
  end.

Fixpoint states_after (th cd : Q) (d : detector) (ss : list sample) : list detector :=
  match ss with
  | [] => []
  | s :: r =>
      let d1 := fst (sample_step th cd d s) in
      d1 :: states_after th cd d1 r
  end.

Definition set_signal_buffer (s : shared) (buf : list Q) : shared :=
  {| detector_running := detector_running s;
     threshold_uv := threshold_uv s;
     cooldown_secs := cooldown_secs s;
     last_blink_ts := last_blink_ts s;
     last_event_text := last_event_text s;
     blink_pending := blink_pending s;
     signal_buffer := buf;
     calibration_readings := calibration_readings s;
     fs_global := fs_global s |}.

Definition report_error (s : shared) : shared :=
  {| detector_running := detector_running s;
     threshold_uv := threshold_uv s;
     cooldown_secs := cooldown_secs s;
     last_blink_ts := last_blink_ts s;
     last_event_text := ErrorText;
     blink_pending := blink_pending s;
     signal_buffer := signal_buffer s;
     calibration_readings := calibration_readings s;
     fs_global := fs_global s |}.

Fixpoint with_clock (xs clock : list Q) : list sample :=
  match xs, clock with
  | v :: xs', t :: clock' => mkSample v t :: with_clock xs' clock'
  | _, _ => []
  end.

(** One iteration of [while detector_running] on a non-empty chunk
    (lines 81-111). *)
Definition loop_iteration {P : FilterProvider} (fs : nat) (d : detector)
    (row_a row_b clock : list Q) : detector * list event :=
  let raw_chunk := combine_channels row_a row_b in
  let buf := fold_left (deque_append (fs * 2)) raw_chunk (raw_processing_buffer d) in
  if (length buf <? fs)%nat
  then ({| sh := sh d; raw_processing_buffer := buf; blink_active := blink_active d |}, [])
  else
    match apply_filters buf fs NOTCH_HZ with
    | ValueError =>
        ({| sh := report_error (sh d);
            raw_processing_buffer := buf;
            blink_active := blink_active d |}, [])
    | Ok filtered_window =>
        let new_filtered := last_n (length raw_chunk) filtered_window in
        let sh1 :=
          set_signal_buffer (sh d)
            (fold_left (deque_append SIGNAL_MAXLEN) new_filtered (signal_buffer (sh d))) in
        detect_samples (threshold_uv sh1) (cooldown_secs sh1)
          {| sh := sh1; raw_processing_buffer := buf; blink_active := blink_active d |}
          (with_clock new_filtered clock)
    end.

Definition set_readings (s : shared) (r : readings) : shared :=
  {| detector_running := detector_running s;
     threshold_uv := threshold_uv s;
     cooldown_secs := cooldown_secs s;
     last_blink_ts := last_blink_ts s;
     last_event_text := last_event_text s;
     blink_pending := blink_pending s;
     signal_buffer := signal_buffer s;
     calibration_readings := r;
     fs_global := fs_global s |}.

(** [mark_calibration] (lines 149-158); [is_blink] is [label == "blink"]. *)
Definition mark_calibration (is_blink : bool) (s : shared) : shared :=
  let recent := last_n (fs_global s) (signal_buffer s) in
  match recent with
  | [] => s
  | _ :: _ =>
      let val := max_abs recent in
      let r := calibration_readings s in
      if is_blink
      then set_readings s {| noise := noise r; blinks := blinks r ++ [val] |}
      else set_readings s {| noise := noise r ++ [val]; blinks := blinks r |}
  end.

(** [finish_calibration] (lines 160-174) *)
Definition finish_calibration (s : shared) : calibration_response * shared :=
  match blinks (calibration_readings s) with
  | [] => (Failure, s)
  | _ :: _ =>
      let avg_blink := Qmean (blinks (calibration_readings s)) in
      let avg_noise :=
        match noise (calibration_readings s) with
        | [] => 30
        | _ :: _ => Qmean (noise (calibration_readings s))
        end in
      let suggested := avg_noise + (avg_blink - avg_noise) * (6 # 10) in
      let th := py_round1 suggested in
      (Success th,
       {| detector_running := detector_running s;
          threshold_uv := th;
          cooldown_secs := cooldown_secs s;
          last_blink_ts := last_blink_ts s;
          last_event_text := last_event_text s;
          blink_pending := blink_pending s;
          signal_buffer := signal_buffer s;
          calibration_readings := {| noise := []; blinks := [] |};
          fs_global := fs_global s |})
  end.

(** [api_events] (lines 186-191) *)
Definition api_events (s : shared) : (bool * event_text) * shared :=
  ((blink_pending s, last_event_text s),
   {| detector_running := detector_running s;
      threshold_uv := threshold_uv s;
      cooldown_secs := cooldown_secs s;
      last_blink_ts := last_blink_ts s;
      last_event_text := last_event_text s;
      blink_pending := false;
      signal_buffer := signal_buffer s;
      calibration_readings := calibration_readings s;
      fs_global := fs_global s |}).

Definition with_settings (s : shared) (th cd : Q) : shared :=
  {| detector_running := detector_running s;
     threshold_uv := th;
     cooldown_secs := cd;
     last_blink_ts := last_blink_ts s;
     last_event_text := last_event_text s;
     blink_pending := blink_pending s;
     signal_buffer := signal_buffer s;
     calibration_readings := calibration_readings s;
     fs_global := fs_global s |}.

(** [api_settings], POST (lines 196-204) *)
Definition api_settings_post {F : FloatParser} (data : settings_body) (s : shared)
  : outcome unit * shared :=
  let '(r, (th, cd)) :=
    post_settings not_empty_string data (threshold_uv s) (cooldown_secs s) in
  (r, with_settings s th cd).

(** [api_settings], GET (line 205) *)
Definition api_settings_get (s : shared) : Q * Q := (threshold_uv s, cooldown_secs s).

(** [api_signal] (lines 177-183) *)
Definition api_signal (s : shared) : outcome (list Q) := downsample (signal_buffer s).

End AppV4.

(** ** src/EEG/blink_detection_v2.py *)
Module BlinkDetectionV2.

Definition BASELINE_WIN_SECS : nat := 1.
Definition THRESH_UV : Q := 100.
Definition MIN_ABS_UV : Q := 100.
Definition BLINK_DEBOUNCE_S : Q := 35 # 100.

Definition baseline_len (fs : nat) : nat := (BASELINE_WIN_SECS * fs)%nat.

(** Locals of [main] that live across samples. *)
Record state : Type := mkState { baseline_buf : list Q; last_blink_ts : Q }.

(** The printed [EVENT:BLINK] line, sent as one UDP datagram. *)
Record event : Type := mkEvent { ev_val : Q; ev_base : Q; ev_diff : Q }.

(** [over = (diff > THRESH_UV) and (val > MIN_ABS_UV)] *)
Definition over (val base_mean : Q) : bool :=
  Qgtb (val - base_mean) THRESH_UV && Qgtb val MIN_ABS_UV.

(** Body of [for v in bx] (lines 136-167); [t] is the clock reading of the
    chunk ([now = time.time()], line 134). *)
Definition sample_step (fs : nat) (t : Q) (st : state) (v : Q) : state * option event :=
  let val := Qabs v in
  let buf := deque_append (baseline_len fs) (baseline_buf st) val in
  if (length buf <? baseline_len fs)%nat
  then ({| baseline_buf := buf; last_blink_ts := last_blink_ts st |}, None)
  else
    match np_mean buf with
    | None => ({| baseline_buf := buf; last_blink_ts := last_blink_ts st |}, None)
    | Some base_mean =>
        let diff := val - base_mean in
        if over val base_mean && Qgeb (t - last_blink_ts st) BLINK_DEBOUNCE_S
        then ({| baseline_buf := buf; last_blink_ts := t |},
              Some {| ev_val := val; ev_base := base_mean; ev_diff := diff |})
        else ({| baseline_buf := buf; last_blink_ts := last_blink_ts st |}, None)
    end.

Fixpoint process_chunk (fs : nat) (t : Q) (st : state) (bx : list Q)
  : state * list event :=
  match bx with
  | [] => (st, [])
  | v :: r =>
      let '(st1, e) := sample_step fs t st v in
      let '(st2, es) := process_chunk fs t st1 r in
      (st2, match e with Some x => x :: es | None => es end)
  end.

(** [apply_filters] (lines 52-60) and the guarded call of lines 108 and 132. *)
Definition apply_filters {P : FilterProvider} (x : list Q) (bp nf : option coeffs)
  : result (list Q) :=
  bind (match nf with
        | Some c => filtfilt c (Some 50%nat) x
        | None => Ok x
        end)
       (fun y =>
          match bp with
          | Some c => filtfilt c (Some 50%nat) y
          | None => Ok y
          end).

Definition condition {P : FilterProvider} (bx : list Q) (bp nf : option coeffs)
  : result (list Q) :=
  if (30 <? length bx)%nat then apply_filters bx bp nf else Ok bx.

(** The detection loop over conditioned chunks (lines 124-169); a chunk comes
    with its clock reading, and an event is listed with the reading of its
    chunk. *)
Fixpoint main_loop (fs : nat) (st : state) (chunks : list (Q * list Q))
  : state * list (Q * event) :=
  match chunks with
  | [] => (st, [])
  | (t, bx) :: r =>
      let '(st1, es1) := process_chunk fs t st bx in
      let '(st2, es2) := main_loop fs st1 r in
      (st2, map (fun e => (t, e)) es1 ++ es2)
  end.

End BlinkDetectionV2.

(** ** src/detection_analysis.py *)
Module DetectionAnalysis.

Inductive cue : Type := Idle | Relax | BlinkCue | Finished.

Record stats_t : Type := mkStats {
  test_active : bool;
  current_cue : cue;
  tp : nat; fp : nat; fn : nat;
  total_cues : nat;
  progress : nat
}.

Record shared : Type := mkShared {
  detector_running : bool;
  threshold_uv : Q;
  cooldown_secs : Q;
  signal_buffer : list Q;
  calibration_readings : readings;
  fs_global : nat;
  stats : stats_t;
  blink_detected_in_window : bool
}.

(** [finish_calibration] (lines 175-185) *)
Definition finish_calibration (s : shared) : calibration_response * shared :=
  match blinks (calibration_readings s) with
  | [] => (Failure, s)
  | _ :: _ =>
      let avg_blink := Qmean (blinks (calibration_readings s)) in
      let avg_noise :=
        match noise (calibration_readings s) with
        | [] => 30
        | _ :: _ => Qmean (noise (calibration_readings s))
        end in
      let suggested := avg_noise + (avg_blink - avg_noise) * (6 # 10) in
      let th := py_round1 suggested in
      (Success th,
       {| detector_running := detector_running s;
          threshold_uv := th;
          cooldown_secs := cooldown_secs s;
          signal_buffer := signal_buffer s;
          calibration_readings := {| noise := []; blinks := [] |};
          fs_global := fs_global s;
          stats := stats s;
          blink_detected_in_window := blink_detected_in_window s |})
  end.

Definition NOTCH_HZ : Q := 50.
Definition BLINK_OFF_FACTOR : Q := 3 # 10.

(** [apply_filters] (lines 40-54); the window has at least 100 samples where
    its median is taken, and the frequencies are validated as in app_v4. *)
Definition apply_filters {P : FilterProvider} (data : list Q) (fs : nat) (notch_freq : Q)
  : result (list Q) :=
  if (length data <? 100)%nat then Ok data
  else
    let data0 :=
      match np_median data with
      | Some m => map (fun x => x - m) data
      | None => data
      end in
    let nyq := (1 # 2) * inject_Z (Z.of_nat fs) in
    bind (if negb (Qeq_bool notch_freq 0)
          then bind (checked_iirnotch (notch_freq / nyq) 30)
                    (fun c => filtfilt c None data0)
          else Ok data0)
         (fun data1 =>
            let low := 1 / nyq in
            let high := 10 / nyq in
            bind (checked_butter_band 4 low high)
                 (fun c => filtfilt c None data1)).

(** Locals of [eeg_loop] that live across samples. *)
Record detector : Type := mkDetector {
  sh : shared;
  raw_processing_buffer : list Q;
  last_blink_ts : Q;
  blink_active : bool
}.

Definition set_detected (s : shared) (b : bool) : shared :=
  {| detector_running := detector_running s;
     threshold_uv := threshold_uv s;
     cooldown_secs := cooldown_secs s;
     signal_buffer := signal_buffer s;
     calibration_readings := calibration_readings s;
     fs_global := fs_global s;
     stats := stats s;
     blink_detected_in_window := b |}.

(** Body of [for val in new_filtered] (lines 98-107); the flag tells whether
    the sample was taken as a blink. *)
Definition sample_step (th cd : Q) (d : detector) (s : sample) : detector * bool :=
  let abs_val := Qabs (v_raw s) in
  if Qgtb abs_val th && negb (blink_active d) && Qgtb (now s - last_blink_ts d) cd
  then
    ({| sh := set_detected (sh d) true;
        raw_processing_buffer := raw_processing_buffer d;
        last_blink_ts := now s;
        blink_active := true |}, true)
  else if blink_active d && Qltb abs_val (th * BLINK_OFF_FACTOR)
  then
    ({| sh := sh d;
        raw_processing_buffer := raw_processing_buffer d;
        last_blink_ts := last_blink_ts d;
        blink_active := false |}, false)
  else (d, false).

(** The sample loop: final state and the clock readings of the samples taken
    as blinks. *)
Fixpoint detect_samples (th cd : Q) (d : detector) (ss : list sample)
  : detector * list Q :=
  match ss with
  | [] => (d, [])
  | s :: r =>
      let '(d1, fired) := sample_step th cd d s in
      let '(d2, ts) := detect_samples th cd d1 r in
      (d2, if fired then now s :: ts else ts)
  end.

Definition set_stats (s : shared) (st : stats_t) : shared :=
  {| detector_running := detector_running s;
     threshold_uv := threshold_uv s;
     cooldown_secs := cooldown_secs s;
     signal_buffer := signal_buffer s;
     calibration_readings := calibration_readings s;
     fs_global := fs_global s;
     stats := st;
     blink_detected_in_window := blink_detected_in_window s |}.

(** One pass of the loop of [run_test_logic] (lines 121-138).  The flag is
    cleared before each of the two waits and set by the detector thread;
    [hits] holds what the thread reads after the relax wait and after the blink
    wait. *)
Definition run_cue (i : nat) (hits : bool * bool) (s : shared) : shared :=
  let st := stats s in
  let fp1 := if fst hits then (fp st + 1)%nat else fp st in
  {| detector_running := detector_running s;
     threshold_uv := threshold_uv s;
     cooldown_secs := cooldown_secs s;
     signal_buffer := signal_buffer s;
     calibration_readings := calibration_readings s;
     fs_global := fs_global s;
     stats :=
       {| test_active := test_active st;
          current_cue := BlinkCue;
          tp := if snd hits then (tp st + 1)%nat else tp st;
          fp := fp1;
          fn := if snd hits then fn st else (fn st + 1)%nat;
          total_cues := total_cues st;
          progress := (i + 1)%nat |};
     blink_detected_in_window := snd hits |}.

Fixpoint run_cues (n i : nat) (hits : nat -> bool * bool) (s : shared) : shared :=
  match n with
  | O => s
  | S k => run_cues k (S i) hits (run_cue i (hits i) s)
  end.

(** [run_test_logic] (lines 116-141) *)
Definition run_test_logic (hits : nat -> bool * bool) (s : shared) : shared :=
  let s0 :=
    set_stats s
      {| test_active := true;
         current_cue := current_cue (stats s);
         tp := 0; fp := 0; fn := 0;
         total_cues := total_cues (stats s);
         progress := 0 |} in
  let s1 := run_cues (total_cues (stats s0)) 0 hits s0 in
  set_stats s1
    {| test_active := false;
       current_cue := Finished;
       tp := tp (stats s1); fp := fp (stats s1); fn := fn (stats s1);
       total_cues := total_cues (stats s1);
       progress := progress (stats s1) |}.

Definition set_readings (s : shared) (r : readings) : shared :=
  {| detector_running := detector_running s;
     threshold_uv := threshold_uv s;
     cooldown_secs := cooldown_secs s;
     signal_buffer := signal_buffer s;
     calibration_readings := r;
     fs_global := fs_global s;
     stats := stats s;
     blink_detected_in_window := blink_detected_in_window s |}.

(** [mark_calibration] (lines 165-173); [is_blink] is [label == "blink"]. *)
Definition mark_calibration (is_blink : bool) (s : shared) : shared :=
  let recent := last_n (fs_global s) (signal_buffer s) in
  match recent with
  | [] => s
  | _ :: _ =>
      let val := max_abs recent in
      let r := calibration_readings s in
      if is_blink
      then set_readings s {| noise := noise r; blinks := blinks r ++ [val] |}
      else set_readings s {| noise := noise r ++ [val]; blinks := blinks r |}
  end.

Definition with_settings (s : shared) (th cd : Q) : shared :=
  {| detector_running := detector_running s;
     threshold_uv := th;
     cooldown_secs := cd;
     signal_buffer := signal_buffer s;
     calibration_readings := calibration_readings s;
     fs_global := fs_global s;
     stats := stats s;
     blink_detected_in_window := blink_detected_in_window s |}.

(** [api_settings], POST (lines 190-195) *)
Definition api_settings_post {F : FloatParser} (data : settings_body) (s : shared)
  : outcome unit * shared :=
  let '(r, (th, cd)) := post_settings truthy data (threshold_uv s) (cooldown_secs s) in
  (r, with_settings s th cd).

Definition api_settings_get (s : shared) : Q * Q := (threshold_uv s, cooldown_secs s).

(** JSON answer of [get_stats]: the [stats] dictionary and the derived
    figures. *)
Record stats_answer : Type := mkAnswer {
  a_stats : stats_t;
  a_precision : Q;
  a_recall : Q;
  a_f1 : Q;
  a_running : bool;
  a_threshold_uv : Q;
  a_cooldown_secs : Q
}.

Definition of_nat (n : nat) : Q := inject_Z (Z.of_nat n).

(** [get_stats] (lines 199-205) *)
Definition get_stats (s : shared) : outcome stats_answer :=
  let tp := tp (stats s) in
  let fp := fp (stats s) in
  let fn := fn (stats s) in
  obind (if (0 <? tp + fp)%nat then py_div (of_nat tp) (of_nat (tp + fp)) else Returns 0)
    (fun precision =>
  obind (if (0 <? tp + fn)%nat then py_div (of_nat tp) (of_nat (tp + fn)) else Returns 0)
    (fun recall =>
  obind (if Qgtb (precision + recall) 0
         then py_div (2 * (precision * recall)) (precision + recall)
         else Returns 0)
    (fun f1 =>
  Returns {| a_stats := stats s;
             a_precision := py_round2 precision;
             a_recall := py_round2 recall;
             a_f1 := py_round2 f1;
             a_running := detector_running s;
             a_threshold_uv := threshold_uv s;
             a_cooldown_secs := cooldown_secs s |}))).

(** [get_signal] (lines 208-209): [list(signal_buffer)[::2]] *)
Definition get_signal (s : shared) : list Q := every_nth 0 2 (signal_buffer s).

End DetectionAnalysis.

(** * Vocabulary of the statements *)

(** The window a sample is judged against: the baseline buffer after the
    sample's own magnitude has been appended. *)
Definition window_v3 (fs : nat) (d : AppV3.detector) (s : sample) : list Q :=
  deque_append (AppV3.baseline_len fs) (AppV3.baseline_buf d) (Qabs (v_raw s)).

Definition window_v2 (fs : nat) (st : BlinkDetectionV2.state) (v : Q) : list Q :=
  deque_append (BlinkDetectionV2.baseline_len fs) (BlinkDetectionV2.baseline_buf st) (Qabs v).

(** The onset condition is met by sample [s] in state [d] (app_v3: on a ready
    window, against the median of that window). *)
Definition onset_v3 (fs : nat) (th : Q) (d : AppV3.detector) (s : sample) : bool :=
  negb (length (window_v3 fs d s) <? AppV3.baseline_len fs)%nat &&
  match np_median (window_v3 fs d s) with
  | Some b => AppV3.over_on th (Qabs (v_raw s)) b
  | None => false
  end.

(** Every sample of the loop meets the onset condition when it is processed. *)
Fixpoint onset_run_v3 (fs : nat) (th cd : Q) (d : AppV3.detector) (ss : list sample) : bool :=
  match ss with
  | [] => true
  | s :: r =>
      onset_v3 fs th d s && onset_run_v3 fs th cd (fst (AppV3.sample_step fs th cd d s)) r
  end.

Definition onset_v4 (th : Q) (s : sample) : bool := Qgtb (Qabs (v_raw s)) th.

(** Sample [s] falls below the exit threshold [th * BLINK_OFF_FACTOR] in
    state [d]. *)
Definition below_exit_v3 (fs : nat) (th : Q) (d : AppV3.detector) (s : sample) : bool :=
  negb (length (window_v3 fs d s) <? AppV3.baseline_len fs)%nat &&
  match np_median (window_v3 fs d s) with
  | Some b => Qltb (Qabs (v_raw s) - b) (th * AppV3.BLINK_OFF_FACTOR)
  | None => false
  end.

(** No sample of the loop falls below the exit threshold when it is processed. *)
Fixpoint elevated_run_v3 (fs : nat) (th cd : Q) (d : AppV3.detector) (ss : list sample)
  : bool :=
  match ss with
  | [] => true
  | s :: r =>
      negb (below_exit_v3 fs th d s)
      && elevated_run_v3 fs th cd (fst (AppV3.sample_step fs th cd d s)) r
  end.

Definition below_exit_v4 (th : Q) (s : sample) : bool :=
  Qltb (Qabs (v_raw s)) (th * AppV4.BLINK_OFF_FACTOR).

(** Samples with clock readings 4 ms apart (one sample period at 250 Hz),
    the first at [t0] milliseconds. *)
Fixpoint clocked (t0 : Z) (vs : list Q) : list sample :=
  match vs with
  | [] => []
  | v :: r => mkSample v (t0 # 1000) :: clocked (t0 + 4) r
  end.

(** Scenario B: quiet signal at 10 uV, a spike of five samples at 300 uV, 25
    quiet samples (0.10 s), a second spike of five samples, quiet again. *)
Definition scenario_B_tail : list Q :=
  repeat 300 5 ++ repeat 10 25 ++ repeat 300 5 ++ repeat 10 10.

(** app_v3 at 250 Hz: the 500 quiet samples fill the baseline window. *)
Definition scenario_B_v3 : list sample := clocked 1000000 (repeat 10 500 ++ scenario_B_tail).

Definition scenario_B_v4 : list sample := clocked 1000000 (repeat 10 40 ++ scenario_B_tail).

Definition fresh_v3 : AppV3.detector :=
  {| AppV3.sh := AppV3.initial_shared; AppV3.baseline_buf := []; AppV3.blink_active := false |}.

Definition fresh_v4 : AppV4.detector :=
  {| AppV4.sh := AppV4.initial_shared;
     AppV4.raw_processing_buffer := [];
     AppV4.blink_active := false |}.

(** The blend of the calibration formula:
    [avg_noise + (avg_blink - avg_noise) * 0.6]. *)
Definition blend (avg_noise avg_blink : Q) : Q :=
  avg_noise + (avg_blink - avg_noise) * (6 # 10).

(** A calibration run of app_v4 that ends with the given readings. *)
Definition calibrated_v4 (ns bs : list Q) : AppV4.shared :=
  AppV4.set_readings AppV4.initial_shared {| noise := ns; blinks := bs |}.

Definition calibrated_da (ns bs : list Q) : DetectionAnalysis.shared :=
  {| DetectionAnalysis.detector_running := false;
     DetectionAnalysis.threshold_uv := 150;
     DetectionAnalysis.cooldown_secs := 2 # 10;
     DetectionAnalysis.signal_buffer := [];
     DetectionAnalysis.calibration_readings := {| noise := ns; blinks := bs |};
     DetectionAnalysis.fs_global := 250;
     DetectionAnalysis.stats :=
       {| DetectionAnalysis.test_active := false;
          DetectionAnalysis.current_cue := DetectionAnalysis.Idle;
          DetectionAnalysis.tp := 0; DetectionAnalysis.fp := 0; DetectionAnalysis.fn := 0;
          DetectionAnalysis.total_cues := 12;
          DetectionAnalysis.progress := 0 |};
     DetectionAnalysis.blink_detected_in_window := false |}.

(** A filter provider that computes: the difference equation of
    [a[0]*y[n] = b[0]*x[n] + b[1]*x[n-1] + ... - a[1]*y[n-1] - ...] run forward
    and then backward over the signal.  It has the shapes [FilterProviderLaws]
    asks for and is used to run the conditioners on concrete windows. *)
Definition dot (a b : list Q) : Q :=
  Qsum (map (fun p => fst p * snd p) (combine a b)).

Fixpoint lfilter_from (b a xh yh x : list Q) : list Q :=
  match x with
  | [] => []
  | xn :: r =>
      let yn := (dot b (xn :: xh) - dot (tl a) yh) / hd 1 a in
      yn :: lfilter_from b a (xn :: xh) (yn :: yh) r
  end.

Definition lfilter (c : coeffs) (x : list Q) : list Q :=
  lfilter_from (coef_b c) (coef_a c) [] [] x.

Definition direct_form : FilterProvider :=
  {| iirnotch := fun w0 q => mkCoeffs [1; - w0; 1] [1; - w0; 1 # 2];
     butter_band := fun n lo hi =>
       mkCoeffs (repeat (1 # 4) (2 * n + 1)) (1 :: repeat 0 (2 * n));
     zero_phase := fun c _ x => rev (lfilter c (rev (lfilter c x))) |}.

(** An app_v3 detector at 4 Hz (baseline window of 8 samples) whose window is
    full of quiet signal at 10 uV; [ts] is the recorded last-event time. *)
Definition ready_v3 (active : bool) (ts : Q) : AppV3.detector :=
  {| AppV3.sh :=
       {| AppV3.detector_running := true;
          AppV3.threshold_uv := 150;
          AppV3.cooldown_secs := 35 # 100;
          AppV3.last_blink_ts := ts;
          AppV3.last_event_text := AppV3.NoEventsYet;
          AppV3.blink_pending := false;
          AppV3.signal_buffer := [] |};
     AppV3.baseline_buf := repeat 10 8;
     AppV3.blink_active := active |}.

Definition ready_v4 (active : bool) (ts : Q) : AppV4.detector :=
  {| AppV4.sh :=
       {| AppV4.detector_running := true;
          AppV4.threshold_uv := 150;
          AppV4.cooldown_secs := 35 # 100;
          AppV4.last_blink_ts := ts;
          AppV4.last_event_text := AppV4.NoEventsYet;
          AppV4.blink_pending := false;
          AppV4.signal_buffer := [];
          AppV4.calibration_readings := {| noise := []; blinks := [] |};
          AppV4.fs_global := 250 |};
     AppV4.raw_processing_buffer := [];
     AppV4.blink_active := active |}.

Definition fresh_v2 : BlinkDetectionV2.state :=
  {| BlinkDetectionV2.baseline_buf := []; BlinkDetectionV2.last_blink_ts := 0 |}.

(** Number of [k] in [i, i + n) with [f k] true. *)
Fixpoint count_hits (f : nat -> bool) (i n : nat) : nat :=
  match n with
  | O => 0
  | S m => ((if f i then 1 else 0) + count_hits f (S i) m)%nat
  end.

(** Every stored calibration reading is a magnitude. *)
Definition nonneg_readings (r : readings) : Prop :=
  Forall (fun x => 0 <= x) (noise r) /\ Forall (fun x => 0 <= x) (blinks r).

(** Number of items of [l] equal to [c]. *)
Definition count_eq (c : Q) (l : list Q) : nat :=
  length (filter (fun x => Qeq_bool x c) l).

(** A numeral reader for unsigned decimal integers, used to run the settings
    handlers on concrete requests. *)
Fixpoint parse_digits (acc : Z) (s : String.string) : option Z :=
  match s with
  | String.EmptyString => Some acc
  | String.String c r =>
      let n := Ascii.nat_of_ascii c in
      if ((48 <=? n) && (n <=? 57))%nat
      then parse_digits (acc * 10 + Z.of_nat (n - 48)) r
      else None
  end.

Definition digits_parser : FloatParser :=
  {| float_of_string := fun s =>
       match s with
       | String.EmptyString => None
       | String.String _ _ => option_map inject_Z (parse_digits 0 s)
       end |}.

(** A detection_analysis state with the given counters and plot buffer. *)
Definition measured_da (tp fp fn : nat) (buf : list Q) : DetectionAnalysis.shared :=
  {| DetectionAnalysis.detector_running := true;
     DetectionAnalysis.threshold_uv := 150;
     DetectionAnalysis.cooldown_secs := 2 # 10;
     DetectionAnalysis.signal_buffer := buf;
     DetectionAnalysis.calibration_readings := {| noise := []; blinks := [] |};
     DetectionAnalysis.fs_global := 250;
     DetectionAnalysis.stats :=
       {| DetectionAnalysis.test_active := false;
          DetectionAnalysis.current_cue := DetectionAnalysis.Idle;
          DetectionAnalysis.tp := tp; DetectionAnalysis.fp := fp; DetectionAnalysis.fn := fn;
          DetectionAnalysis.total_cues := 12;
          DetectionAnalysis.progress := 0 |};
     DetectionAnalysis.blink_detected_in_window := false |}.

Definition ready_da (active : bool) (ts : Q) : DetectionAnalysis.detector :=
  {| DetectionAnalysis.sh := measured_da 0 0 0 [];
     DetectionAnalysis.raw_processing_buffer := [];
     DetectionAnalysis.last_blink_ts := ts;
     DetectionAnalysis.blink_active := active |}.

(** An app_v4 state whose plot buffer holds [buf]. *)
Definition plotted_v4 (buf : list Q) : AppV4.shared :=
  AppV4.set_signal_buffer AppV4.initial_shared buf.

(** An app_v3 detector at 250 Hz whose baseline window of 500 samples is full
    of quiet signal at 10 uV. *)
Definition settled_v3 (active : bool) : AppV3.detector :=
  {| AppV3.sh := AppV3.initial_shared;
     AppV3.baseline_buf := repeat 10 500;
     AppV3.blink_active := active |}.

(** A magnitude held at 300 uV for [n] samples. *)
Definition held_v3 (n : nat) : list sample := clocked 1000000 (repeat 300 n).

(** The largest double. *)
Definition DBL_MAX : Q := inject_Z ((2 ^ 53 - 1) * 2 ^ 971).

(** The number a posted value stands for, where [float] returns it without
    rounding: a float in the range of doubles, an integer of magnitude at
    most [2^53], or a non-empty text that reads as a number (what the pages
    post). *)
Definition posted_number {F : FloatParser} (v : json) : option Q :=
  match v with
  | JNum q => if Qle_bool (Qabs q) DBL_MAX then Some q else None
  | JInt z => if (Z.abs z <=? 2 ^ 53)%Z then Some (inject_Z z) else None
  | JStr String.EmptyString => None
  | JStr t => float_of_string t
  | _ => None
  end.

(** The text of one digit zero, as the settings form posts it. *)
Definition text_zero : String.string :=
  String.String (Ascii.ascii_of_nat 48) String.EmptyString.

(** * Properties *)

(** ** Comparisons *)

Lemma Qgtb_true (x y : Q) : Qgtb x y = true <-> y < x.
Proof.
  unfold Qgtb. rewrite negb_true_iff. split; intro H.
  - apply Qnot_le_lt. intro Hle. apply Qle_bool_iff in Hle. congruence.
  - destruct (Qle_bool x y) eqn:E; trivial.
    apply Qle_bool_iff in E. exfalso. exact (Qlt_not_le _ _ H E).
Qed.

Lemma Qltb_true (x y : Q) : Qltb x y = true <-> x < y.
Proof. exact (Qgtb_true y x). Qed.

Lemma Qgeb_true (x y : Q) : Qgeb x y = true <-> y <= x.
Proof. unfold Qgeb. apply Qle_bool_iff. Qed.

Lemma Qgtb_false (x y : Q) : Qgtb x y = false <-> x <= y.
Proof.
  unfold Qgtb. rewrite negb_false_iff. apply Qle_bool_iff.
Qed.

Lemma Qltb_false (x y : Q) : Qltb x y = false <-> y <= x.
Proof. exact (Qgtb_false y x). Qed.

Lemma Qgeb_false (x y : Q) : Qgeb x y = false <-> x < y.
Proof.
  unfold Qgeb. split; intro H.
  - apply Qnot_le_lt. intro Hle. apply Qle_bool_iff in Hle. congruence.
  - destruct (Qle_bool y x) eqn:E; trivial.
    apply Qle_bool_iff in E. exfalso. exact (Qlt_not_le _ _ H E).
Qed.

(** ** The bounded deque *)

Lemma deque_append_below (n : nat) (d : list Q) (x : Q) :
  (length d < n)%nat -> deque_append n d x = d ++ [x].
Proof.
  intro H. unfold deque_append.
  destruct (Nat.eqb_spec n 0); [lia|].
  destruct (Nat.ltb_spec (length d) n); [reflexivity|lia].
Qed.

(** ** Onset condition *)

Lemma over_on_spec (th m b : Q) :
  AppV3.over_on th m b = true <-> (th < m - b /\ th < m).
Proof.
  unfold AppV3.over_on. rewrite andb_true_iff, !Qgtb_true. tauto.
Qed.

Lemma over_spec (val base : Q) :
  BlinkDetectionV2.over val base = true <->
  (BlinkDetectionV2.THRESH_UV < val - base /\ BlinkDetectionV2.MIN_ABS_UV < val).
Proof.
  unfold BlinkDetectionV2.over. rewrite andb_true_iff, !Qgtb_true. tauto.
Qed.

(** An event of the app_v3 loop is written only on a ready window whose
    median satisfies the onset condition, while quiescent and out of cooldown. *)
Lemma v3_event_inv (fs : nat) (th cd : Q) (d d' : AppV3.detector) (s : sample)
    (e : AppV3.event_text) :
  AppV3.sample_step fs th cd d s = (d', Some e) ->
  exists b,
    (AppV3.baseline_len fs <= length (window_v3 fs d s))%nat /\
    np_median (window_v3 fs d s) = Some b /\
    AppV3.over_on th (Qabs (v_raw s)) b = true /\
    AppV3.blink_active d = false /\
    cd <= now s - AppV3.last_blink_ts (AppV3.sh d) /\
    e = AppV3.BlinkAt (now s) (Qabs (v_raw s)) b (Qabs (v_raw s) - b) th
          (th * AppV3.BLINK_OFF_FACTOR) cd /\
    AppV3.last_blink_ts (AppV3.sh d') = now s /\
    AppV3.blink_pending (AppV3.sh d') = true /\
    AppV3.last_event_text (AppV3.sh d') = e.
Proof.
  unfold AppV3.sample_step. fold (window_v3 fs d s).
  destruct (Nat.ltb_spec (length (window_v3 fs d s)) (AppV3.baseline_len fs)) as [Hl|Hl].
  { intro H; inversion H. }
  destruct (np_median (window_v3 fs d s)) as [b|] eqn:Hm.
  2:{ intro H; inversion H. }
  cbv zeta.
  destruct (AppV3.over_on th (Qabs (v_raw s)) b) eqn:Ho; simpl.
  2:{ intro H; inversion H. }
  destruct (AppV3.blink_active d) eqn:Ha; simpl.
  { intro H; inversion H. }
  destruct (Qgeb (now s - AppV3.last_blink_ts (AppV3.sh d)) cd) eqn:Hc; simpl.
  2:{ intro H; inversion H. }
  intro H. inversion H; subst; clear H. exists b.
  apply Qgeb_true in Hc. simpl. repeat split; auto.
Qed.

Lemma v3_no_onset_no_event (fs : nat) (th cd : Q) (d : AppV3.detector) (s : sample) (b : Q) :
  np_median (window_v3 fs d s) = Some b ->
  AppV3.over_on th (Qabs (v_raw s)) b = false ->
  snd (AppV3.sample_step fs th cd d s) = None /\
  (AppV3.blink_active d = false ->
   AppV3.blink_active (fst (AppV3.sample_step fs th cd d s)) = false).
Proof.
  intros Hm Ho. unfold AppV3.sample_step. fold (window_v3 fs d s).
  destruct (length (window_v3 fs d s) <? AppV3.baseline_len fs)%nat; simpl.
  { auto. }
  rewrite Hm. cbv zeta. rewrite Ho. simpl. split; [reflexivity|].
  intro Ha. rewrite Ha. reflexivity.
Qed.

Lemma v2_event_inv (fs : nat) (t : Q) (st st' : BlinkDetectionV2.state) (v : Q)
    (e : BlinkDetectionV2.event) :
  BlinkDetectionV2.sample_step fs t st v = (st', Some e) ->
  exists base,
    (BlinkDetectionV2.baseline_len fs <= length (window_v2 fs st v))%nat /\
    np_mean (window_v2 fs st v) = Some base /\
    BlinkDetectionV2.over (Qabs v) base = true /\
    BlinkDetectionV2.BLINK_DEBOUNCE_S <= t - BlinkDetectionV2.last_blink_ts st /\
    BlinkDetectionV2.last_blink_ts st' = t.
Proof.
  unfold BlinkDetectionV2.sample_step. fold (window_v2 fs st v).
  destruct (Nat.ltb_spec (length (window_v2 fs st v)) (BlinkDetectionV2.baseline_len fs))
    as [Hl|Hl].
  { intro H; inversion H. }
  destruct (np_mean (window_v2 fs st v)) as [base|] eqn:Hm.
  2:{ intro H; inversion H. }
  destruct (BlinkDetectionV2.over (Qabs v) base) eqn:Ho; simpl.
  2:{ intro H; inversion H. }
  destruct (Qgeb (t - BlinkDetectionV2.last_blink_ts st) BlinkDetectionV2.BLINK_DEBOUNCE_S)
    eqn:Hc; simpl.
  2:{ intro H; inversion H. }
  intro H. inversion H; subst; clear H. exists base.
  apply Qgeb_true in Hc. simpl. repeat split; auto.
Qed.

(** C5.  The onset condition of the detector loops is the conjunction of the
    differential test and the absolute test.  On a ready window a sample
    writes an event exactly when [(m - b) > onset] and [m > onset] both hold,
    the trigger is Quiescent and the cooldown has passed; for a non-negative
    threshold this is exactly when a Quiescent trigger becomes Active.  A
    sample that fails either test writes no event and leaves a Quiescent
    trigger Quiescent.  In blink_detection_v2, which has no Active state, a
    sample on a ready window sends an event exactly when both tests of [over]
    hold and the debounce time has passed. *)
Theorem C5_onset_needs_differential_and_absolute :
  (forall fs th cd d s b,
      (AppV3.baseline_len fs <= length (window_v3 fs d s))%nat ->
      np_median (window_v3 fs d s) = Some b ->
      (snd (AppV3.sample_step fs th cd d s) <> None <->
       (th < Qabs (v_raw s) - b /\ th < Qabs (v_raw s)) /\
       AppV3.blink_active d = false /\
       cd <= now s - AppV3.last_blink_ts (AppV3.sh d)) /\
      (0 <= th ->
       AppV3.blink_active d = false ->
       (AppV3.blink_active (fst (AppV3.sample_step fs th cd d s)) = true <->
        (th < Qabs (v_raw s) - b /\ th < Qabs (v_raw s)) /\
        cd <= now s - AppV3.last_blink_ts (AppV3.sh d))) /\
      (~ (th < Qabs (v_raw s) - b /\ th < Qabs (v_raw s)) ->
       snd (AppV3.sample_step fs th cd d s) = None /\
       (AppV3.blink_active d = false ->
        AppV3.blink_active (fst (AppV3.sample_step fs th cd d s)) = false))) /\
  (forall th m b : Q, AppV3.over_on th m b = true <-> (th < m - b /\ th < m)) /\
  (forall fs t st v base,
      (BlinkDetectionV2.baseline_len fs <= length (window_v2 fs st v))%nat ->
      np_mean (window_v2 fs st v) = Some base ->
      (snd (BlinkDetectionV2.sample_step fs t st v) <> None <->
       (BlinkDetectionV2.THRESH_UV < Qabs v - base /\
        BlinkDetectionV2.MIN_ABS_UV < Qabs v) /\
       BlinkDetectionV2.BLINK_DEBOUNCE_S <= t - BlinkDetectionV2.last_blink_ts st)) /\
  (forall val base : Q,
      BlinkDetectionV2.over val base = true <->
      (BlinkDetectionV2.THRESH_UV < val - base /\ BlinkDetectionV2.MIN_ABS_UV < val)).
Proof.
  split.
  { intros fs th cd d s b Hfull Hm.
    split; [|split].
    - unfold AppV3.sample_step. fold (window_v3 fs d s).
      destruct (Nat.ltb_spec (length (window_v3 fs d s)) (AppV3.baseline_len fs))
        as [Hl|_]; [lia|].
      rewrite Hm. cbv zeta.
      change (AppV3.last_blink_ts (AppV3.push_signal fs (AppV3.sh d) (v_raw s)))
        with (AppV3.last_blink_ts (AppV3.sh d)).
      rewrite <- over_on_spec, <- Qgeb_true.
      destruct (AppV3.over_on th (Qabs (v_raw s)) b);
        destruct (AppV3.blink_active d);
        destruct (Qgeb (now s - AppV3.last_blink_ts (AppV3.sh d)) cd); simpl;
        split; intro H; try tauto; try discriminate;
        try (destruct H as (H1 & H2 & H3); discriminate).
    - intros Hth Ha. unfold AppV3.sample_step. fold (window_v3 fs d s).
      destruct (Nat.ltb_spec (length (window_v3 fs d s)) (AppV3.baseline_len fs))
        as [Hl|_]; [lia|].
      rewrite Hm. cbv zeta.
      change (AppV3.last_blink_ts (AppV3.push_signal fs (AppV3.sh d) (v_raw s)))
        with (AppV3.last_blink_ts (AppV3.sh d)).
      rewrite Ha. rewrite <- Qgeb_true.
      destruct (AppV3.over_on th (Qabs (v_raw s)) b) eqn:Ho.
      + pose proof (proj1 (over_on_spec _ _ _) Ho) as [Hd Hv].
        assert (Hoff : Qltb (Qabs (v_raw s) - b) (th * AppV3.BLINK_OFF_FACTOR) = false).
        { apply Qltb_false. unfold AppV3.BLINK_OFF_FACTOR. lra. }
        destruct (Qgeb (now s - AppV3.last_blink_ts (AppV3.sh d)) cd); simpl.
        * rewrite Hoff. simpl. tauto.
        * split; [discriminate|]. intros [_ K]. discriminate K.
      + simpl. split; [discriminate|]. intros [[Hd Hv] _].
        assert (K : AppV3.over_on th (Qabs (v_raw s)) b = true)
          by (apply over_on_spec; split; assumption).
        congruence.
    - intro Hn. apply v3_no_onset_no_event with (b := b); [exact Hm|].
      destruct (AppV3.over_on th (Qabs (v_raw s)) b) eqn:Ho; trivial.
      apply over_on_spec in Ho. contradiction. }
  split; [exact over_on_spec|].
  split; [|exact over_spec].
  intros fs t st v base Hfull Hm.
  unfold BlinkDetectionV2.sample_step. fold (window_v2 fs st v).
  destruct (Nat.ltb_spec (length (window_v2 fs st v)) (BlinkDetectionV2.baseline_len fs))
    as [Hl|_]; [lia|].
  rewrite Hm. rewrite <- over_spec, <- Qgeb_true.
  destruct (BlinkDetectionV2.over (Qabs v) base);
    destruct (Qgeb (t - BlinkDetectionV2.last_blink_ts st) BlinkDetectionV2.BLINK_DEBOUNCE_S);
    simpl; split; intro H; try tauto; try discriminate;
    try (destruct H as (H1 & H2); discriminate).
Qed.

(** ** Warm-up *)

Lemma deque_append_short (n : nat) (d : list Q) (x : Q) :
  (length (deque_append n d x) < n)%nat -> deque_append n d x = d ++ [x].
Proof.
  unfold deque_append.
  destruct (Nat.eqb_spec n 0); [lia|].
  destruct (Nat.ltb_spec (length d) n); [reflexivity|].
  rewrite length_app. simpl. destruct d; simpl in *; lia.
Qed.

Lemma v3_warm_up_step (fs : nat) (th cd : Q) (d : AppV3.detector) (s : sample) :
  (length (window_v3 fs d s) < AppV3.baseline_len fs)%nat ->
  AppV3.sample_step fs th cd d s =
  ({| AppV3.sh := AppV3.push_signal fs (AppV3.sh d) (v_raw s);
      AppV3.baseline_buf := AppV3.baseline_buf d ++ [Qabs (v_raw s)];
      AppV3.blink_active := AppV3.blink_active d |}, None).
Proof.
  intro H. unfold AppV3.sample_step. fold (window_v3 fs d s).
  destruct (Nat.ltb_spec (length (window_v3 fs d s)) (AppV3.baseline_len fs)); [|lia].
  unfold window_v3 in *. rewrite (deque_append_short _ _ _ H). reflexivity.
Qed.

Lemma v2_warm_up_step (fs : nat) (t : Q) (st : BlinkDetectionV2.state) (v : Q) :
  (length (window_v2 fs st v) < BlinkDetectionV2.baseline_len fs)%nat ->
  BlinkDetectionV2.sample_step fs t st v =
  ({| BlinkDetectionV2.baseline_buf := BlinkDetectionV2.baseline_buf st ++ [Qabs v];
      BlinkDetectionV2.last_blink_ts := BlinkDetectionV2.last_blink_ts st |}, None).
Proof.
  intro H. unfold BlinkDetectionV2.sample_step. fold (window_v2 fs st v).
  destruct (Nat.ltb_spec (length (window_v2 fs st v)) (BlinkDetectionV2.baseline_len fs));
    [|lia].
  unfold window_v2 in *. rewrite (deque_append_short _ _ _ H). reflexivity.
Qed.

Lemma v3_warm_up_run (fs : nat) (th cd : Q) (ss : list sample) :
  forall d : AppV3.detector,
    (length (AppV3.baseline_buf d) + length ss < AppV3.baseline_len fs)%nat ->
    snd (AppV3.detect_samples fs th cd d ss) = [] /\
    AppV3.baseline_buf (fst (AppV3.detect_samples fs th cd d ss)) =
      AppV3.baseline_buf d ++ map (fun s => Qabs (v_raw s)) ss /\
    AppV3.blink_active (fst (AppV3.detect_samples fs th cd d ss)) = AppV3.blink_active d /\
    AppV3.last_blink_ts (AppV3.sh (fst (AppV3.detect_samples fs th cd d ss))) =
      AppV3.last_blink_ts (AppV3.sh d) /\
    AppV3.blink_pending (AppV3.sh (fst (AppV3.detect_samples fs th cd d ss))) =
      AppV3.blink_pending (AppV3.sh d) /\
    AppV3.last_event_text (AppV3.sh (fst (AppV3.detect_samples fs th cd d ss))) =
      AppV3.last_event_text (AppV3.sh d).
Proof.
  induction ss as [|s r IH]; intros d Hlen.
  - simpl. rewrite app_nil_r. repeat split.
  - simpl in Hlen. simpl.
    assert (Hw : (length (window_v3 fs d s) < AppV3.baseline_len fs)%nat).
    { unfold window_v3. rewrite deque_append_below by lia.
      rewrite length_app. simpl. lia. }
    rewrite (v3_warm_up_step fs th cd d s Hw).
    set (d1 := {| AppV3.sh := AppV3.push_signal fs (AppV3.sh d) (v_raw s);
                  AppV3.baseline_buf := AppV3.baseline_buf d ++ [Qabs (v_raw s)];
                  AppV3.blink_active := AppV3.blink_active d |}).
    specialize (IH d1).
    destruct (AppV3.detect_samples fs th cd d1 r) as [d2 es] eqn:E.
    simpl in *.
    destruct IH as (H1 & H2 & H3 & H4 & H5 & H6).
    { rewrite length_app. simpl. lia. }
    subst es. rewrite H2, H3, H4, H5, H6, <- app_assoc. simpl. repeat split.
Qed.

Lemma v2_warm_up_run (fs : nat) (t : Q) (bx : list Q) :
  forall st : BlinkDetectionV2.state,
    (length (BlinkDetectionV2.baseline_buf st) + length bx
       < BlinkDetectionV2.baseline_len fs)%nat ->
    snd (BlinkDetectionV2.process_chunk fs t st bx) = [] /\
    BlinkDetectionV2.baseline_buf (fst (BlinkDetectionV2.process_chunk fs t st bx)) =
      BlinkDetectionV2.baseline_buf st ++ map Qabs bx /\
    BlinkDetectionV2.last_blink_ts (fst (BlinkDetectionV2.process_chunk fs t st bx)) =
      BlinkDetectionV2.last_blink_ts st.
Proof.
  induction bx as [|v r IH]; intros st Hlen.
  - simpl. rewrite app_nil_r. repeat split.
  - simpl in Hlen. simpl.
    assert (Hw : (length (window_v2 fs st v) < BlinkDetectionV2.baseline_len fs)%nat).
    { unfold window_v2. rewrite deque_append_below by lia.
      rewrite length_app. simpl. lia. }
    rewrite (v2_warm_up_step fs t st v Hw).
    set (st1 := {| BlinkDetectionV2.baseline_buf :=
                     BlinkDetectionV2.baseline_buf st ++ [Qabs v];
                   BlinkDetectionV2.last_blink_ts := BlinkDetectionV2.last_blink_ts st |}).
    specialize (IH st1).
    destruct (BlinkDetectionV2.process_chunk fs t st1 r) as [st2 es] eqn:E.
    simpl in *.
    destruct IH as (H1 & H2 & H3).
    { rewrite length_app. simpl. lia. }
    subst es. rewrite H2, H3, <- app_assoc. simpl. repeat split.
Qed.

(** C4.  Warm-up: a sample that leaves the baseline window with fewer than
    [baseline_len = BASELINE_WIN_SECS * fs] items is appended to the window and
    then skipped: no event is written and the trigger state, the last-event
    timestamp, the pending flag and the event text are untouched, whatever the
    magnitude.  Hence a loop that starts with [k] items in the window writes no
    event during its first samples as long as fewer than [baseline_len] items
    have been received.  Both app_v3 and blink_detection_v2 behave so. *)
Theorem C4_no_event_during_baseline_warm_up :
  (forall fs th cd d s,
      (length (window_v3 fs d s) < AppV3.baseline_len fs)%nat ->
      AppV3.sample_step fs th cd d s =
      ({| AppV3.sh := AppV3.push_signal fs (AppV3.sh d) (v_raw s);
          AppV3.baseline_buf := AppV3.baseline_buf d ++ [Qabs (v_raw s)];
          AppV3.blink_active := AppV3.blink_active d |}, None)) /\
  (forall fs th cd ss d,
      (length (AppV3.baseline_buf d) + length ss < AppV3.baseline_len fs)%nat ->
      snd (AppV3.detect_samples fs th cd d ss) = [] /\
      AppV3.baseline_buf (fst (AppV3.detect_samples fs th cd d ss)) =
        AppV3.baseline_buf d ++ map (fun s => Qabs (v_raw s)) ss /\
      AppV3.blink_active (fst (AppV3.detect_samples fs th cd d ss)) = AppV3.blink_active d /\
      AppV3.last_blink_ts (AppV3.sh (fst (AppV3.detect_samples fs th cd d ss))) =
        AppV3.last_blink_ts (AppV3.sh d) /\
      AppV3.blink_pending (AppV3.sh (fst (AppV3.detect_samples fs th cd d ss))) =
        AppV3.blink_pending (AppV3.sh d) /\
      AppV3.last_event_text (AppV3.sh (fst (AppV3.detect_samples fs th cd d ss))) =
        AppV3.last_event_text (AppV3.sh d)) /\
  (forall fs t st v,
      (length (window_v2 fs st v) < BlinkDetectionV2.baseline_len fs)%nat ->
      BlinkDetectionV2.sample_step fs t st v =
      ({| BlinkDetectionV2.baseline_buf := BlinkDetectionV2.baseline_buf st ++ [Qabs v];
          BlinkDetectionV2.last_blink_ts := BlinkDetectionV2.last_blink_ts st |}, None)) /\
  (forall fs t bx st,
      (length (BlinkDetectionV2.baseline_buf st) + length bx
         < BlinkDetectionV2.baseline_len fs)%nat ->
      snd (BlinkDetectionV2.process_chunk fs t st bx) = [] /\
      BlinkDetectionV2.baseline_buf (fst (BlinkDetectionV2.process_chunk fs t st bx)) =
        BlinkDetectionV2.baseline_buf st ++ map Qabs bx /\
      BlinkDetectionV2.last_blink_ts (fst (BlinkDetectionV2.process_chunk fs t st bx)) =
        BlinkDetectionV2.last_blink_ts st).
Proof.
  split; [exact v3_warm_up_step|].
  split; [exact v3_warm_up_run|].
  split; [exact v2_warm_up_step|].
  exact v2_warm_up_run.
Qed.

(** ** One event per excursion *)

Lemma v3_active_step (fs : nat) (th cd : Q) (d : AppV3.detector) (s : sample) :
  AppV3.blink_active d = true ->
  snd (AppV3.sample_step fs th cd d s) = None /\
  AppV3.last_blink_ts (AppV3.sh (fst (AppV3.sample_step fs th cd d s))) =
    AppV3.last_blink_ts (AppV3.sh d) /\
  AppV3.blink_pending (AppV3.sh (fst (AppV3.sample_step fs th cd d s))) =
    AppV3.blink_pending (AppV3.sh d) /\
  AppV3.last_event_text (AppV3.sh (fst (AppV3.sample_step fs th cd d s))) =
    AppV3.last_event_text (AppV3.sh d).
Proof.
  intro Ha. unfold AppV3.sample_step.
  destruct (length _ <? AppV3.baseline_len fs)%nat; simpl; [repeat split|].
  destruct (np_median _) as [b|]; simpl; [|repeat split].
  rewrite Ha, andb_false_r. simpl. repeat split.
Qed.

Lemma v4_active_step (th cd : Q) (d : AppV4.detector) (s : sample) :
  AppV4.blink_active d = true ->
  snd (AppV4.sample_step th cd d s) = None /\
  AppV4.sh (fst (AppV4.sample_step th cd d s)) = AppV4.sh d.
Proof.
  intro Ha. unfold AppV4.sample_step.
  rewrite Ha, andb_false_r. simpl.
  destruct (Qltb _ _); simpl; split; reflexivity.
Qed.

Lemma v3_active_run_silent (fs : nat) (th cd : Q) (ss : list sample) :
  forall d,
    AppV3.blink_active d = true ->
    Forall (fun x => AppV3.blink_active x = true) (AppV3.states_after fs th cd d ss) ->
    snd (AppV3.detect_samples fs th cd d ss) = [].
Proof.
  induction ss as [|s r IH]; intros d Ha Hall; [reflexivity|].
  simpl in *. inversion Hall as [|x l Hx Hr]; subst.
  destruct (v3_active_step fs th cd d s Ha) as (Hn & _).
  specialize (IH _ Hx Hr).
  destruct (AppV3.sample_step fs th cd d s) as [d1 e]. simpl in *.
  destruct (AppV3.detect_samples fs th cd d1 r) as [d2 es]. simpl in *.
  subst. reflexivity.
Qed.

Lemma v4_active_run_silent (th cd : Q) (ss : list sample) :
  forall d,
    AppV4.blink_active d = true ->
    Forall (fun x => AppV4.blink_active x = true) (AppV4.states_after th cd d ss) ->
    snd (AppV4.detect_samples th cd d ss) = [].
Proof.
  induction ss as [|s r IH]; intros d Ha Hall; [reflexivity|].
  simpl in *. inversion Hall as [|x l Hx Hr]; subst.
  destruct (v4_active_step th cd d s Ha) as (Hn & _).
  specialize (IH _ Hx Hr).
  destruct (AppV4.sample_step th cd d s) as [d1 e]. simpl in *.
  destruct (AppV4.detect_samples th cd d1 r) as [d2 es]. simpl in *.
  subst. reflexivity.
Qed.

Lemma v3_excursion_one_event (fs : nat) (th cd : Q) (ss : list sample) (d : AppV3.detector) :
  Forall (fun x => AppV3.blink_active x = true) (AppV3.states_after fs th cd d ss) ->
  (length (snd (AppV3.detect_samples fs th cd d ss)) <= 1)%nat /\
  (AppV3.blink_active d = true -> snd (AppV3.detect_samples fs th cd d ss) = []).
Proof.
  intro Hall. split.
  - destruct ss as [|s r]; [simpl; lia|].
    simpl in *. inversion Hall as [|x l Hx Hr]; subst.
    pose proof (v3_active_run_silent fs th cd r _ Hx Hr) as Hs.
    destruct (AppV3.sample_step fs th cd d s) as [d1 e]. simpl in *.
    destruct (AppV3.detect_samples fs th cd d1 r) as [d2 es]. simpl in *.
    subst es. destruct e; simpl; lia.
  - intro Ha. apply v3_active_run_silent; assumption.
Qed.

Lemma v4_excursion_one_event (th cd : Q) (ss : list sample) (d : AppV4.detector) :
  Forall (fun x => AppV4.blink_active x = true) (AppV4.states_after th cd d ss) ->
  (length (snd (AppV4.detect_samples th cd d ss)) <= 1)%nat /\
  (AppV4.blink_active d = true -> snd (AppV4.detect_samples th cd d ss) = []).
Proof.
  intro Hall. split.
  - destruct ss as [|s r]; [simpl; lia|].
    simpl in *. inversion Hall as [|x l Hx Hr]; subst.
    pose proof (v4_active_run_silent th cd r _ Hx Hr) as Hs.
    destruct (AppV4.sample_step th cd d s) as [d1 e]. simpl in *.
    destruct (AppV4.detect_samples th cd d1 r) as [d2 es]. simpl in *.
    subst es. destruct e; simpl; lia.
  - intro Ha. apply v4_active_run_silent; assumption.
Qed.

Lemma off_below_on (th x : Q) :
  0 <= th -> th < x -> Qltb x (th * AppV3.BLINK_OFF_FACTOR) = false.
Proof.
  intros H0 Hx. apply Qltb_false. unfold AppV3.BLINK_OFF_FACTOR. lra.
Qed.

Lemma v3_onset_step (fs : nat) (th cd : Q) (d : AppV3.detector) (s : sample) :
  0 <= th ->
  onset_v3 fs th d s = true ->
  (AppV3.blink_active d = true ->
   snd (AppV3.sample_step fs th cd d s) = None /\
   AppV3.blink_active (fst (AppV3.sample_step fs th cd d s)) = true) /\
  (AppV3.blink_active d = false ->
   (snd (AppV3.sample_step fs th cd d s) = None /\
    AppV3.blink_active (fst (AppV3.sample_step fs th cd d s)) = false) \/
   (snd (AppV3.sample_step fs th cd d s) <> None /\
    AppV3.blink_active (fst (AppV3.sample_step fs th cd d s)) = true)).
Proof.
  intros H0. unfold onset_v3, AppV3.sample_step.
  destruct (length (window_v3 fs d s) <? AppV3.baseline_len fs)%nat eqn:El; simpl;
    [discriminate|].
  fold (window_v3 fs d s). rewrite El.
  destruct (np_median (window_v3 fs d s)) as [b|]; [|discriminate].
  intro Ho. cbv zeta. rewrite Ho.
  pose proof (proj1 (over_on_spec _ _ _) Ho) as [Hd _].
  pose proof (off_below_on th _ H0 Hd) as Hoff.
  split; intro Ha; rewrite Ha; simpl.
  - rewrite Hoff. simpl. auto.
  - destruct (Qgeb (now s - AppV3.last_blink_ts (AppV3.sh d)) cd); simpl.
    + right. rewrite Hoff. simpl. split; [discriminate|reflexivity].
    + left. auto.
Qed.

Lemma v3_onset_run_active (fs : nat) (th cd : Q) (ss : list sample) :
  0 <= th ->
  forall d,
    AppV3.blink_active d = true ->
    onset_run_v3 fs th cd d ss = true ->
    snd (AppV3.detect_samples fs th cd d ss) = [].
Proof.
  intro H0. induction ss as [|s r IH]; intros d Ha Hrun; [reflexivity|].
  simpl in *. apply andb_true_iff in Hrun as [Hs Hr].
  destruct (v3_onset_step fs th cd d s H0 Hs) as [Hact _].
  destruct (Hact Ha) as [Hn Ha1].
  specialize (IH _ Ha1 Hr).
  destruct (AppV3.sample_step fs th cd d s) as [d1 e]. simpl in *.
  destruct (AppV3.detect_samples fs th cd d1 r) as [d2 es]. simpl in *.
  subst. reflexivity.
Qed.

Lemma v3_onset_run_one_event (fs : nat) (th cd : Q) (ss : list sample) :
  0 <= th ->
  forall d,
    onset_run_v3 fs th cd d ss = true ->
    (length (snd (AppV3.detect_samples fs th cd d ss)) <= 1)%nat.
Proof.
  intro H0. induction ss as [|s r IH]; intros d Hrun; [simpl; lia|].
  destruct (AppV3.blink_active d) eqn:Ha.
  { rewrite (v3_onset_run_active fs th cd (s :: r) H0 d Ha Hrun). simpl; lia. }
  simpl in *. apply andb_true_iff in Hrun as [Hs Hr].
  destruct (v3_onset_step fs th cd d s H0 Hs) as [_ Hq].
  destruct (Hq Ha) as [[Hn Ha1]|[Hn Ha1]].
  - specialize (IH _ Hr).
    destruct (AppV3.sample_step fs th cd d s) as [d1 e]. simpl in *.
    destruct (AppV3.detect_samples fs th cd d1 r) as [d2 es]. simpl in *.
    subst e. exact IH.
  - pose proof (v3_onset_run_active fs th cd r H0 _ Ha1 Hr) as Hs'.
    destruct (AppV3.sample_step fs th cd d s) as [d1 e]. simpl in *.
    destruct (AppV3.detect_samples fs th cd d1 r) as [d2 es]. simpl in *.
    subst es. destruct e; simpl; lia.
Qed.

Lemma v4_onset_step (th cd : Q) (d : AppV4.detector) (s : sample) :
  onset_v4 th s = true ->
  (AppV4.blink_active d = true ->
   snd (AppV4.sample_step th cd d s) = None /\
   AppV4.blink_active (fst (AppV4.sample_step th cd d s)) = true) /\
  (AppV4.blink_active d = false ->
   (snd (AppV4.sample_step th cd d s) = None /\
    AppV4.blink_active (fst (AppV4.sample_step th cd d s)) = false) \/
   (snd (AppV4.sample_step th cd d s) <> None /\
    AppV4.blink_active (fst (AppV4.sample_step th cd d s)) = true)).
Proof.
  unfold onset_v4, AppV4.sample_step. intro Ho. rewrite Ho.
  assert (Hoff : Qltb (Qabs (v_raw s)) (th * AppV4.BLINK_OFF_FACTOR) = false).
  { apply Qltb_false. apply Qgtb_true in Ho.
    pose proof (Qabs_nonneg (v_raw s)). unfold AppV4.BLINK_OFF_FACTOR.
    destruct (Qlt_le_dec th 0); lra. }
  split; intro Ha; rewrite Ha; simpl.
  - rewrite Hoff. simpl. auto.
  - destruct (Qgtb (now s - AppV4.last_blink_ts (AppV4.sh d)) cd); simpl.
    + right. split; [discriminate|reflexivity].
    + left. auto.
Qed.

Lemma v4_onset_run_active (th cd : Q) (ss : list sample) :
  forall d,
    AppV4.blink_active d = true ->
    forallb (onset_v4 th) ss = true ->
    snd (AppV4.detect_samples th cd d ss) = [].
Proof.
  induction ss as [|s r IH]; intros d Ha Hrun; [reflexivity|].
  simpl in *. apply andb_true_iff in Hrun as [Hs Hr].
  destruct (v4_onset_step th cd d s Hs) as [Hact _].
  destruct (Hact Ha) as [Hn Ha1].
  specialize (IH _ Ha1 Hr).
  destruct (AppV4.sample_step th cd d s) as [d1 e]. simpl in *.
  destruct (AppV4.detect_samples th cd d1 r) as [d2 es]. simpl in *.
  subst. reflexivity.
Qed.

Lemma v4_onset_run_one_event (th cd : Q) (ss : list sample) :
  forall d,
    forallb (onset_v4 th) ss = true ->
    (length (snd (AppV4.detect_samples th cd d ss)) <= 1)%nat.
Proof.
  induction ss as [|s r IH]; intros d Hrun; [simpl; lia|].
  destruct (AppV4.blink_active d) eqn:Ha.
  { rewrite (v4_onset_run_active th cd (s :: r) d Ha Hrun). simpl; lia. }
  simpl in *. apply andb_true_iff in Hrun as [Hs Hr].
  destruct (v4_onset_step th cd d s Hs) as [_ Hq].
  destruct (Hq Ha) as [[Hn Ha1]|[Hn Ha1]].
  - specialize (IH (fst (AppV4.sample_step th cd d s)) Hr).
    destruct (AppV4.sample_step th cd d s) as [d1 e]. simpl in *.
    destruct (AppV4.detect_samples th cd d1 r) as [d2 es]. simpl in *.
    subst e. exact IH.
  - pose proof (v4_onset_run_active th cd r _ Ha1 Hr) as Hs'.
    destruct (AppV4.sample_step th cd d s) as [d1 e]. simpl in *.
    destruct (AppV4.detect_samples th cd d1 r) as [d2 es]. simpl in *.
    subst es. destruct e; simpl; lia.
Qed.

(** The bound on onset stretches needs the non-negative threshold in app_v3:
    with the threshold -10 (the settings endpoint accepts any number) a sample
    can enter and leave Active at once, and the next one enters again. *)
Example v3_negative_threshold_refires :
  length (snd (AppV3.detect_samples 4 (-10) 0 (ready_v3 false 0)
                 (clocked 1000000 [3; 3]))) = 2%nat /\
  onset_run_v3 4 (-10) 0 (ready_v3 false 0) (clocked 1000000 [3; 3]) = true.
Proof. split; vm_compute; reflexivity. Qed.

(** C1.  While the trigger is Active no event is written: a sample processed
    with [blink_active] set leaves [last_blink_ts], [blink_pending] and
    [last_event_text] as they were.  Hence a stretch of samples during which the
    trigger is Active after every sample (one excursion) writes at most one
    event, the one of its Quiescent-to-Active entry, and none if it started
    Active; and a stretch of consecutive samples that all meet the onset
    condition writes at most one event, however long it is (app_v3: for a
    non-negative threshold).  Stated for the loops of app_v3 and app_v4. *)
Theorem C1_at_most_one_event_per_excursion :
  (forall fs th cd d s,
      AppV3.blink_active d = true ->
      snd (AppV3.sample_step fs th cd d s) = None /\
      AppV3.last_blink_ts (AppV3.sh (fst (AppV3.sample_step fs th cd d s))) =
        AppV3.last_blink_ts (AppV3.sh d) /\
      AppV3.blink_pending (AppV3.sh (fst (AppV3.sample_step fs th cd d s))) =
        AppV3.blink_pending (AppV3.sh d) /\
      AppV3.last_event_text (AppV3.sh (fst (AppV3.sample_step fs th cd d s))) =
        AppV3.last_event_text (AppV3.sh d)) /\
  (forall fs th cd ss d,
      Forall (fun x => AppV3.blink_active x = true) (AppV3.states_after fs th cd d ss) ->
      (length (snd (AppV3.detect_samples fs th cd d ss)) <= 1)%nat /\
      (AppV3.blink_active d = true -> snd (AppV3.detect_samples fs th cd d ss) = [])) /\
  (forall fs th cd ss d,
      0 <= th ->
      onset_run_v3 fs th cd d ss = true ->
      (length (snd (AppV3.detect_samples fs th cd d ss)) <= 1)%nat) /\
  (forall th cd d s,
      AppV4.blink_active d = true ->
      snd (AppV4.sample_step th cd d s) = None /\
      AppV4.sh (fst (AppV4.sample_step th cd d s)) = AppV4.sh d) /\
  (forall th cd ss d,
      Forall (fun x => AppV4.blink_active x = true) (AppV4.states_after th cd d ss) ->
      (length (snd (AppV4.detect_samples th cd d ss)) <= 1)%nat /\
      (AppV4.blink_active d = true -> snd (AppV4.detect_samples th cd d ss) = [])) /\
  (forall th cd ss d,
      forallb (onset_v4 th) ss = true ->
      (length (snd (AppV4.detect_samples th cd d ss)) <= 1)%nat).
Proof.
  split; [exact v3_active_step|].
  split; [exact v3_excursion_one_event|].
  split; [intros fs th cd ss d H0; apply v3_onset_run_one_event; exact H0|].
  split; [exact v4_active_step|].
  split; [exact v4_excursion_one_event|].
  intros th cd ss d. apply v4_onset_run_one_event.
Qed.

(** ** Hysteresis *)

Lemma v3_exit_only_below (fs : nat) (th cd : Q) (d : AppV3.detector) (s : sample) :
  AppV3.blink_active d = true ->
  AppV3.blink_active (fst (AppV3.sample_step fs th cd d s)) = false ->
  exists b,
    (AppV3.baseline_len fs <= length (window_v3 fs d s))%nat /\
    np_median (window_v3 fs d s) = Some b /\
    Qabs (v_raw s) - b < th * AppV3.BLINK_OFF_FACTOR.
Proof.
  intros Ha. unfold AppV3.sample_step. fold (window_v3 fs d s).
  destruct (Nat.ltb_spec (length (window_v3 fs d s)) (AppV3.baseline_len fs)) as [Hl|Hl];
    simpl; [congruence|].
  destruct (np_median (window_v3 fs d s)) as [b|]; simpl; [|congruence].
  rewrite Ha, andb_false_r. simpl.
  destruct (Qltb (Qabs (v_raw s) - b) (th * AppV3.BLINK_OFF_FACTOR)) eqn:E; simpl;
    [|congruence].
  intros _. exists b. apply Qltb_true in E. auto.
Qed.

Lemma v3_active_ignores_clock (fs : nat) (th cd : Q) (d : AppV3.detector) (v t t' : Q) :
  AppV3.blink_active d = true ->
  AppV3.sample_step fs th cd d (mkSample v t) = AppV3.sample_step fs th cd d (mkSample v t').
Proof.
  intro Ha. unfold AppV3.sample_step. simpl.
  destruct (length _ <? AppV3.baseline_len fs)%nat; [reflexivity|].
  destruct (np_median _) as [b|]; [|reflexivity].
  rewrite Ha, andb_false_r. reflexivity.
Qed.

Lemma v3_elevated_step (fs : nat) (th cd : Q) (d : AppV3.detector) (s : sample) :
  AppV3.blink_active d = true ->
  below_exit_v3 fs th d s = false ->
  AppV3.blink_active (fst (AppV3.sample_step fs th cd d s)) = true.
Proof.
  intros Ha. unfold below_exit_v3, AppV3.sample_step. fold (window_v3 fs d s).
  destruct (length (window_v3 fs d s) <? AppV3.baseline_len fs)%nat; simpl; [auto|].
  destruct (np_median (window_v3 fs d s)) as [b|]; simpl; [|auto].
  intro Hb. rewrite Ha, andb_false_r, Hb. reflexivity.
Qed.

Lemma v3_elevated_run (fs : nat) (th cd : Q) (ss : list sample) :
  forall d,
    AppV3.blink_active d = true ->
    elevated_run_v3 fs th cd d ss = true ->
    Forall (fun x => AppV3.blink_active x = true) (AppV3.states_after fs th cd d ss) /\
    AppV3.blink_active (fst (AppV3.detect_samples fs th cd d ss)) = true /\
    snd (AppV3.detect_samples fs th cd d ss) = [].
Proof.
  induction ss as [|s r IH]; intros d Ha Hrun.
  - simpl. auto.
  - simpl in Hrun. apply andb_true_iff in Hrun as [Hs Hr].
    apply negb_true_iff in Hs.
    pose proof (v3_elevated_step fs th cd d s Ha Hs) as Ha1.
    destruct (v3_active_step fs th cd d s Ha) as (Hn & _).
    destruct (IH _ Ha1 Hr) as (Hall & Hfin & Hev).
    simpl.
    destruct (AppV3.sample_step fs th cd d s) as [d1 e]. simpl in *.
    destruct (AppV3.detect_samples fs th cd d1 r) as [d2 es]. simpl in *.
    subst. auto.
Qed.

Lemma v4_exit_only_below (th cd : Q) (d : AppV4.detector) (s : sample) :
  AppV4.blink_active d = true ->
  AppV4.blink_active (fst (AppV4.sample_step th cd d s)) = false ->
  Qabs (v_raw s) < th * AppV4.BLINK_OFF_FACTOR.
Proof.
  intros Ha. unfold AppV4.sample_step. rewrite Ha, andb_false_r. simpl.
  destruct (Qltb (Qabs (v_raw s)) (th * AppV4.BLINK_OFF_FACTOR)) eqn:E; simpl;
    [|congruence].
  intros _. apply Qltb_true in E. exact E.
Qed.

Lemma v4_active_ignores_clock (th cd : Q) (d : AppV4.detector) (v t t' : Q) :
  AppV4.blink_active d = true ->
  AppV4.sample_step th cd d (mkSample v t) = AppV4.sample_step th cd d (mkSample v t').
Proof.
  intro Ha. unfold AppV4.sample_step. simpl.
  rewrite Ha, andb_false_r. reflexivity.
Qed.

Lemma v4_elevated_step (th cd : Q) (d : AppV4.detector) (s : sample) :
  AppV4.blink_active d = true ->
  below_exit_v4 th s = false ->
  AppV4.blink_active (fst (AppV4.sample_step th cd d s)) = true.
Proof.
  intros Ha. unfold below_exit_v4, AppV4.sample_step.
  intro Hb. rewrite Ha, andb_false_r, Hb. simpl. exact Ha.
Qed.

Lemma v4_elevated_run (th cd : Q) (ss : list sample) :
  forall d,
    AppV4.blink_active d = true ->
    forallb (fun s => negb (below_exit_v4 th s)) ss = true ->
    Forall (fun x => AppV4.blink_active x = true) (AppV4.states_after th cd d ss) /\
    AppV4.blink_active (fst (AppV4.detect_samples th cd d ss)) = true /\
    snd (AppV4.detect_samples th cd d ss) = [].
Proof.
  induction ss as [|s r IH]; intros d Ha Hrun.
  - simpl. auto.
  - simpl in Hrun. apply andb_true_iff in Hrun as [Hs Hr].
    apply negb_true_iff in Hs.
    pose proof (v4_elevated_step th cd d s Ha Hs) as Ha1.
    destruct (v4_active_step th cd d s Ha) as (Hn & _).
    destruct (IH _ Ha1 Hr) as (Hall & Hfin & Hev).
    simpl.
    destruct (AppV4.sample_step th cd d s) as [d1 e]. simpl in *.
    destruct (AppV4.detect_samples th cd d1 r) as [d2 es]. simpl in *.
    subst. auto.
Qed.

(** C2 (as amended).  Hysteresis.  An Active trigger becomes Quiescent only on
    a sample whose magnitude above the baseline is below
    [th * BLINK_OFF_FACTOR] (app_v4 has no baseline: the magnitude itself).  The clock reading of a
    sample is irrelevant to an Active trigger: two samples that differ only in
    their time are processed identically, so no exit is caused by elapsed time;
    and as long as no sample falls below the exit threshold the trigger stays
    Active over a stretch of any length, writing no event.  For a positive
    threshold the exit threshold lies strictly below the onset threshold. *)
Theorem C2_exit_only_below_off_threshold :
  (forall fs th cd d s,
      AppV3.blink_active d = true ->
      AppV3.blink_active (fst (AppV3.sample_step fs th cd d s)) = false ->
      exists b,
        (AppV3.baseline_len fs <= length (window_v3 fs d s))%nat /\
        np_median (window_v3 fs d s) = Some b /\
        Qabs (v_raw s) - b < th * AppV3.BLINK_OFF_FACTOR) /\
  (forall fs th cd d v t t',
      AppV3.blink_active d = true ->
      AppV3.sample_step fs th cd d (mkSample v t) =
      AppV3.sample_step fs th cd d (mkSample v t')) /\
  (forall fs th cd ss d,
      AppV3.blink_active d = true ->
      elevated_run_v3 fs th cd d ss = true ->
      Forall (fun x => AppV3.blink_active x = true) (AppV3.states_after fs th cd d ss) /\
      AppV3.blink_active (fst (AppV3.detect_samples fs th cd d ss)) = true /\
      snd (AppV3.detect_samples fs th cd d ss) = []) /\
  (forall th cd d s,
      AppV4.blink_active d = true ->
      AppV4.blink_active (fst (AppV4.sample_step th cd d s)) = false ->
      Qabs (v_raw s) < th * AppV4.BLINK_OFF_FACTOR) /\
  (forall th cd d v t t',
      AppV4.blink_active d = true ->
      AppV4.sample_step th cd d (mkSample v t) = AppV4.sample_step th cd d (mkSample v t')) /\
  (forall th cd ss d,
      AppV4.blink_active d = true ->
      forallb (fun s => negb (below_exit_v4 th s)) ss = true ->
      Forall (fun x => AppV4.blink_active x = true) (AppV4.states_after th cd d ss) /\
      AppV4.blink_active (fst (AppV4.detect_samples th cd d ss)) = true /\
      snd (AppV4.detect_samples th cd d ss) = []) /\
  (forall th : Q,
      0 < th ->
      0 < th * AppV3.BLINK_OFF_FACTOR < th /\ 0 < th * AppV4.BLINK_OFF_FACTOR < th).
Proof.
  split; [exact v3_exit_only_below|].
  split; [exact v3_active_ignores_clock|].
  split; [exact v3_elevated_run|].
  split; [exact v4_exit_only_below|].
  split; [exact v4_active_ignores_clock|].
  split; [exact v4_elevated_run|].
  intros th H. unfold AppV3.BLINK_OFF_FACTOR, AppV4.BLINK_OFF_FACTOR. lra.
Qed.

(** C2 as stated fails for app_v3: the state does not remain Active while the
    magnitude stays elevated.  The baseline is the median of the last 2 s of
    magnitudes, the excursion included.  At 250 Hz, on a window settled at
    10 uV and with the default threshold of 150 uV, a magnitude held at 300 uV
    writes one event and keeps the trigger Active for 250 samples; at the
    251st the median has reached 300, the differential is 0 and the trigger
    returns to Quiescent, although every sample is above the onset threshold
    and none has dropped below the exit threshold of 45 uV. *)
Lemma C2_counterexample_held_magnitude_ends_excursion :
  forallb (fun s => Qgtb (Qabs (v_raw s)) 150
                    && negb (Qltb (Qabs (v_raw s)) (150 * AppV3.BLINK_OFF_FACTOR)))
    (held_v3 251) = true /\
  map AppV3.blink_active
    (AppV3.states_after 250 150 (2 # 10) (settled_v3 false) (held_v3 251)) =
    repeat true 250 ++ [false] /\
  length (snd (AppV3.detect_samples 250 150 (2 # 10) (settled_v3 false) (held_v3 251))) = 1%nat /\
  elevated_run_v3 250 150 (2 # 10) (settled_v3 false) (held_v3 251) = false.
Proof.
  split; [vm_compute; reflexivity|].
  split; [vm_compute; reflexivity|].
  split; vm_compute; reflexivity.
Qed.

(** ** Cooldown *)

Lemma v3_silent_step_keeps_ts (fs : nat) (th cd : Q) (d : AppV3.detector) (s : sample) :
  snd (AppV3.sample_step fs th cd d s) = None ->
  AppV3.last_blink_ts (AppV3.sh (fst (AppV3.sample_step fs th cd d s))) =
  AppV3.last_blink_ts (AppV3.sh d).
Proof.
  unfold AppV3.sample_step.
  destruct (length _ <? AppV3.baseline_len fs)%nat; simpl; [reflexivity|].
  destruct (np_median _) as [b|]; simpl; [|reflexivity].
  destruct (AppV3.over_on th (Qabs (v_raw s)) b && negb (AppV3.blink_active d)
            && Qgeb (now s - AppV3.last_blink_ts (AppV3.sh d)) cd); simpl;
    [discriminate|reflexivity].
Qed.

Lemma v3_cooldown_suppresses (fs : nat) (th cd : Q) (d : AppV3.detector) (s : sample) :
  now s - AppV3.last_blink_ts (AppV3.sh d) < cd ->
  snd (AppV3.sample_step fs th cd d s) = None /\
  AppV3.last_blink_ts (AppV3.sh (fst (AppV3.sample_step fs th cd d s))) =
    AppV3.last_blink_ts (AppV3.sh d) /\
  (AppV3.blink_active d = false ->
   AppV3.blink_active (fst (AppV3.sample_step fs th cd d s)) = false).
Proof.
  intro Hc. apply Qgeb_false in Hc.
  assert (Hn : snd (AppV3.sample_step fs th cd d s) = None).
  { destruct (AppV3.sample_step fs th cd d s) as [d' [e|]] eqn:E; [|reflexivity].
    destruct (v3_event_inv _ _ _ _ _ _ _ E) as (b & _ & _ & _ & _ & Hcd & _).
    apply Qgeb_true in Hcd. congruence. }
  split; [exact Hn|]. split; [exact (v3_silent_step_keeps_ts _ _ _ _ _ Hn)|].
  intro Ha. unfold AppV3.sample_step.
  destruct (length _ <? AppV3.baseline_len fs)%nat; simpl; [exact Ha|].
  destruct (np_median _) as [b|]; simpl; [|exact Ha].
  rewrite Hc, andb_false_r, Ha. reflexivity.
Qed.

(** Every event of a stretch is at least [cd] after the timestamp the stretch
    started with, and any two of them are at least [cd] apart. *)
Lemma v3_events_separated (fs : nat) (th cd : Q) (ss : list sample) :
  0 <= cd ->
  forall d,
    Forall (fun e => cd <= AppV3.event_time e - AppV3.last_blink_ts (AppV3.sh d))
           (snd (AppV3.detect_samples fs th cd d ss)) /\
    StronglySorted (fun e1 e2 => cd <= AppV3.event_time e2 - AppV3.event_time e1)
           (snd (AppV3.detect_samples fs th cd d ss)).
Proof.
  intro H0. induction ss as [|s r IH]; intro d.
  - simpl. split; constructor.
  - simpl.
    destruct (AppV3.sample_step fs th cd d s) as [d1 [e|]] eqn:E.
    + destruct (v3_event_inv _ _ _ _ _ _ _ E)
        as (b & _ & _ & _ & _ & Hcd & He & Hts & _).
      destruct (IH d1) as [HF HS].
      destruct (AppV3.detect_samples fs th cd d1 r) as [d2 es]. simpl in *.
      assert (Het : AppV3.event_time e = now s) by (subst e; reflexivity).
      rewrite Hts in HF.
      split.
      * constructor; [rewrite Het; exact Hcd|].
        eapply Forall_impl; [|exact HF]. intros a Ha. simpl in Ha. lra.
      * constructor; [exact HS|].
        eapply Forall_impl; [|exact HF]. intros a Ha. simpl in Ha. rewrite Het. exact Ha.
    + pose proof (v3_silent_step_keeps_ts fs th cd d s) as Hts.
      rewrite E in Hts. simpl in Hts. specialize (Hts eq_refl).
      destruct (IH d1) as [HF HS].
      destruct (AppV3.detect_samples fs th cd d1 r) as [d2 es]. simpl in *.
      rewrite Hts in HF. split; assumption.
Qed.

Lemma v4_event_inv (th cd : Q) (d d' : AppV4.detector) (s : sample) (e : AppV4.event) :
  AppV4.sample_step th cd d s = (d', Some e) ->
  th < Qabs (v_raw s) /\
  AppV4.blink_active d = false /\
  cd < now s - AppV4.last_blink_ts (AppV4.sh d) /\
  e = {| AppV4.ev_time := now s; AppV4.ev_text := AppV4.Blink (Qabs (v_raw s)) |} /\
  AppV4.last_blink_ts (AppV4.sh d') = now s /\
  AppV4.blink_pending (AppV4.sh d') = true /\
  AppV4.last_event_text (AppV4.sh d') = AppV4.Blink (Qabs (v_raw s)) /\
  AppV4.blink_active d' = true.
Proof.
  unfold AppV4.sample_step.
  destruct (Qgtb (Qabs (v_raw s)) th) eqn:Ho; simpl.
  2:{ destruct (AppV4.blink_active d && _); intro H; inversion H. }
  destruct (AppV4.blink_active d) eqn:Ha; simpl.
  { destruct (Qltb _ _); intro H; inversion H. }
  destruct (Qgtb (now s - AppV4.last_blink_ts (AppV4.sh d)) cd) eqn:Hc; simpl.
  2:{ intro H; inversion H. }
  intro H. inversion H; subst; clear H. simpl.
  apply Qgtb_true in Ho. apply Qgtb_true in Hc. repeat split; auto.
Qed.

Lemma v4_silent_step_keeps_shared (th cd : Q) (d : AppV4.detector) (s : sample) :
  snd (AppV4.sample_step th cd d s) = None ->
  AppV4.sh (fst (AppV4.sample_step th cd d s)) = AppV4.sh d.
Proof.
  unfold AppV4.sample_step.
  destruct (Qgtb (Qabs (v_raw s)) th && negb (AppV4.blink_active d)
            && Qgtb (now s - AppV4.last_blink_ts (AppV4.sh d)) cd); simpl;
    [discriminate|].
  destruct (AppV4.blink_active d && _); reflexivity.
Qed.

Lemma v4_cooldown_suppresses (th cd : Q) (d : AppV4.detector) (s : sample) :
  now s - AppV4.last_blink_ts (AppV4.sh d) <= cd ->
  snd (AppV4.sample_step th cd d s) = None /\
  AppV4.sh (fst (AppV4.sample_step th cd d s)) = AppV4.sh d /\
  (AppV4.blink_active d = false ->
   AppV4.blink_active (fst (AppV4.sample_step th cd d s)) = false).
Proof.
  intro Hc. apply Qgtb_false in Hc.
  assert (Hn : snd (AppV4.sample_step th cd d s) = None).
  { unfold AppV4.sample_step. rewrite Hc, andb_false_r.
    destruct (AppV4.blink_active d && _); reflexivity. }
  split; [exact Hn|]. split; [exact (v4_silent_step_keeps_shared _ _ _ _ Hn)|].
  intro Ha. unfold AppV4.sample_step. rewrite Hc, andb_false_r, Ha. simpl. exact Ha.
Qed.

Lemma v4_events_separated (th cd : Q) (ss : list sample) :
  0 <= cd ->
  forall d,
    Forall (fun e => cd < AppV4.ev_time e - AppV4.last_blink_ts (AppV4.sh d))
           (snd (AppV4.detect_samples th cd d ss)) /\
    StronglySorted (fun e1 e2 => cd < AppV4.ev_time e2 - AppV4.ev_time e1)
           (snd (AppV4.detect_samples th cd d ss)).
Proof.
  intro H0. induction ss as [|s r IH]; intro d.
  - simpl. split; constructor.
  - simpl.
    destruct (AppV4.sample_step th cd d s) as [d1 [e|]] eqn:E.
    + destruct (v4_event_inv _ _ _ _ _ _ E) as (_ & _ & Hcd & He & Hts & _).
      destruct (IH d1) as [HF HS].
      destruct (AppV4.detect_samples th cd d1 r) as [d2 es]. simpl in *.
      assert (Het : AppV4.ev_time e = now s) by (subst e; reflexivity).
      rewrite Hts in HF.
      split.
      * constructor; [rewrite Het; exact Hcd|].
        eapply Forall_impl; [|exact HF]. intros a Ha. simpl in Ha. lra.
      * constructor; [exact HS|].
        eapply Forall_impl; [|exact HF]. intros a Ha. simpl in Ha. rewrite Het. exact Ha.
    + pose proof (v4_silent_step_keeps_shared th cd d s) as Hts.
      rewrite E in Hts. simpl in Hts. specialize (Hts eq_refl).
      destruct (IH d1) as [HF HS].
      destruct (AppV4.detect_samples th cd d1 r) as [d2 es]. simpl in *.
      rewrite Hts in HF. split; assumption.
Qed.

Lemma v3_event_times (fs : nat) (th cd : Q) (ss : list sample) :
  forall d,
    Forall (fun e => exists s, In s ss /\ AppV3.event_time e = now s)
           (snd (AppV3.detect_samples fs th cd d ss)).
Proof.
  induction ss as [|s r IH]; intro d; [constructor|].
  simpl.
  destruct (AppV3.sample_step fs th cd d s) as [d1 [e|]] eqn:E.
  - destruct (v3_event_inv _ _ _ _ _ _ _ E) as (b & _ & _ & _ & _ & _ & He & _).
    specialize (IH d1).
    destruct (AppV3.detect_samples fs th cd d1 r) as [d2 es]. simpl in *.
    constructor.
    + exists s. split; [now left|]. subst e. reflexivity.
    + eapply Forall_impl; [|exact IH].
      intros a (s' & Hin & Ht). exists s'. split; [now right|exact Ht].
  - specialize (IH d1).
    destruct (AppV3.detect_samples fs th cd d1 r) as [d2 es]. simpl in *.
    eapply Forall_impl; [|exact IH].
    intros a (s' & Hin & Ht). exists s'. split; [now right|exact Ht].
Qed.

Lemma v4_event_times (th cd : Q) (ss : list sample) :
  forall d,
    Forall (fun e => exists s, In s ss /\ AppV4.ev_time e = now s)
           (snd (AppV4.detect_samples th cd d ss)).
Proof.
  induction ss as [|s r IH]; intro d; [constructor|].
  simpl.
  destruct (AppV4.sample_step th cd d s) as [d1 [e|]] eqn:E.
  - destruct (v4_event_inv _ _ _ _ _ _ E) as (_ & _ & _ & He & _).
    specialize (IH d1).
    destruct (AppV4.detect_samples th cd d1 r) as [d2 es]. simpl in *.
    constructor.
    + exists s. split; [now left|]. subst e. reflexivity.
    + eapply Forall_impl; [|exact IH].
      intros a (s' & Hin & Ht). exists s'. split; [now right|exact Ht].
  - specialize (IH d1).
    destruct (AppV4.detect_samples th cd d1 r) as [d2 es]. simpl in *.
    eapply Forall_impl; [|exact IH].
    intros a (s' & Hin & Ht). exists s'. split; [now right|exact Ht].
Qed.

(** Samples whose clock readings all lie in one interval shorter than the
    cooldown write at most one event. *)
Lemma v3_one_event_within_cooldown (fs : nat) (th cd lo : Q) (ss : list sample)
    (d : AppV3.detector) :
  0 <= cd ->
  (forall s, In s ss -> lo <= now s /\ now s < lo + cd) ->
  (length (snd (AppV3.detect_samples fs th cd d ss)) <= 1)%nat.
Proof.
  intros H0 Hwin.
  destruct (v3_events_separated fs th cd ss H0 d) as [_ HS].
  pose proof (v3_event_times fs th cd ss d) as HT.
  destruct (snd (AppV3.detect_samples fs th cd d ss)) as [|e1 [|e2 es]]; simpl; try lia.
  exfalso.
  inversion HS as [|? ? _ HF1]; subst. inversion HF1 as [|? ? H12 _]; subst.
  inversion HT as [|? ? (s1 & Hin1 & Ht1) HT']; subst.
  inversion HT' as [|? ? (s2 & Hin2 & Ht2) _]; subst.
  destruct (Hwin _ Hin1) as [Ha1 Hb1]. destruct (Hwin _ Hin2) as [Ha2 Hb2].
  rewrite Ht1, Ht2 in H12. lra.
Qed.

Lemma v4_one_event_within_cooldown (th cd lo : Q) (ss : list sample) (d : AppV4.detector) :
  0 <= cd ->
  (forall s, In s ss -> lo <= now s /\ now s < lo + cd) ->
  (length (snd (AppV4.detect_samples th cd d ss)) <= 1)%nat.
Proof.
  intros H0 Hwin.
  destruct (v4_events_separated th cd ss H0 d) as [_ HS].
  pose proof (v4_event_times th cd ss d) as HT.
  destruct (snd (AppV4.detect_samples th cd d ss)) as [|e1 [|e2 es]]; simpl; try lia.
  exfalso.
  inversion HS as [|? ? _ HF1]; subst. inversion HF1 as [|? ? H12 _]; subst.
  inversion HT as [|? ? (s1 & Hin1 & Ht1) HT']; subst.
  inversion HT' as [|? ? (s2 & Hin2 & Ht2) _]; subst.
  destruct (Hwin _ Hin1) as [Ha1 Hb1]. destruct (Hwin _ Hin2) as [Ha2 Hb2].
  rewrite Ht1, Ht2 in H12. lra.
Qed.

(** C3.  Cooldown.  A sample processed less than [cd] after the recorded
    last-event timestamp writes no event and leaves a Quiescent trigger
    Quiescent, even when it meets the onset condition.  For [cd >= 0] any two
    events of a stretch are at least [cd] apart (app_v4: more than [cd]), and
    the first is at least [cd] after the timestamp the stretch started with;
    so samples processed within one interval shorter than [cd] write at most
    one event.  Scenario B (onset 150 uV, cooldown 0.35 s, two 300 uV spikes
    0.10 s apart) writes exactly one event, at the first sample of the first
    spike. *)
Theorem C3_cooldown_suppresses_second_onset :
  (forall fs th cd d s,
      now s - AppV3.last_blink_ts (AppV3.sh d) < cd ->
      snd (AppV3.sample_step fs th cd d s) = None /\
      AppV3.last_blink_ts (AppV3.sh (fst (AppV3.sample_step fs th cd d s))) =
        AppV3.last_blink_ts (AppV3.sh d) /\
      (AppV3.blink_active d = false ->
       AppV3.blink_active (fst (AppV3.sample_step fs th cd d s)) = false)) /\
  (forall fs th cd ss d,
      0 <= cd ->
      Forall (fun e => cd <= AppV3.event_time e - AppV3.last_blink_ts (AppV3.sh d))
             (snd (AppV3.detect_samples fs th cd d ss)) /\
      StronglySorted (fun e1 e2 => cd <= AppV3.event_time e2 - AppV3.event_time e1)
             (snd (AppV3.detect_samples fs th cd d ss))) /\
  (forall fs th cd lo ss d,
      0 <= cd ->
      (forall s, In s ss -> lo <= now s /\ now s < lo + cd) ->
      (length (snd (AppV3.detect_samples fs th cd d ss)) <= 1)%nat) /\
  map AppV3.event_time
      (snd (AppV3.detect_samples 250 150 (35 # 100) fresh_v3 scenario_B_v3))
    = [1002000 # 1000] /\
  (forall th cd d s,
      now s - AppV4.last_blink_ts (AppV4.sh d) <= cd ->
      snd (AppV4.sample_step th cd d s) = None /\
      AppV4.sh (fst (AppV4.sample_step th cd d s)) = AppV4.sh d /\
      (AppV4.blink_active d = false ->
       AppV4.blink_active (fst (AppV4.sample_step th cd d s)) = false)) /\
  (forall th cd ss d,
      0 <= cd ->
      Forall (fun e => cd < AppV4.ev_time e - AppV4.last_blink_ts (AppV4.sh d))
             (snd (AppV4.detect_samples th cd d ss)) /\
      StronglySorted (fun e1 e2 => cd < AppV4.ev_time e2 - AppV4.ev_time e1)
             (snd (AppV4.detect_samples th cd d ss))) /\
  (forall th cd lo ss d,
      0 <= cd ->
      (forall s, In s ss -> lo <= now s /\ now s < lo + cd) ->
      (length (snd (AppV4.detect_samples th cd d ss)) <= 1)%nat) /\
  snd (AppV4.detect_samples 150 (35 # 100) fresh_v4 scenario_B_v4)
    = [{| AppV4.ev_time := 1000160 # 1000; AppV4.ev_text := AppV4.Blink 300 |}].
Proof.
  split; [exact v3_cooldown_suppresses|].
  split; [intros fs th cd ss d H0; exact (v3_events_separated fs th cd ss H0 d)|].
  split; [intros fs th cd lo ss d; apply v3_one_event_within_cooldown|].
  split; [vm_compute; reflexivity|].
  split; [exact v4_cooldown_suppresses|].
  split; [intros th cd ss d H0; exact (v4_events_separated th cd ss H0 d)|].
  split; [intros th cd lo ss d; apply v4_one_event_within_cooldown|].
  vm_compute. reflexivity.
Qed.

(** ** Calibration *)

Lemma round_half_even_near (q : Q) :
  inject_Z (round_half_even q) - (1 # 2) <= q /\ q <= inject_Z (round_half_even q) + (1 # 2).
Proof.
  unfold round_half_even.
  pose proof (Qfloor_le q) as Hlo. pose proof (Qlt_floor q) as Hhi.
  rewrite inject_Z_plus in Hhi. change (inject_Z 1) with 1 in Hhi.
  destruct (Qcompare (q - inject_Z (Qfloor q)) (1 # 2)) eqn:E.
  - apply Qeq_alt in E.
    destruct (Z.even (Qfloor q)).
    + lra.
    + rewrite inject_Z_plus. change (inject_Z 1) with 1. lra.
  - apply Qlt_alt in E. lra.
  - apply Qgt_alt in E. rewrite inject_Z_plus. change (inject_Z 1) with 1. lra.
Qed.

(** [py_round1 x] is a multiple of one tenth within 0.05 of [x]. *)
Lemma py_round1_spec (x : Q) :
  Qabs (py_round1 x - x) <= 1 # 20 /\ exists n : Z, py_round1 x == inject_Z n / 10.
Proof.
  split.
  - unfold py_round1. destruct (round_half_even_near (x * 10)) as [H1 H2].
    apply Qabs_Qle_condition.
    set (n := inject_Z (round_half_even (x * 10))) in *.
    assert (Hn : n / 10 == n * (1 # 10)) by (unfold Qdiv; reflexivity).
    rewrite Hn. split; lra.
  - exists (round_half_even (x * 10)). reflexivity.
Qed.

Lemma v4_finish_success (s : AppV4.shared) (b : Q) (bs : list Q) :
  blinks (AppV4.calibration_readings s) = b :: bs ->
  forall avg_noise,
    avg_noise = match noise (AppV4.calibration_readings s) with
                | [] => 30
                | _ :: _ => Qmean (noise (AppV4.calibration_readings s))
                end ->
    let th := py_round1 (blend avg_noise (Qmean (b :: bs))) in
    let s' := snd (AppV4.finish_calibration s) in
    fst (AppV4.finish_calibration s) = Success th /\
    AppV4.threshold_uv s' = th /\
    AppV4.calibration_readings s' = {| noise := []; blinks := [] |} /\
    AppV4.cooldown_secs s' = AppV4.cooldown_secs s /\
    AppV4.detector_running s' = AppV4.detector_running s /\
    AppV4.last_blink_ts s' = AppV4.last_blink_ts s /\
    AppV4.last_event_text s' = AppV4.last_event_text s /\
    AppV4.blink_pending s' = AppV4.blink_pending s /\
    AppV4.signal_buffer s' = AppV4.signal_buffer s /\
    AppV4.fs_global s' = AppV4.fs_global s.
Proof.
  intros Hb avg_noise Hn. unfold AppV4.finish_calibration. rewrite Hb. subst avg_noise.
  simpl. unfold blend. repeat split.
Qed.

Lemma da_finish_success (s : DetectionAnalysis.shared) (b : Q) (bs : list Q) :
  blinks (DetectionAnalysis.calibration_readings s) = b :: bs ->
  forall avg_noise,
    avg_noise = match noise (DetectionAnalysis.calibration_readings s) with
                | [] => 30
                | _ :: _ => Qmean (noise (DetectionAnalysis.calibration_readings s))
                end ->
    let th := py_round1 (blend avg_noise (Qmean (b :: bs))) in
    let s' := snd (DetectionAnalysis.finish_calibration s) in
    fst (DetectionAnalysis.finish_calibration s) = Success th /\
    DetectionAnalysis.threshold_uv s' = th /\
    DetectionAnalysis.calibration_readings s' = {| noise := []; blinks := [] |} /\
    DetectionAnalysis.cooldown_secs s' = DetectionAnalysis.cooldown_secs s /\
    DetectionAnalysis.detector_running s' = DetectionAnalysis.detector_running s /\
    DetectionAnalysis.signal_buffer s' = DetectionAnalysis.signal_buffer s /\
    DetectionAnalysis.fs_global s' = DetectionAnalysis.fs_global s /\
    DetectionAnalysis.stats s' = DetectionAnalysis.stats s /\
    DetectionAnalysis.blink_detected_in_window s' =
      DetectionAnalysis.blink_detected_in_window s.
Proof.
  intros Hb avg_noise Hn. unfold DetectionAnalysis.finish_calibration. rewrite Hb.
  subst avg_noise. simpl. unfold blend. repeat split.
Qed.

(** C6 (as amended).  When calibration finishes with non-empty noise and event
    sets, the endpoint answers success with
    [round(noise_mean + (event_mean - noise_mean) * 0.6, 1)]: a multiple of 0.1
    within 0.05 of the blend (at an exact tie either of the two neighbouring
    tenths), with no lower clamp.  That value is stored in [threshold_uv]; the
    cooldown and every other shared variable keep their values, and the
    readings are reset.  Noise [20, 22, 18, 19] and events [250, 260] give
    160.9.  The endpoints of app_v4 and detection_analysis agree. *)
Theorem C6_threshold_is_blend_rounded_to_one_decimal :
  (forall s n ns b bs,
      noise (AppV4.calibration_readings s) = n :: ns ->
      blinks (AppV4.calibration_readings s) = b :: bs ->
      let s' := snd (AppV4.finish_calibration s) in
      exists th,
        fst (AppV4.finish_calibration s) = Success th /\
        AppV4.threshold_uv s' = th /\
        (exists k : Z, th == inject_Z k / 10) /\
        Qabs (th - blend (Qmean (n :: ns)) (Qmean (b :: bs))) <= 1 # 20 /\
        AppV4.calibration_readings s' = {| noise := []; blinks := [] |} /\
        AppV4.cooldown_secs s' = AppV4.cooldown_secs s /\
        AppV4.detector_running s' = AppV4.detector_running s /\
        AppV4.last_blink_ts s' = AppV4.last_blink_ts s /\
        AppV4.last_event_text s' = AppV4.last_event_text s /\
        AppV4.blink_pending s' = AppV4.blink_pending s /\
        AppV4.signal_buffer s' = AppV4.signal_buffer s /\
        AppV4.fs_global s' = AppV4.fs_global s) /\
  (forall s n ns b bs,
      noise (DetectionAnalysis.calibration_readings s) = n :: ns ->
      blinks (DetectionAnalysis.calibration_readings s) = b :: bs ->
      let s' := snd (DetectionAnalysis.finish_calibration s) in
      exists th,
        fst (DetectionAnalysis.finish_calibration s) = Success th /\
        DetectionAnalysis.threshold_uv s' = th /\
        (exists k : Z, th == inject_Z k / 10) /\
        Qabs (th - blend (Qmean (n :: ns)) (Qmean (b :: bs))) <= 1 # 20 /\
        DetectionAnalysis.calibration_readings s' = {| noise := []; blinks := [] |} /\
        DetectionAnalysis.cooldown_secs s' = DetectionAnalysis.cooldown_secs s /\
        DetectionAnalysis.detector_running s' = DetectionAnalysis.detector_running s /\
        DetectionAnalysis.signal_buffer s' = DetectionAnalysis.signal_buffer s /\
        DetectionAnalysis.fs_global s' = DetectionAnalysis.fs_global s /\
        DetectionAnalysis.stats s' = DetectionAnalysis.stats s /\
        DetectionAnalysis.blink_detected_in_window s' =
          DetectionAnalysis.blink_detected_in_window s) /\
  fst (AppV4.finish_calibration (calibrated_v4 [20; 22; 18; 19] [250; 260])) =
    Success (1609 # 10) /\
  AppV4.threshold_uv
    (snd (AppV4.finish_calibration (calibrated_v4 [20; 22; 18; 19] [250; 260]))) =
    1609 # 10 /\
  fst (DetectionAnalysis.finish_calibration (calibrated_da [20; 22; 18; 19] [250; 260])) =
    Success (1609 # 10) /\
  DetectionAnalysis.threshold_uv
    (snd (DetectionAnalysis.finish_calibration (calibrated_da [20; 22; 18; 19] [250; 260]))) =
    1609 # 10.
Proof.
  split.
  { intros s n ns b bs Hn Hb s'.
    destruct (v4_finish_success s b bs Hb (Qmean (n :: ns))) as (H1 & H2 & H3).
    { rewrite Hn. reflexivity. }
    destruct (py_round1_spec (blend (Qmean (n :: ns)) (Qmean (b :: bs)))) as [Hr Hk].
    eexists. split; [exact H1|]. split; [exact H2|].
    split; [exact Hk|]. split; [exact Hr|]. exact H3. }
  split.
  { intros s n ns b bs Hn Hb s'.
    destruct (da_finish_success s b bs Hb (Qmean (n :: ns))) as (H1 & H2 & H3).
    { rewrite Hn. reflexivity. }
    destruct (py_round1_spec (blend (Qmean (n :: ns)) (Qmean (b :: bs)))) as [Hr Hk].
    eexists. split; [exact H1|]. split; [exact H2|].
    split; [exact Hk|]. split; [exact Hr|]. exact H3. }
  repeat split; vm_compute; reflexivity.
Qed.

(** C6 as stated fails.  With noise [10] and events [10.05] the blend is 10.03
    and the threshold applied is 10.0: it is neither the blend nor the blend
    raised to any floor.  With noise [0] and events [0] calibration succeeds
    and applies the threshold 0, below every positive floor. *)
Lemma C6_counterexample_rounded_and_unclamped :
  (forall floor : Q,
      ~ AppV4.threshold_uv (snd (AppV4.finish_calibration (calibrated_v4 [10] [1005 # 100])))
        == Qmax floor (blend (Qmean [10]) (Qmean [1005 # 100]))) /\
  fst (AppV4.finish_calibration (calibrated_v4 [0] [0])) = Success (0 # 10) /\
  (forall floor : Q,
      0 < floor ->
      AppV4.threshold_uv (snd (AppV4.finish_calibration (calibrated_v4 [0] [0]))) < floor).
Proof.
  split.
  { intros floor H.
    assert (E : AppV4.threshold_uv
                  (snd (AppV4.finish_calibration (calibrated_v4 [10] [1005 # 100])))
                = 100 # 10) by (vm_compute; reflexivity).
    rewrite E in H.
    assert (B : blend (Qmean [10]) (Qmean [1005 # 100]) == 1003 # 100)
      by (vm_compute; reflexivity).
    pose proof (Q.le_max_r floor (blend (Qmean [10]) (Qmean [1005 # 100]))) as L.
    rewrite <- H, B in L. revert L. apply Qlt_not_le. reflexivity. }
  split; [vm_compute; reflexivity|].
  intros floor H.
  assert (E : AppV4.threshold_uv (snd (AppV4.finish_calibration (calibrated_v4 [0] [0])))
              = 0 # 10) by (vm_compute; reflexivity).
  rewrite E. lra.
Qed.

(** C7.  When the event set is empty, [finish_calibration] answers
    [{"success": False}] and every shared variable, the threshold included, is
    exactly what it was. *)
Theorem C7_no_event_samples_reports_failure_unchanged :
  (forall s,
      blinks (AppV4.calibration_readings s) = [] ->
      AppV4.finish_calibration s = (Failure, s)) /\
  (forall s,
      blinks (DetectionAnalysis.calibration_readings s) = [] ->
      DetectionAnalysis.finish_calibration s = (Failure, s)).
Proof.
  split; intros s H.
  - unfold AppV4.finish_calibration. rewrite H. reflexivity.
  - unfold DetectionAnalysis.finish_calibration. rewrite H. reflexivity.
Qed.

(** C8.  The failure path of [finish_calibration] returns before the readings
    are reset: after one noise mark (peak 5 uV over the buffered signal) and no
    event mark, the endpoint answers failure and the noise reading is still
    stored; it is averaged into the threshold of the next run, where a run of
    its own readings [20] and [100] yields 65.0 instead of 68.0.  The success
    path does reset both sets. *)
Theorem C8_failed_calibration_keeps_noise_readings :
  let s0 := AppV4.mark_calibration false
              (AppV4.set_signal_buffer AppV4.initial_shared [3; -5; 2]) in
  let s1 := snd (AppV4.finish_calibration s0) in
  let s2 := AppV4.set_readings s1
              {| noise := noise (AppV4.calibration_readings s1) ++ [20];
                 blinks := blinks (AppV4.calibration_readings s1) ++ [100] |} in
  AppV4.calibration_readings s0 = {| noise := [5]; blinks := [] |} /\
  fst (AppV4.finish_calibration s0) = Failure /\
  AppV4.calibration_readings s1 = {| noise := [5]; blinks := [] |} /\
  fst (AppV4.finish_calibration s2) = Success (650 # 10) /\
  fst (AppV4.finish_calibration (calibrated_v4 [20] [100])) = Success (680 # 10) /\
  AppV4.calibration_readings (snd (AppV4.finish_calibration s2)) =
    {| noise := []; blinks := [] |} /\
  (forall ns,
      DetectionAnalysis.calibration_readings
        (snd (DetectionAnalysis.finish_calibration (calibrated_da ns []))) =
      {| noise := ns; blinks := [] |}) /\
  (forall ns,
      AppV4.calibration_readings (snd (AppV4.finish_calibration (calibrated_v4 ns []))) =
      {| noise := ns; blinks := [] |}).
Proof.
  cbv zeta.
  split; [vm_compute; reflexivity|].
  split; [vm_compute; reflexivity|].
  split; [vm_compute; reflexivity|].
  split; [vm_compute; reflexivity|].
  split; [vm_compute; reflexivity|].
  split; [vm_compute; reflexivity|].
  split; intro ns; reflexivity.
Qed.

(** C10 (as amended).  With a non-empty event set and an empty noise set the
    endpoint succeeds with the default noise mean 30: the threshold applied is
    [round(30 + (event_mean - 30) * 0.6, 1)], a multiple of 0.1 within 0.05 of
    [30 + 0.6 * (event_mean - 30)] (at an exact tie either of the two
    neighbouring tenths); the readings are reset. *)
Theorem C10_empty_noise_uses_default_mean_30 :
  (forall s b bs,
      noise (AppV4.calibration_readings s) = [] ->
      blinks (AppV4.calibration_readings s) = b :: bs ->
      exists th,
        fst (AppV4.finish_calibration s) = Success th /\
        AppV4.threshold_uv (snd (AppV4.finish_calibration s)) = th /\
        (exists k : Z, th == inject_Z k / 10) /\
        Qabs (th - (30 + (6 # 10) * (Qmean (b :: bs) - 30))) <= 1 # 20 /\
        AppV4.calibration_readings (snd (AppV4.finish_calibration s)) =
          {| noise := []; blinks := [] |}) /\
  (forall s b bs,
      noise (DetectionAnalysis.calibration_readings s) = [] ->
      blinks (DetectionAnalysis.calibration_readings s) = b :: bs ->
      exists th,
        fst (DetectionAnalysis.finish_calibration s) = Success th /\
        DetectionAnalysis.threshold_uv (snd (DetectionAnalysis.finish_calibration s)) = th /\
        (exists k : Z, th == inject_Z k / 10) /\
        Qabs (th - (30 + (6 # 10) * (Qmean (b :: bs) - 30))) <= 1 # 20 /\
        DetectionAnalysis.calibration_readings
          (snd (DetectionAnalysis.finish_calibration s)) =
          {| noise := []; blinks := [] |}).
Proof.
  split; intros s b bs Hn Hb.
  - destruct (v4_finish_success s b bs Hb 30) as (H1 & H2 & H3 & _).
    { rewrite Hn. reflexivity. }
    destruct (py_round1_spec (blend 30 (Qmean (b :: bs)))) as [Hr Hk].
    eexists. split; [exact H1|]. split; [exact H2|]. split; [exact Hk|].
    split; [|exact H3].
    apply Qabs_Qle_condition in Hr. apply Qabs_Qle_condition.
    unfold blend in *. split; lra.
  - destruct (da_finish_success s b bs Hb 30) as (H1 & H2 & H3 & _).
    { rewrite Hn. reflexivity. }
    destruct (py_round1_spec (blend 30 (Qmean (b :: bs)))) as [Hr Hk].
    eexists. split; [exact H1|]. split; [exact H2|]. split; [exact Hk|].
    split; [|exact H3].
    apply Qabs_Qle_condition in Hr. apply Qabs_Qle_condition.
    unfold blend in *. split; lra.
Qed.

(** C10 as stated fails: with events [100.01] and no noise reading the blend is
    72.006 and the threshold applied is 72.0. *)
Lemma C10_counterexample_threshold_is_rounded :
  ~ AppV4.threshold_uv (snd (AppV4.finish_calibration (calibrated_v4 [] [10001 # 100])))
    == 30 + (6 # 10) * (Qmean [10001 # 100] - 30).
Proof.
  assert (E : AppV4.threshold_uv
                (snd (AppV4.finish_calibration (calibrated_v4 [] [10001 # 100])))
              = 720 # 10) by (vm_compute; reflexivity).
  rewrite E. intro H.
  assert (B : 30 + (6 # 10) * (Qmean [10001 # 100] - 30) == 72006 # 1000)
    by (vm_compute; reflexivity).
  rewrite B in H. revert H. vm_compute. discriminate.
Qed.

(** ** Signal conditioning *)



Lemma filtfilt_short {P : FilterProvider} (c : coeffs) (p : nat) (x : list Q) :
  (length x <= p)%nat -> filtfilt c (Some p) x = ValueError.
Proof.
  intro H. unfold filtfilt.
  destruct (Nat.leb_spec (length x) p); [reflexivity|lia].
Qed.


Lemma v3_condition_below_guard {P : FilterProvider} (x : list Q) (bp nf : option coeffs) :
  (length x <= 30)%nat -> AppV3.condition x bp nf = Ok x.
Proof.
  intro H. unfold AppV3.condition.
  destruct (Nat.ltb_spec 30 (length x)); [lia|reflexivity].
Qed.



Lemma nat_lt_Q (n fs : nat) :
  (n < fs)%nat -> inject_Z (Z.of_nat n) < inject_Z (Z.of_nat fs).
Proof.
  intro H. rewrite <- Zlt_Qlt. lia.
Qed.


Lemma nyquist_ratio_high (fs : nat) (f : Q) :
  (0 < fs)%nat -> inject_Z (Z.of_nat fs) <= 2 * f ->
  1 <= f / ((1 # 2) * inject_Z (Z.of_nat fs)).
Proof.
  intros Hpos Hfs. pose proof (nat_lt_Q 0 fs Hpos) as H0.
  change (inject_Z (Z.of_nat 0)) with 0 in H0.
  set (F := inject_Z (Z.of_nat fs)) in *.
  apply Qle_shift_div_l; lra.
Qed.


Lemma checked_iirnotch_raises {P : FilterProvider} (w0 q : Q) :
  1 <= w0 -> checked_iirnotch w0 q = ValueError.
Proof.
  intro H. unfold checked_iirnotch.
  destruct (Qltb w0 1) eqn:E.
  - apply Qltb_true in E. lra.
  - rewrite andb_false_r. reflexivity.
Qed.



Lemma v3_design_filters_raises {P : FilterProvider} (fs : nat) :
  (0 < fs <= 100)%nat -> AppV3.design_filters fs = ValueError.
Proof.
  intros [H0 H1].
  assert (HQ : inject_Z (Z.of_nat fs) <= 100).
  { change 100 with (inject_Z (Z.of_nat 100)). rewrite <- Zle_Qle. lia. }
  unfold AppV3.design_filters, AppV3.design_notch, AppV3.NOTCH_HZ.
  rewrite (checked_iirnotch_raises _ 30).
  - destruct (AppV3.design_bandpass fs (fst AppV3.BANDPASS) (snd AppV3.BANDPASS) 4);
      reflexivity.
  - apply nyquist_ratio_high; [exact H0|lra].
Qed.






(** At the shipped chunk size the chunks of app_v3 stay below the guard. *)
Lemma chunk_len_small (fs : nat) : (fs <= 619)%nat -> (AppV3.chunk_len fs <= 30)%nat.
Proof.
  intro H. unfold AppV3.chunk_len, AppV3.CHUNK_SECS.
  set (x := inject_Z (Z.of_nat fs) * (5 # 100)).
  assert (Hx : inject_Z (Qfloor x) < 31).
  { eapply Qle_lt_trans; [apply Qfloor_le|].
    unfold x, Qlt, Qmult, inject_Z. cbn [Qnum Qden]. lia. }
  unfold Qlt, inject_Z in Hx. cbn [Qnum Qden] in Hx. lia.
Qed.


(** ** Chunks

    The loop copies [threshold_uv] and [cooldown_secs] once per chunk and never
    writes them, so a run over several chunks is the sample loop over their
    concatenation: what is proved of [detect_samples] holds across chunk
    boundaries. *)

Lemma v3_step_keeps_config (fs : nat) (th cd : Q) (d : AppV3.detector) (s : sample) :
  AppV3.threshold_uv (AppV3.sh (fst (AppV3.sample_step fs th cd d s))) =
    AppV3.threshold_uv (AppV3.sh d) /\
  AppV3.cooldown_secs (AppV3.sh (fst (AppV3.sample_step fs th cd d s))) =
    AppV3.cooldown_secs (AppV3.sh d).
Proof.
  unfold AppV3.sample_step.
  destruct (length _ <? AppV3.baseline_len fs)%nat; simpl; [auto|].
  destruct (np_median _) as [b|]; simpl; [|auto].
  destruct (AppV3.over_on th (Qabs (v_raw s)) b && negb (AppV3.blink_active d)
            && Qgeb (now s - AppV3.last_blink_ts (AppV3.sh d)) cd); simpl; auto.
Qed.

Lemma v3_detect_keeps_config (fs : nat) (th cd : Q) (ss : list sample) :
  forall d,
    AppV3.threshold_uv (AppV3.sh (fst (AppV3.detect_samples fs th cd d ss))) =
      AppV3.threshold_uv (AppV3.sh d) /\
    AppV3.cooldown_secs (AppV3.sh (fst (AppV3.detect_samples fs th cd d ss))) =
      AppV3.cooldown_secs (AppV3.sh d).
Proof.
  induction ss as [|s r IH]; intro d; [simpl; auto|].
  simpl. destruct (v3_step_keeps_config fs th cd d s) as [Ht Hc].
  destruct (AppV3.sample_step fs th cd d s) as [d1 e]. simpl in *.
  specialize (IH d1).
  destruct (AppV3.detect_samples fs th cd d1 r) as [d2 es]. simpl in *.
  destruct IH as [IHt IHc]. split; congruence.
Qed.

Lemma v3_detect_app (fs : nat) (th cd : Q) (a b : list sample) :
  forall d,
    AppV3.detect_samples fs th cd d (a ++ b) =
    (fst (AppV3.detect_samples fs th cd (fst (AppV3.detect_samples fs th cd d a)) b),
     snd (AppV3.detect_samples fs th cd d a) ++
     snd (AppV3.detect_samples fs th cd (fst (AppV3.detect_samples fs th cd d a)) b)).
Proof.
  induction a as [|s r IH]; intro d.
  - simpl. destruct (AppV3.detect_samples fs th cd d b). reflexivity.
  - simpl. destruct (AppV3.sample_step fs th cd d s) as [d1 e].
    rewrite (IH d1).
    destruct (AppV3.detect_samples fs th cd d1 r) as [d2 es]. simpl.
    destruct (AppV3.detect_samples fs th cd d2 b) as [d3 es']. simpl.
    destruct e; reflexivity.
Qed.

(** Chunk boundaries do not matter to the detector of app_v3: the loop reads
    the settings once per chunk and never writes them, so running it over a
    sequence of chunks gives the state and the events of the sample loop run
    over their concatenation under the settings of the start. *)
Lemma v3_run_chunks_concat (fs : nat) (chunks : list (list sample)) :
  forall d,
    AppV3.run_chunks fs d chunks =
    AppV3.detect_samples fs (AppV3.threshold_uv (AppV3.sh d)) (AppV3.cooldown_secs (AppV3.sh d))
      d (concat chunks).
Proof.
  induction chunks as [|c r IH]; intro d; [reflexivity|].
  simpl. unfold AppV3.process_chunk. rewrite v3_detect_app.
  destruct (v3_detect_keeps_config fs (AppV3.threshold_uv (AppV3.sh d))
              (AppV3.cooldown_secs (AppV3.sh d)) c d) as [Ht Hc].
  destruct (AppV3.detect_samples fs (AppV3.threshold_uv (AppV3.sh d))
              (AppV3.cooldown_secs (AppV3.sh d)) d c) as [d1 es1]. simpl in *.
  rewrite (IH d1), Ht, Hc.
  destruct (AppV3.detect_samples fs (AppV3.threshold_uv (AppV3.sh d))
              (AppV3.cooldown_secs (AppV3.sh d)) d1 (concat r)) as [d2 es2].
  reflexivity.
Qed.

(** * The statements at concrete inputs *)

Lemma C1_witness :
  snd (AppV3.sample_step 4 150 (35 # 100) (ready_v3 true 0) (mkSample 300 1000)) = None /\
  le (length (snd (AppV3.detect_samples 4 150 (35 # 100) (ready_v3 false 0)
                  (clocked 1000000 [300; 300; 300])))) 1 /\
  snd (AppV3.detect_samples 4 150 (35 # 100) (ready_v3 true 0)
         (clocked 1000000 [300; 300; 300])) = [] /\
  le (length (snd (AppV4.detect_samples 150 (35 # 100) (ready_v4 false 0)
                  (clocked 1000000 [300; 300; 300])))) 1 /\
  snd (AppV4.sample_step 150 (35 # 100) (ready_v4 true 0) (mkSample 300 1000)) = None.
Proof.
  destruct C1_at_most_one_event_per_excursion as (H1 & H2 & H3 & H4 & H5 & H6).
  split.
  { apply (H1 4%nat 150 (35 # 100) (ready_v3 true 0) (mkSample 300 1000)). reflexivity. }
  split.
  { apply (H3 4%nat 150 (35 # 100) (clocked 1000000 [300; 300; 300]) (ready_v3 false 0)).
    - vm_compute. discriminate.
    - vm_compute. reflexivity. }
  split.
  { apply (H2 4%nat 150 (35 # 100) (clocked 1000000 [300; 300; 300]) (ready_v3 true 0)).
    - vm_compute. repeat constructor.
    - reflexivity. }
  split.
  { apply (H5 150 (35 # 100) (clocked 1000000 [300; 300; 300]) (ready_v4 false 0)).
    vm_compute. repeat constructor. }
  apply (H4 150 (35 # 100) (ready_v4 true 0) (mkSample 300 1000)). reflexivity.
Defined.

Lemma C2_witness :
  (exists b,
      (AppV3.baseline_len 4 <= length (window_v3 4 (ready_v3 true 0) (mkSample 10 1000)))%nat /\
      np_median (window_v3 4 (ready_v3 true 0) (mkSample 10 1000)) = Some b /\
      Qabs 10 - b < 150 * AppV3.BLINK_OFF_FACTOR) /\
  AppV3.sample_step 4 150 (35 # 100) (ready_v3 true 0) (mkSample 300 1000) =
  AppV3.sample_step 4 150 (35 # 100) (ready_v3 true 0) (mkSample 300 999999) /\
  AppV3.blink_active
    (fst (AppV3.detect_samples 4 150 (35 # 100) (ready_v3 true 0)
            (clocked 1000000 [300; 200; 100]))) = true /\
  Qabs 10 < 150 * AppV4.BLINK_OFF_FACTOR /\
  AppV4.blink_active
    (fst (AppV4.detect_samples 150 (35 # 100) (ready_v4 true 0)
            (clocked 1000000 [300; 200; 100]))) = true /\
  0 < 150 * AppV3.BLINK_OFF_FACTOR < 150.
Proof.
  destruct C2_exit_only_below_off_threshold as (H1 & H2 & H3 & H4 & H5 & H6 & H7).
  split.
  { apply (H1 4%nat 150 (35 # 100) (ready_v3 true 0) (mkSample 10 1000)); reflexivity. }
  split.
  { apply (H2 4%nat 150 (35 # 100) (ready_v3 true 0) 300 1000 999999). reflexivity. }
  split.
  { apply (H3 4%nat 150 (35 # 100) (clocked 1000000 [300; 200; 100]) (ready_v3 true 0));
      reflexivity. }
  split.
  { apply (H4 150 (35 # 100) (ready_v4 true 0) (mkSample 10 1000)); reflexivity. }
  split.
  { apply (H6 150 (35 # 100) (clocked 1000000 [300; 200; 100]) (ready_v4 true 0));
      reflexivity. }
  apply (H7 150). reflexivity.
Defined.

Lemma C3_witness :
  snd (AppV3.sample_step 4 150 (35 # 100) (ready_v3 false 1000) (mkSample 300 (10001 # 10)))
    = None /\
  StronglySorted (fun e1 e2 => (5 # 100) <= AppV3.event_time e2 - AppV3.event_time e1)
    (snd (AppV3.detect_samples 250 150 (5 # 100) fresh_v3 scenario_B_v3)) /\
  le (length (snd (AppV3.detect_samples 4 150 (35 # 100) (ready_v3 false 0)
                  (clocked 1000000 [300; 10; 300])))) 1 /\
  snd (AppV4.sample_step 150 (35 # 100) (ready_v4 false 1000) (mkSample 300 (10001 # 10)))
    = None /\
  le (length (snd (AppV4.detect_samples 150 (35 # 100) (ready_v4 false 0)
                  (clocked 1000000 [300; 10; 300])))) 1.
Proof.
  destruct C3_cooldown_suppresses_second_onset
    as (H1 & H2 & H3 & _ & H5 & H6 & H7 & _).
  split.
  { apply (H1 4%nat 150 (35 # 100) (ready_v3 false 1000) (mkSample 300 (10001 # 10))).
    reflexivity. }
  split.
  { apply (H2 250%nat 150 (5 # 100) scenario_B_v3 fresh_v3). discriminate. }
  split.
  { apply (H3 4%nat 150 (35 # 100) 1000 (clocked 1000000 [300; 10; 300]) (ready_v3 false 0)).
    - discriminate.
    - intros s [E|[E|[E|[]]]]; subst s; split; simpl; try discriminate; reflexivity. }
  split.
  { apply (H5 150 (35 # 100) (ready_v4 false 1000) (mkSample 300 (10001 # 10))).
    discriminate. }
  apply (H7 150 (35 # 100) 1000 (clocked 1000000 [300; 10; 300]) (ready_v4 false 0)).
  - discriminate.
  - intros s [E|[E|[E|[]]]]; subst s; split; simpl; try discriminate; reflexivity.
Defined.

Lemma C4_witness :
  snd (AppV3.sample_step 250 150 (35 # 100) fresh_v3 (mkSample 5000 1000)) = None /\
  snd (AppV3.detect_samples 250 150 (35 # 100) fresh_v3 (clocked 1000000 (repeat 5000 40)))
    = [] /\
  snd (BlinkDetectionV2.sample_step 250 1000 fresh_v2 5000) = None /\
  snd (BlinkDetectionV2.process_chunk 250 1000 fresh_v2 (repeat 5000 12)) = [].
Proof.
  destruct C4_no_event_during_baseline_warm_up as (H1 & H2 & H3 & H4).
  split.
  { rewrite (H1 250%nat 150 (35 # 100) fresh_v3 (mkSample 5000 1000)); [reflexivity|].
    vm_compute. lia. }
  split.
  { apply (H2 250%nat 150 (35 # 100) (clocked 1000000 (repeat 5000 40)) fresh_v3).
    vm_compute. lia. }
  split.
  { rewrite (H3 250%nat 1000 fresh_v2 5000); [reflexivity|]. vm_compute. lia. }
  apply (H4 250%nat 1000 (repeat 5000 12) fresh_v2). vm_compute. lia.
Defined.

Lemma C5_witness :
  snd (AppV3.sample_step 4 150 (35 # 100) (ready_v3 false 0) (mkSample 300 1000)) <> None /\
  AppV3.blink_active
    (fst (AppV3.sample_step 4 150 (35 # 100) (ready_v3 false 0) (mkSample 300 1000))) = true /\
  snd (AppV3.sample_step 4 150 (35 # 100) (ready_v3 false 0) (mkSample 140 1000)) = None /\
  snd (BlinkDetectionV2.sample_step 4 1000 (BlinkDetectionV2.mkState (repeat 10 4) 0) 300)
    <> None.
Proof.
  destruct C5_onset_needs_differential_and_absolute as (H1 & _ & H3 & _).
  destruct (H1 4%nat 150 (35 # 100) (ready_v3 false 0) (mkSample 300 1000) (20 # 2))
    as (Ha & Hb & _); [vm_compute; lia|reflexivity|].
  destruct (H1 4%nat 150 (35 # 100) (ready_v3 false 0) (mkSample 140 1000) (20 # 2))
    as (_ & _ & Hc); [vm_compute; lia|reflexivity|].
  split.
  { apply Ha. split; [split; vm_compute; reflexivity|].
    split; [reflexivity|]. vm_compute. intro K. discriminate K. }
  split.
  { apply Hb.
    - vm_compute. intro K. discriminate K.
    - reflexivity.
    - split; [split; vm_compute; reflexivity|]. vm_compute. intro K. discriminate K. }
  split.
  { apply Hc. intros [Hd _]. revert Hd. vm_compute. discriminate. }
  apply (H3 4%nat 1000 (BlinkDetectionV2.mkState (repeat 10 4) 0) 300 (330 # 4)).
  - vm_compute. lia.
  - reflexivity.
  - split; [split; vm_compute; reflexivity|]. vm_compute. intro K. discriminate K.
Defined.

Lemma C6_witness :
  (exists th,
      fst (AppV4.finish_calibration (calibrated_v4 [20; 22; 18; 19] [250; 260])) =
        Success th /\
      Qabs (th - blend (Qmean [20; 22; 18; 19]) (Qmean [250; 260])) <= 1 # 20) /\
  (exists th,
      DetectionAnalysis.threshold_uv
        (snd (DetectionAnalysis.finish_calibration
                (calibrated_da [20; 22; 18; 19] [250; 260]))) = th /\
      DetectionAnalysis.cooldown_secs
        (snd (DetectionAnalysis.finish_calibration
                (calibrated_da [20; 22; 18; 19] [250; 260]))) = 2 # 10).
Proof.
  destruct C6_threshold_is_blend_rounded_to_one_decimal as (H1 & H2 & _).
  split.
  - destruct (H1 (calibrated_v4 [20; 22; 18; 19] [250; 260]) 20 [22; 18; 19] 250 [260])
      as (th & E & _ & _ & B & _); [reflexivity|reflexivity|].
    exists th. split; [exact E|exact B].
  - destruct (H2 (calibrated_da [20; 22; 18; 19] [250; 260]) 20 [22; 18; 19] 250 [260])
      as (th & _ & E & _ & _ & _ & Hc & _); [reflexivity|reflexivity|].
    exists th. split; [exact E|exact Hc].
Defined.

Lemma C7_witness :
  AppV4.finish_calibration (calibrated_v4 [5] []) = (Failure, calibrated_v4 [5] []) /\
  DetectionAnalysis.finish_calibration (calibrated_da [5] []) = (Failure, calibrated_da [5] []).
Proof.
  destruct C7_no_event_samples_reports_failure_unchanged as (H1 & H2).
  split.
  - apply (H1 (calibrated_v4 [5] [])). reflexivity.
  - apply (H2 (calibrated_da [5] [])). reflexivity.
Defined.


Lemma C10_witness :
  (exists th,
      fst (AppV4.finish_calibration (calibrated_v4 [] [100])) = Success th /\
      Qabs (th - (30 + (6 # 10) * (Qmean [100] - 30))) <= 1 # 20) /\
  (exists th,
      DetectionAnalysis.threshold_uv
        (snd (DetectionAnalysis.finish_calibration (calibrated_da [] [100]))) = th /\
      Qabs (th - (30 + (6 # 10) * (Qmean [100] - 30))) <= 1 # 20).
Proof.
  destruct C10_empty_noise_uses_default_mean_30 as (H1 & H2).
  split.
  - destruct (H1 (calibrated_v4 [] [100]) 100 []) as (th & E & _ & _ & B & _);
      [reflexivity|reflexivity|].
    exists th. split; [exact E|exact B].
  - destruct (H2 (calibrated_da [] [100]) 100 []) as (th & _ & E & _ & B & _);
      [reflexivity|reflexivity|].
    exists th. split; [exact E|exact B].
Defined.

(** * Further properties of the code *)

(** ** Rolling windows *)

Lemma fold_deque_append (n : nat) (xs : list Q) :
  forall d,
    (length d <= n)%nat ->
    fold_left (deque_append n) xs d = skipn (length d + length xs - n) (d ++ xs).
Proof.
  induction xs as [|x r IH]; intros d Hd.
  - simpl. rewrite app_nil_r. replace (length d + 0 - n)%nat with 0%nat by lia. reflexivity.
  - simpl fold_left. unfold deque_append at 2.
    destruct (Nat.eqb_spec n 0) as [Hn|Hn].
    + subst n. destruct d; [|simpl in Hd; lia].
      rewrite IH by (simpl; lia). simpl.
      rewrite Nat.sub_0_r. rewrite skipn_all. reflexivity.
    + destruct (Nat.ltb_spec (length d) n) as [Hlt|Hge].
      * rewrite IH by (rewrite length_app; simpl; lia).
        rewrite length_app, <- app_assoc. simpl.
        f_equal. lia.
      * assert (Hlen : length d = n) by lia.
        destruct d as [|a d']; [simpl in Hlen; lia|].
        simpl tl. cbn [length] in Hlen.
        rewrite IH by (rewrite length_app; cbn [length]; lia).
        rewrite length_app, <- app_assoc. cbn [length app].
        replace (length d' + 1 + length r - n)%nat with (length r) by lia.
        replace (S (length d') + S (length r) - n)%nat with (S (length r)) by lia.
        reflexivity.
Qed.

Lemma v3_step_buffers (fs : nat) (th cd : Q) (d : AppV3.detector) (s : sample) :
  AppV3.baseline_buf (fst (AppV3.sample_step fs th cd d s)) =
    deque_append (AppV3.baseline_len fs) (AppV3.baseline_buf d) (Qabs (v_raw s)) /\
  AppV3.signal_buffer (AppV3.sh (fst (AppV3.sample_step fs th cd d s))) =
    deque_append (AppV3.signal_len fs) (AppV3.signal_buffer (AppV3.sh d)) (v_raw s).
Proof.
  unfold AppV3.sample_step.
  destruct (length _ <? AppV3.baseline_len fs)%nat; simpl; [auto|].
  destruct (np_median _) as [b|]; simpl; [|auto].
  destruct (AppV3.over_on th (Qabs (v_raw s)) b && negb (AppV3.blink_active d)
            && Qgeb (now s - AppV3.last_blink_ts (AppV3.sh d)) cd); simpl; auto.
Qed.

Lemma v3_run_buffers (fs : nat) (th cd : Q) (ss : list sample) :
  forall d,
    AppV3.baseline_buf (fst (AppV3.detect_samples fs th cd d ss)) =
      fold_left (deque_append (AppV3.baseline_len fs)) (map (fun s => Qabs (v_raw s)) ss)
        (AppV3.baseline_buf d) /\
    AppV3.signal_buffer (AppV3.sh (fst (AppV3.detect_samples fs th cd d ss))) =
      fold_left (deque_append (AppV3.signal_len fs)) (map v_raw ss)
        (AppV3.signal_buffer (AppV3.sh d)).
Proof.
  induction ss as [|s r IH]; intro d; [simpl; auto|].
  simpl. destruct (v3_step_buffers fs th cd d s) as [Hb Hs].
  destruct (AppV3.sample_step fs th cd d s) as [d1 e]. simpl in *.
  specialize (IH d1).
  destruct (AppV3.detect_samples fs th cd d1 r) as [d2 es]. simpl in *.
  rewrite <- Hb, <- Hs. exact IH.
Qed.

(** The baseline window and the plot buffer of app_v3 are rolling windows:
    after any stretch of samples each holds the most recent items, at most
    [baseline_len] magnitudes and at most [signal_len] raw values, whatever the
    trigger did in between. *)
Theorem v3_buffers_hold_most_recent_samples :
  forall fs th cd ss d,
    (length (AppV3.baseline_buf d) <= AppV3.baseline_len fs)%nat ->
    (length (AppV3.signal_buffer (AppV3.sh d)) <= AppV3.signal_len fs)%nat ->
    let d' := fst (AppV3.detect_samples fs th cd d ss) in
    AppV3.baseline_buf d' =
      skipn (length (AppV3.baseline_buf d) + length ss - AppV3.baseline_len fs)
        (AppV3.baseline_buf d ++ map (fun s => Qabs (v_raw s)) ss) /\
    AppV3.signal_buffer (AppV3.sh d') =
      skipn (length (AppV3.signal_buffer (AppV3.sh d)) + length ss - AppV3.signal_len fs)
        (AppV3.signal_buffer (AppV3.sh d) ++ map v_raw ss) /\
    (length (AppV3.baseline_buf d') <= AppV3.baseline_len fs)%nat /\
    (length (AppV3.signal_buffer (AppV3.sh d')) <= AppV3.signal_len fs)%nat.
Proof.
  intros fs th cd ss d Hb Hs d'. subst d'.
  destruct (v3_run_buffers fs th cd ss d) as [Eb Es].
  rewrite Eb, Es, !fold_deque_append by assumption.
  rewrite !length_map.
  repeat split; rewrite length_skipn, length_app, length_map; lia.
Qed.

Lemma deque_append_full (n : nat) (d : list Q) (x : Q) :
  length d = n -> length (deque_append n d x) = n.
Proof.
  intro H. unfold deque_append.
  destruct (Nat.eqb_spec n 0); [exact H|].
  destruct (Nat.ltb_spec (length d) n); [lia|].
  rewrite length_app. destruct d; simpl in *; lia.
Qed.

(** Once the baseline window of app_v3 is full it stays full: a warm-up
    iteration that brings the number of received magnitudes to [baseline_len]
    fills it without touching the trigger or the event fields, and from a full
    window on no sample is skipped by the [len(baseline_buf) < baseline_len]
    test. *)
Theorem v3_window_full_after_warm_up :
  forall P : FilterProvider,
    (forall fs d row_a row_b bx,
        AppV3.condition (combine_channels row_a row_b) (AppV3.loop_bp fs) (AppV3.loop_nf fs)
          = Ok bx ->
        (length (AppV3.baseline_buf d) <= AppV3.baseline_len fs)%nat ->
        (AppV3.baseline_len fs <= length (AppV3.baseline_buf d) + length bx)%nat ->
        let d' := AppV3.warmup_iteration fs d row_a row_b in
        length (AppV3.baseline_buf d') = AppV3.baseline_len fs /\
        AppV3.blink_active d' = AppV3.blink_active d /\
        AppV3.last_blink_ts (AppV3.sh d') = AppV3.last_blink_ts (AppV3.sh d) /\
        AppV3.blink_pending (AppV3.sh d') = AppV3.blink_pending (AppV3.sh d) /\
        AppV3.last_event_text (AppV3.sh d') = AppV3.last_event_text (AppV3.sh d)) /\
    (forall fs th cd d s,
        length (AppV3.baseline_buf d) = AppV3.baseline_len fs ->
        (length (window_v3 fs d s) <? AppV3.baseline_len fs)%nat = false /\
        length (AppV3.baseline_buf (fst (AppV3.sample_step fs th cd d s))) =
          AppV3.baseline_len fs).
Proof.
  intro P. split.
  - intros fs d row_a row_b bx Hc Hle Hge d'. subst d'.
    unfold AppV3.warmup_iteration. rewrite Hc. simpl.
    split.
    { rewrite fold_deque_append by exact Hle.
      rewrite length_skipn, length_app, !length_map. lia. }
    assert (Hsh : forall xs s0,
               AppV3.last_blink_ts (fold_left (AppV3.push_signal fs) xs s0) =
                 AppV3.last_blink_ts s0 /\
               AppV3.blink_pending (fold_left (AppV3.push_signal fs) xs s0) =
                 AppV3.blink_pending s0 /\
               AppV3.last_event_text (fold_left (AppV3.push_signal fs) xs s0) =
                 AppV3.last_event_text s0).
    { induction xs as [|x r IH]; intro s0; simpl; [auto|].
      destruct (IH (AppV3.push_signal fs s0 x)) as (H1 & H2 & H3).
      rewrite H1, H2, H3. simpl. auto. }
    destruct (Hsh bx (AppV3.sh d)) as (H1 & H2 & H3). auto.
  - intros fs th cd d s Hfull.
    assert (Hw : length (window_v3 fs d s) = AppV3.baseline_len fs).
    { unfold window_v3. apply deque_append_full. exact Hfull. }
    split.
    + apply Nat.ltb_ge. lia.
    + destruct (v3_step_buffers fs th cd d s) as [Hb _]. rewrite Hb. exact Hw.
Qed.


(** At every sampling rate up to 619 Hz (the Cyton board runs at 250 Hz and
    is asked for 12 samples per chunk) a chunk of at most [int(fs * CHUNK_SECS)]
    samples never passes the [bx.size > 30] guard: the warm-up and the main
    loop of app_v3 work on the plain average of the two channels, whatever
    the notch and band-pass filters are, and never end in the error state. *)
Theorem v3_filters_unused_at_shipped_chunk_size :
  forall (P : FilterProvider) fs d row_a row_b clock,
    (fs <= 619)%nat ->
    (length (combine_channels row_a row_b) <= AppV3.chunk_len fs)%nat ->
    AppV3.loop_iteration fs d row_a row_b clock =
      AppV3.process_chunk fs d (AppV3.with_clock (combine_channels row_a row_b) clock) /\
    AppV3.warmup_iteration fs d row_a row_b =
      {| AppV3.sh := fold_left (AppV3.push_signal fs) (combine_channels row_a row_b)
                       (AppV3.sh d);
         AppV3.baseline_buf :=
           fold_left (deque_append (AppV3.baseline_len fs))
             (map Qabs (combine_channels row_a row_b)) (AppV3.baseline_buf d);
         AppV3.blink_active := AppV3.blink_active d |}.
Proof.
  intros P fs d row_a row_b clock Hfs Hlen.
  pose proof (chunk_len_small fs Hfs) as Hc.
  assert (Hcond : AppV3.condition (combine_channels row_a row_b)
                    (AppV3.loop_bp fs) (AppV3.loop_nf fs)
                  = Ok (combine_channels row_a row_b)).
  { apply v3_condition_below_guard. lia. }
  unfold AppV3.loop_iteration, AppV3.warmup_iteration. rewrite Hcond. split; reflexivity.
Qed.

(** ** The baseline is never negative *)

Lemma insert_sorted_In (x y : Q) (l : list Q) :
  In y (insert_sorted x l) -> y = x \/ In y l.
Proof.
  induction l as [|a r IH]; simpl.
  - intros [H|[]]; auto.
  - destruct (Qle_bool x a); simpl.
    + intros [H|[H|H]]; auto.
    + intros [H|H]; auto. destruct (IH H); auto.
Qed.

Lemma sort_Q_In (y : Q) (l : list Q) : In y (sort_Q l) -> In y l.
Proof.
  induction l as [|a r IH]; simpl; [auto|].
  intro H. destruct (insert_sorted_In _ _ _ H); auto.
Qed.

Lemma nth_nonneg (s : list Q) (i : nat) :
  Forall (fun x => 0 <= x) s -> 0 <= nth i s 0.
Proof.
  intro H. destruct (nth_in_or_default i s 0) as [Hin|E].
  - rewrite Forall_forall in H. apply H. exact Hin.
  - rewrite E. apply Qle_refl.
Qed.

Lemma np_median_nonneg (l : list Q) (b : Q) :
  Forall (fun x => 0 <= x) l -> np_median l = Some b -> 0 <= b.
Proof.
  intros H. unfold np_median. destruct l as [|a r]; [discriminate|].
  assert (Hs : Forall (fun x => 0 <= x) (sort_Q (a :: r))).
  { rewrite Forall_forall in *. intros y Hy. apply H. apply sort_Q_In. exact Hy. }
  set (s := sort_Q (a :: r)) in *.
  destruct (Nat.even (length s)); intro E; injection E as <-.
  - assert (Hij : forall i j, 0 * 2 <= nth i s 0 + nth j s 0).
    { intros i j. pose proof (nth_nonneg s i Hs). pose proof (nth_nonneg s j Hs). lra. }
    apply Qle_shift_div_l; [reflexivity|]. apply Hij.
  - apply nth_nonneg. exact Hs.
Qed.

Lemma Qsum_nonneg (l : list Q) : Forall (fun x => 0 <= x) l -> 0 <= Qsum l.
Proof.
  induction 1 as [|x r Hx Hr IH]; simpl; [apply Qle_refl|]. lra.
Qed.

Lemma np_mean_nonneg (l : list Q) (b : Q) :
  Forall (fun x => 0 <= x) l -> np_mean l = Some b -> 0 <= b.
Proof.
  intros H. unfold np_mean. destruct l as [|a r]; [discriminate|].
  intro E. inversion E; subst b. unfold Qmean.
  apply Qle_shift_div_l.
  - unfold Qlt, inject_Z. cbn [Qnum Qden length]. lia.
  - pose proof (Qsum_nonneg _ H). lra.
Qed.

Lemma deque_append_Forall (P : Q -> Prop) (n : nat) (d : list Q) (x : Q) :
  Forall P d -> P x -> Forall P (deque_append n d x).
Proof.
  intros Hd Hx. unfold deque_append.
  destruct (n =? 0)%nat; [exact Hd|].
  destruct (length d <? n)%nat.
  - apply Forall_app. auto.
  - apply Forall_app. split; [|auto].
    destruct d; simpl; [constructor|]. inversion Hd; assumption.
Qed.

Lemma abs_test_redundant (th m b : Q) :
  0 <= b -> AppV3.over_on th m b = Qgtb (m - b) th.
Proof.
  intro Hb. unfold AppV3.over_on.
  destruct (Qgtb (m - b) th) eqn:E; simpl; [|reflexivity].
  apply Qgtb_true in E. apply Qgtb_true. lra.
Qed.

(** The baseline window of app_v3 only ever receives absolute values, so the
    median it yields is never negative and the second half of the onset test,
    [v_abs > th_on], follows from the first: on such a window [over_on] is
    exactly [diff > th_on].  The window keeps this property through every
    sample. *)
Theorem v3_absolute_test_follows_from_differential :
  forall fs th cd d s,
    Forall (fun x => 0 <= x) (AppV3.baseline_buf d) ->
    Forall (fun x => 0 <= x) (AppV3.baseline_buf (fst (AppV3.sample_step fs th cd d s))) /\
    (forall b,
        np_median (window_v3 fs d s) = Some b ->
        0 <= b /\
        AppV3.over_on th (Qabs (v_raw s)) b = Qgtb (Qabs (v_raw s) - b) th).
Proof.
  intros fs th cd d s H.
  assert (Hw : Forall (fun x => 0 <= x) (window_v3 fs d s)).
  { unfold window_v3. apply deque_append_Forall; [exact H|apply Qabs_nonneg]. }
  split.
  - destruct (v3_step_buffers fs th cd d s) as [Hb _]. rewrite Hb. exact Hw.
  - intros b Hm. pose proof (np_median_nonneg _ _ Hw Hm) as Hb.
    split; [exact Hb|]. apply abs_test_redundant. exact Hb.
Qed.

(** The same holds for blink_detection_v2, whose two constants are equal: on
    a window of absolute values the mean is never negative and [over] is
    exactly [diff > THRESH_UV]. *)
Theorem v2_absolute_test_follows_from_differential :
  forall fs t st v,
    Forall (fun x => 0 <= x) (BlinkDetectionV2.baseline_buf st) ->
    Forall (fun x => 0 <= x)
      (BlinkDetectionV2.baseline_buf (fst (BlinkDetectionV2.sample_step fs t st v))) /\
    (forall base,
        np_mean (window_v2 fs st v) = Some base ->
        0 <= base /\
        BlinkDetectionV2.over (Qabs v) base =
          Qgtb (Qabs v - base) BlinkDetectionV2.THRESH_UV).
Proof.
  intros fs t st v H.
  assert (Hw : Forall (fun x => 0 <= x) (window_v2 fs st v)).
  { unfold window_v2. apply deque_append_Forall; [exact H|apply Qabs_nonneg]. }
  split.
  - unfold BlinkDetectionV2.sample_step. fold (window_v2 fs st v).
    destruct (length (window_v2 fs st v) <? BlinkDetectionV2.baseline_len fs)%nat;
      simpl; [exact Hw|].
    destruct (np_mean (window_v2 fs st v)) as [base|]; simpl; [|exact Hw].
    destruct (BlinkDetectionV2.over (Qabs v) base
              && Qgeb (t - BlinkDetectionV2.last_blink_ts st)
                   BlinkDetectionV2.BLINK_DEBOUNCE_S); simpl; exact Hw.
  - intros base Hm. pose proof (np_mean_nonneg _ _ Hw Hm) as Hb.
    split; [exact Hb|]. unfold BlinkDetectionV2.over.
    destruct (Qgtb (Qabs v - base) BlinkDetectionV2.THRESH_UV) eqn:E; simpl;
      [|reflexivity].
    apply Qgtb_true in E. apply Qgtb_true.
    unfold BlinkDetectionV2.THRESH_UV, BlinkDetectionV2.MIN_ABS_UV in *. lra.
Qed.

(** ** The one-shot event flag *)

Lemma last_cons_default {A : Type} (e : A) (es : list A) (x : A) :
  last (e :: es) x = last es e.
Proof.
  revert e x. induction es as [|a r IH]; intros e x; [reflexivity|].
  change (last (e :: a :: r) x) with (last (a :: r) x).
  rewrite (IH a x). symmetry. apply IH.
Qed.

Lemma v3_step_event_fields (fs : nat) (th cd : Q) (d : AppV3.detector) (s : sample) :
  match snd (AppV3.sample_step fs th cd d s) with
  | Some e =>
      AppV3.blink_pending (AppV3.sh (fst (AppV3.sample_step fs th cd d s))) = true /\
      AppV3.last_event_text (AppV3.sh (fst (AppV3.sample_step fs th cd d s))) = e
  | None =>
      AppV3.blink_pending (AppV3.sh (fst (AppV3.sample_step fs th cd d s))) =
        AppV3.blink_pending (AppV3.sh d) /\
      AppV3.last_event_text (AppV3.sh (fst (AppV3.sample_step fs th cd d s))) =
        AppV3.last_event_text (AppV3.sh d)
  end.
Proof.
  unfold AppV3.sample_step.
  destruct (length _ <? AppV3.baseline_len fs)%nat; simpl; [auto|].
  destruct (np_median _) as [b|]; simpl; [|auto].
  destruct (AppV3.over_on th (Qabs (v_raw s)) b && negb (AppV3.blink_active d)
            && Qgeb (now s - AppV3.last_blink_ts (AppV3.sh d)) cd); simpl; auto.
Qed.

Lemma v3_run_event_fields (fs : nat) (th cd : Q) (ss : list sample) :
  forall d,
    AppV3.blink_pending (AppV3.sh (fst (AppV3.detect_samples fs th cd d ss))) =
      (AppV3.blink_pending (AppV3.sh d)
       || negb (length (snd (AppV3.detect_samples fs th cd d ss)) =? 0)%nat) /\
    AppV3.last_event_text (AppV3.sh (fst (AppV3.detect_samples fs th cd d ss))) =
      last (snd (AppV3.detect_samples fs th cd d ss)) (AppV3.last_event_text (AppV3.sh d)).
Proof.
  induction ss as [|s r IH]; intro d.
  - simpl. rewrite orb_false_r. auto.
  - simpl. pose proof (v3_step_event_fields fs th cd d s) as Hs.
    destruct (AppV3.sample_step fs th cd d s) as [d1 e]. simpl in Hs.
    specialize (IH d1).
    destruct (AppV3.detect_samples fs th cd d1 r) as [d2 es]. simpl in *.
    destruct IH as [IHp IHt].
    destruct e as [e|]; destruct Hs as [Hp Ht].
    + rewrite IHp, IHt, Hp, Ht. simpl. rewrite orb_true_r.
      split; [reflexivity|]. symmetry. apply last_cons_default.
    + rewrite IHp, IHt, Hp, Ht. auto.
Qed.

Lemma v4_step_event_fields (th cd : Q) (d : AppV4.detector) (s : sample) :
  match snd (AppV4.sample_step th cd d s) with
  | Some e =>
      AppV4.blink_pending (AppV4.sh (fst (AppV4.sample_step th cd d s))) = true /\
      AppV4.last_event_text (AppV4.sh (fst (AppV4.sample_step th cd d s))) = AppV4.ev_text e
  | None => AppV4.sh (fst (AppV4.sample_step th cd d s)) = AppV4.sh d
  end.
Proof.
  unfold AppV4.sample_step.
  destruct (Qgtb (Qabs (v_raw s)) th && negb (AppV4.blink_active d)
            && Qgtb (now s - AppV4.last_blink_ts (AppV4.sh d)) cd); simpl; [auto|].
  destruct (AppV4.blink_active d && _); reflexivity.
Qed.

Lemma v4_run_event_fields (th cd : Q) (ss : list sample) :
  forall d,
    AppV4.blink_pending (AppV4.sh (fst (AppV4.detect_samples th cd d ss))) =
      (AppV4.blink_pending (AppV4.sh d)
       || negb (length (snd (AppV4.detect_samples th cd d ss)) =? 0)%nat) /\
    AppV4.last_event_text (AppV4.sh (fst (AppV4.detect_samples th cd d ss))) =
      last (map AppV4.ev_text (snd (AppV4.detect_samples th cd d ss)))
        (AppV4.last_event_text (AppV4.sh d)).
Proof.
  induction ss as [|s r IH]; intro d.
  - simpl. rewrite orb_false_r. auto.
  - simpl. pose proof (v4_step_event_fields th cd d s) as Hs.
    destruct (AppV4.sample_step th cd d s) as [d1 e]. simpl in Hs.
    specialize (IH d1).
    destruct (AppV4.detect_samples th cd d1 r) as [d2 es]. simpl in *.
    destruct IH as [IHp IHt].
    destruct e as [e|].
    + destruct Hs as [Hp Ht]. rewrite IHp, IHt, Hp, Ht. simpl. rewrite orb_true_r.
      split; [reflexivity|]. symmetry. apply last_cons_default.
    + rewrite IHp, IHt, Hs. auto.
Qed.

(** [api_events] consumes the pending flag: a poll answers [blink = true]
    exactly when the flag was still set or at least one event was written
    since, however many there were, together with the text of the latest
    event; the poll that follows it without new events answers [false] and the
    same text.  Events between two polls are thus merged into one. *)
Theorem events_between_polls_are_merged :
  (forall fs th cd d ss,
      let d' := fst (AppV3.detect_samples fs th cd d ss) in
      let evs := snd (AppV3.detect_samples fs th cd d ss) in
      fst (AppV3.api_events (AppV3.sh d')) =
        (AppV3.blink_pending (AppV3.sh d) || negb (length evs =? 0)%nat,
         last evs (AppV3.last_event_text (AppV3.sh d))) /\
      fst (AppV3.api_events (snd (AppV3.api_events (AppV3.sh d')))) =
        (false, last evs (AppV3.last_event_text (AppV3.sh d)))) /\
  (forall th cd d ss,
      let d' := fst (AppV4.detect_samples th cd d ss) in
      let evs := snd (AppV4.detect_samples th cd d ss) in
      fst (AppV4.api_events (AppV4.sh d')) =
        (AppV4.blink_pending (AppV4.sh d) || negb (length evs =? 0)%nat,
         last (map AppV4.ev_text evs) (AppV4.last_event_text (AppV4.sh d))) /\
      fst (AppV4.api_events (snd (AppV4.api_events (AppV4.sh d')))) =
        (false, last (map AppV4.ev_text evs) (AppV4.last_event_text (AppV4.sh d)))).
Proof.
  split.
  - intros fs th cd d ss d' evs. subst d' evs.
    destruct (v3_run_event_fields fs th cd ss d) as [Hp Ht].
    unfold AppV3.api_events. simpl. rewrite Hp, Ht. split; reflexivity.
  - intros th cd d ss d' evs. subst d' evs.
    destruct (v4_run_event_fields th cd ss d) as [Hp Ht].
    unfold AppV4.api_events. simpl. rewrite Hp, Ht. split; reflexivity.
Qed.

(** ** Downsampling for the plot *)

Lemma every_nth_bounds (step : nat) (l : list Q) :
  (1 <= step)%nat ->
  forall k,
    (length l <= k + length (every_nth k step l) * step)%nat /\
    (1 <= length (every_nth k step l) ->
     k + (length (every_nth k step l) - 1) * step + 1 <= length l)%nat.
Proof.
  intro Hs. induction l as [|x r IH]; intro k.
  - simpl. split; lia.
  - destruct k as [|k'].
    + cbn [every_nth length].
      destruct (IH (step - 1)%nat) as [H1 H2].
      set (n := length (every_nth (step - 1) step r)) in *.
      split; [nia|]. intros _.
      replace (S n - 1)%nat with n by lia.
      destruct (Nat.eq_dec n 0) as [E|E]; [rewrite E; lia|].
      specialize (H2 ltac:(lia)). nia.
    + cbn [every_nth length].
      destruct (IH k') as [H1 H2]. split; [lia|]. intro H. specialize (H2 H). lia.
Qed.

Lemma every_nth_step_one (l : list Q) : every_nth 0 1 l = l.
Proof.
  induction l as [|x r IH]; [reflexivity|].
  cbn [every_nth]. change (1 - 1)%nat with 0%nat. rewrite IH. reflexivity.
Qed.

Lemma downsample_spec (l : list Q) :
  exists out,
    downsample l = Returns out /\
    (length l < 2 * MAX_SIGNAL_POINTS -> out = l)%nat /\
    (MAX_SIGNAL_POINTS < length l ->
     MAX_SIGNAL_POINTS <= length out < 2 * MAX_SIGNAL_POINTS)%nat /\
    hd_error out = hd_error l.
Proof.
  unfold downsample, MAX_SIGNAL_POINTS.
  destruct (Nat.ltb_spec 1000 (length l)) as [Hgt|Hle].
  2:{ exists l. repeat split; auto; lia. }
  unfold slice_step.
  pose proof (Nat.div_mod_eq (length l) 1000) as Hdm.
  pose proof (Nat.mod_upper_bound (length l) 1000 ltac:(lia)) as Hmod.
  set (step := (length l / 1000)%nat) in *.
  assert (Hstep : (1 <= step)%nat) by nia.
  destruct (Nat.eqb_spec step 0) as [Hz|Hnz]; [lia|].
  exists (every_nth 0 step l).
  destruct (every_nth_bounds step l Hstep 0%nat) as [H1 H2].
  set (n := length (every_nth 0 step l)) in *.
  split; [reflexivity|].
  split.
  { intro Hlt. assert (step = 1%nat) by nia. subst n.
    replace step with 1%nat. apply every_nth_step_one. }
  split.
  { intros _. assert (Hn : (1 <= n)%nat) by nia.
    specialize (H2 Hn). split; nia. }
  destruct l as [|x r]; reflexivity.
Qed.

(** [api_signal] never fails and does not cap the answer at
    [MAX_SIGNAL_POINTS]: a buffer of fewer than 2000 samples is sent whole, and
    a longer one is thinned to between 1000 and 1999 samples, starting with
    the oldest sample of the buffer. *)
Theorem api_signal_sends_up_to_1999_samples :
  (forall s : AppV3.shared,
      exists out,
        AppV3.api_signal s = Returns out /\
        (length (AppV3.signal_buffer s) < 2000 -> out = AppV3.signal_buffer s)%nat /\
        (1000 < length (AppV3.signal_buffer s) -> 1000 <= length out < 2000)%nat /\
        hd_error out = hd_error (AppV3.signal_buffer s)) /\
  (forall s : AppV4.shared,
      exists out,
        AppV4.api_signal s = Returns out /\
        (length (AppV4.signal_buffer s) < 2000 -> out = AppV4.signal_buffer s)%nat /\
        (1000 < length (AppV4.signal_buffer s) -> 1000 <= length out < 2000)%nat /\
        hd_error out = hd_error (AppV4.signal_buffer s)).
Proof.
  split; intro s.
  - exact (downsample_spec (AppV3.signal_buffer s)).
  - exact (downsample_spec (AppV4.signal_buffer s)).
Qed.

(** ** Settings *)

Lemma v3_with_settings_same (s : AppV3.shared) :
  AppV3.with_settings s (AppV3.threshold_uv s) (AppV3.cooldown_secs s) = s.
Proof. destruct s; reflexivity. Qed.

Lemma v4_with_settings_same (s : AppV4.shared) :
  AppV4.with_settings s (AppV4.threshold_uv s) (AppV4.cooldown_secs s) = s.
Proof. destruct s; reflexivity. Qed.

Lemma da_with_settings_same (s : DetectionAnalysis.shared) :
  DetectionAnalysis.with_settings s (DetectionAnalysis.threshold_uv s)
    (DetectionAnalysis.cooldown_secs s) = s.
Proof. destruct s; reflexivity. Qed.

(** [float] converts an integer of magnitude at most [2^53] exactly and
    raises on one of magnitude [2^1024] or more. *)
Lemma int_to_double_exact (z : Z) : (Z.abs z <= 2 ^ 53)%Z -> int_to_double z = Some z.
Proof.
  intro H. unfold int_to_double.
  destruct (Z.leb_spec (Z.log2 (Z.abs z) - 52) 0) as [He|He]; [reflexivity|].
  assert (Ha : Z.abs z = (2 ^ 53)%Z).
  { destruct (Z_lt_le_dec (Z.abs z) (2 ^ 53)) as [Hlt|Hge]; [|lia].
    exfalso. destruct (Z.eq_dec (Z.abs z) 0) as [H0|H0].
    - rewrite H0 in He. simpl in He. lia.
    - assert (Hp : (0 < Z.abs z)%Z) by lia.
      apply (Z.log2_lt_pow2 _ 53 Hp) in Hlt. lia. }
  assert (Hz : z = (2 ^ 53)%Z \/ z = (- 2 ^ 53)%Z) by lia.
  destruct Hz as [Hz|Hz]; subst z; vm_compute; reflexivity.
Qed.

Lemma int_to_double_overflow (z : Z) : (2 ^ 1024 <= Z.abs z)%Z -> int_to_double z = None.
Proof.
  intro H. unfold int_to_double.
  set (a := Z.abs z) in *.
  assert (Hp : (0 < a)%Z).
  { assert (0 < 2 ^ 1024)%Z by (apply Z.pow_pos_nonneg; lia). lia. }
  assert (HL : (1024 <= Z.log2 a)%Z) by (apply Z.log2_le_pow2; assumption).
  set (e := (Z.log2 a - 52)%Z).
  assert (He : (972 <= e)%Z) by (unfold e; lia).
  destruct (Z.leb_spec e 0) as [K|_]; [lia|].
  assert (Hpe : (0 < 2 ^ e)%Z) by (apply Z.pow_pos_nonneg; lia).
  assert (Hq : (2 ^ 52 <= a / 2 ^ e)%Z).
  { apply Z.div_le_lower_bound; [exact Hpe|].
    rewrite Z.mul_comm, <- Z.pow_add_r by lia.
    replace (52 + e)%Z with (Z.log2 a) by (unfold e; lia).
    apply Z.log2_spec. exact Hp. }
  set (q := (a / 2 ^ e)%Z) in *.
  set (m := if (a mod 2 ^ e <? 2 ^ (e - 1))%Z then q
            else if (2 ^ (e - 1) <? a mod 2 ^ e)%Z then (q + 1)%Z
            else if Z.even q then q else (q + 1)%Z).
  assert (Hm : (q <= m)%Z).
  { unfold m. destruct (a mod 2 ^ e <? 2 ^ (e - 1))%Z; [lia|].
    destruct (2 ^ (e - 1) <? a mod 2 ^ e)%Z; [lia|].
    destruct (Z.even q); lia. }
  assert (Hbig : (2 ^ 1024 <= m * 2 ^ e)%Z).
  { apply Z.le_trans with (2 ^ 52 * 2 ^ e)%Z.
    - rewrite <- Z.pow_add_r by lia. apply Z.pow_le_mono_r; lia.
    - apply Z.mul_le_mono_nonneg_r; lia. }
  destruct (Z.ltb_spec (m * 2 ^ e) (2 ^ 1024)) as [K|_]; [lia|reflexivity].
Qed.

Lemma posted_number_float {F : FloatParser} (v : json) (q : Q) :
  posted_number v = Some q ->
  py_float v = Returns q /\ not_empty_string v = true /\
  (~ q == 0 -> truthy v = true).
Proof.
  destruct v as [|b|x|z|t|n|n];
    cbn [posted_number py_float not_empty_string truthy]; try discriminate.
  - destruct (Qle_bool (Qabs x) DBL_MAX); [|discriminate].
    intro H. injection H as H. subst q. split; [reflexivity|]. split; [reflexivity|].
    intro Hq. apply negb_true_iff. destruct (Qeq_bool x 0) eqn:E; [|reflexivity].
    apply Qeq_bool_iff in E. contradiction.
  - destruct (Z.leb_spec (Z.abs z) (2 ^ 53)) as [Hz|_]; [|discriminate].
    intro H. injection H as H. subst q.
    rewrite (int_to_double_exact z Hz). split; [reflexivity|]. split; [reflexivity|].
    intro Hq. apply negb_true_iff. destruct (Z.eqb_spec z 0) as [E|E]; [|reflexivity].
    subst z. exfalso. apply Hq. reflexivity.
  - destruct t as [|c r]; [discriminate|].
    intro H. rewrite H. auto.
Qed.

(** Posting numbers to [api_settings] of app_v3 or app_v4 stores exactly the
    fields that are present, without any validation (zero and negative values
    included), and leaves the absent ones and every other shared variable
    alone; the GET branch then returns the stored pair.  The numbers are
    floats in the range of doubles, integers of magnitude at most [2^53], or
    texts that read as numbers. *)
Theorem settings_post_then_get_round_trip :
  forall (F : FloatParser) (vth vcd : json) (th cd : Q),
    posted_number vth = Some th ->
    posted_number vcd = Some cd ->
    (forall s : AppV3.shared,
        AppV3.api_settings_post
          {| body_threshold_uv := Some vth; body_cooldown_secs := Some vcd |} s =
          (Returns tt, AppV3.with_settings s th cd) /\
        AppV3.api_settings_post
          {| body_threshold_uv := Some vth; body_cooldown_secs := None |} s =
          (Returns tt, AppV3.with_settings s th (AppV3.cooldown_secs s)) /\
        AppV3.api_settings_post
          {| body_threshold_uv := None; body_cooldown_secs := Some vcd |} s =
          (Returns tt, AppV3.with_settings s (AppV3.threshold_uv s) cd) /\
        AppV3.api_settings_post
          {| body_threshold_uv := None; body_cooldown_secs := None |} s = (Returns tt, s) /\
        AppV3.api_settings_get
          (snd (AppV3.api_settings_post
                  {| body_threshold_uv := Some vth; body_cooldown_secs := Some vcd |} s)) =
          (th, cd)) /\
    (forall s : AppV4.shared,
        AppV4.api_settings_post
          {| body_threshold_uv := Some vth; body_cooldown_secs := Some vcd |} s =
          (Returns tt, AppV4.with_settings s th cd) /\
        AppV4.api_settings_post
          {| body_threshold_uv := Some vth; body_cooldown_secs := None |} s =
          (Returns tt, AppV4.with_settings s th (AppV4.cooldown_secs s)) /\
        AppV4.api_settings_post
          {| body_threshold_uv := None; body_cooldown_secs := Some vcd |} s =
          (Returns tt, AppV4.with_settings s (AppV4.threshold_uv s) cd) /\
        AppV4.api_settings_post
          {| body_threshold_uv := None; body_cooldown_secs := None |} s = (Returns tt, s) /\
        AppV4.api_settings_get
          (snd (AppV4.api_settings_post
                  {| body_threshold_uv := Some vth; body_cooldown_secs := Some vcd |} s)) =
          (th, cd)).
Proof.
  intros F vth vcd th cd Hth Hcd.
  destruct (posted_number_float vth th Hth) as (Fth & Nth & _).
  destruct (posted_number_float vcd cd Hcd) as (Fcd & Ncd & _).
  split; intro s.
  - unfold AppV3.api_settings_post, post_settings. cbn [body_threshold_uv body_cooldown_secs].
    rewrite Fth, Fcd. rewrite v3_with_settings_same. repeat split.
  - unfold AppV4.api_settings_post, post_settings. cbn [body_threshold_uv body_cooldown_secs].
    rewrite Nth, Ncd, Fth, Fcd. rewrite v4_with_settings_same. repeat split.
Qed.

(** [api_settings] converts and stores the threshold before it looks at the
    cooldown.  When the cooldown value cannot be converted by [float] (for
    instance [null]) the request fails with the new threshold already in
    place; when the threshold value cannot be converted nothing is stored, not
    even a valid cooldown of the same request.  An integer of magnitude
    [2^1024] or more is such a value: [float] raises [OverflowError] on it. *)
Theorem settings_post_fails_after_storing_threshold :
  forall (F : FloatParser) (v vok : json) (e : exc) (q : Q),
    py_float v = Raises e ->
    not_empty_string v = true ->
    posted_number vok = Some q ->
    (forall s : AppV3.shared,
        AppV3.api_settings_post
          {| body_threshold_uv := Some vok; body_cooldown_secs := Some v |} s =
          (Raises e, AppV3.with_settings s q (AppV3.cooldown_secs s)) /\
        AppV3.api_settings_post
          {| body_threshold_uv := Some v; body_cooldown_secs := Some vok |} s =
          (Raises e, s)) /\
    (forall s : AppV4.shared,
        AppV4.api_settings_post
          {| body_threshold_uv := Some vok; body_cooldown_secs := Some v |} s =
          (Raises e, AppV4.with_settings s q (AppV4.cooldown_secs s)) /\
        AppV4.api_settings_post
          {| body_threshold_uv := Some v; body_cooldown_secs := Some vok |} s =
          (Raises e, s)) /\
    (forall (z : Z) (s3 : AppV3.shared) (s4 : AppV4.shared),
        (2 ^ 1024 <= Z.abs z)%Z ->
        AppV3.api_settings_post
          {| body_threshold_uv := Some (JInt z); body_cooldown_secs := Some vok |} s3 =
          (Raises OverflowError, s3) /\
        AppV4.api_settings_post
          {| body_threshold_uv := Some (JInt z); body_cooldown_secs := Some vok |} s4 =
          (Raises OverflowError, s4)).
Proof.
  intros F v vok e q Hf Hne Hok.
  destruct (posted_number_float vok q Hok) as (Fok & Nok & _).
  split; [|split].
  - intro s. unfold AppV3.api_settings_post, post_settings.
    cbn [body_threshold_uv body_cooldown_secs].
    rewrite Hf, Fok. rewrite v3_with_settings_same. split; reflexivity.
  - intro s. unfold AppV4.api_settings_post, post_settings.
    cbn [body_threshold_uv body_cooldown_secs].
    rewrite Hf, Hne, Fok, Nok. rewrite v4_with_settings_same. split; reflexivity.
  - intros z s3 s4 Hz.
    assert (Hov : py_float (JInt z) = Raises OverflowError).
    { cbn [py_float]. rewrite (int_to_double_overflow z Hz). reflexivity. }
    unfold AppV3.api_settings_post, AppV4.api_settings_post, post_settings.
    cbn [body_threshold_uv body_cooldown_secs not_empty_string].
    rewrite Hov. rewrite v3_with_settings_same, v4_with_settings_same.
    split; reflexivity.
Qed.

(** The three handlers differ on values that are present but empty.
    detection_analysis tests the value itself, so a posted number [0], [""],
    [null] or [false] is skipped, while any non-zero number is stored; the
    text ["0"] is not empty, so it is converted and stores a threshold of
    zero.  app_v4 skips only [""]; app_v3 skips nothing; both store a posted
    number [0]. *)
Theorem settings_post_empty_values :
  forall (F : FloatParser) (v : json),
    truthy v = false ->
    (forall s : DetectionAnalysis.shared,
        DetectionAnalysis.api_settings_post
          {| body_threshold_uv := Some v; body_cooldown_secs := Some v |} s
        = (Returns tt, s)) /\
    (forall (s : DetectionAnalysis.shared) (vq : json) (q : Q),
        posted_number vq = Some q ->
        ~ q == 0 ->
        DetectionAnalysis.api_settings_post
          {| body_threshold_uv := Some vq; body_cooldown_secs := Some v |} s
        = (Returns tt, DetectionAnalysis.with_settings s q (DetectionAnalysis.cooldown_secs s))) /\
    (forall (s : DetectionAnalysis.shared) (t : String.string) (q : Q),
        t <> String.EmptyString ->
        float_of_string t = Some q ->
        DetectionAnalysis.api_settings_post
          {| body_threshold_uv := Some (JStr t); body_cooldown_secs := None |} s
        = (Returns tt, DetectionAnalysis.with_settings s q (DetectionAnalysis.cooldown_secs s))) /\
    (forall s : AppV4.shared,
        AppV4.api_settings_post
          {| body_threshold_uv := Some (JStr String.EmptyString);
             body_cooldown_secs := Some (JStr String.EmptyString) |} s
        = (Returns tt, s)) /\
    (forall s : AppV4.shared,
        AppV4.threshold_uv
          (snd (AppV4.api_settings_post
                  {| body_threshold_uv := Some (JNum 0); body_cooldown_secs := None |} s))
        = 0) /\
    (forall s : AppV3.shared,
        AppV3.threshold_uv
          (snd (AppV3.api_settings_post
                  {| body_threshold_uv := Some (JNum 0); body_cooldown_secs := None |} s))
        = 0).
Proof.
  intros F v Hv. split.
  { intro s. unfold DetectionAnalysis.api_settings_post, post_settings. simpl.
    rewrite Hv. rewrite da_with_settings_same. reflexivity. }
  split.
  { intros s vq q Hvq Hq.
    destruct (posted_number_float vq q Hvq) as (Fq & _ & Tq).
    pose proof (Tq Hq) as Ht.
    unfold DetectionAnalysis.api_settings_post, post_settings.
    cbn [body_threshold_uv body_cooldown_secs].
    rewrite Ht, Fq, Hv. reflexivity. }
  split.
  { intros s t q Ht Hq.
    unfold DetectionAnalysis.api_settings_post, post_settings.
    cbn [body_threshold_uv body_cooldown_secs].
    assert (Tt : truthy (JStr t) = true) by (destruct t; [contradiction|reflexivity]).
    rewrite Tt. cbn [py_float]. rewrite Hq. reflexivity. }
  split.
  { intro s. unfold AppV4.api_settings_post, post_settings. simpl.
    rewrite v4_with_settings_same. reflexivity. }
  split; intro s; reflexivity.
Qed.

(** ** The measurement run of detection_analysis *)

Lemma count_hits_le (f : nat -> bool) (n : nat) :
  forall i, (count_hits f i n <= n)%nat.
Proof.
  induction n as [|m IH]; intro i; simpl; [lia|].
  specialize (IH (S i)). destruct (f i); lia.
Qed.

Lemma run_cues_inv (hits : nat -> bool * bool) (n : nat) :
  forall i s,
    let s' := DetectionAnalysis.run_cues n i hits s in
    let st := DetectionAnalysis.stats s in
    let st' := DetectionAnalysis.stats s' in
    DetectionAnalysis.tp st' =
      (DetectionAnalysis.tp st + count_hits (fun k => snd (hits k)) i n)%nat /\
    DetectionAnalysis.fp st' =
      (DetectionAnalysis.fp st + count_hits (fun k => fst (hits k)) i n)%nat /\
    (DetectionAnalysis.tp st' + DetectionAnalysis.fn st' =
      DetectionAnalysis.tp st + DetectionAnalysis.fn st + n)%nat /\
    DetectionAnalysis.progress st' =
      (if (n =? 0)%nat then DetectionAnalysis.progress st else (i + n)%nat) /\
    DetectionAnalysis.total_cues st' = DetectionAnalysis.total_cues st /\
    DetectionAnalysis.test_active st' = DetectionAnalysis.test_active st /\
    DetectionAnalysis.threshold_uv s' = DetectionAnalysis.threshold_uv s /\
    DetectionAnalysis.cooldown_secs s' = DetectionAnalysis.cooldown_secs s /\
    DetectionAnalysis.calibration_readings s' = DetectionAnalysis.calibration_readings s /\
    DetectionAnalysis.signal_buffer s' = DetectionAnalysis.signal_buffer s /\
    DetectionAnalysis.detector_running s' = DetectionAnalysis.detector_running s.
Proof.
  induction n as [|m IH]; intros i s.
  - simpl. repeat split; lia.
  - cbn [DetectionAnalysis.run_cues count_hits].
    specialize (IH (S i) (DetectionAnalysis.run_cue i (hits i) s)).
    cbv zeta in IH.
    destruct IH as (H1 & H2 & H3 & H4 & H5 & H6 & H7 & H8 & H9 & H10 & H11).
    cbv zeta.
    set (s2 := DetectionAnalysis.run_cues m (S i) hits
                 (DetectionAnalysis.run_cue i (hits i) s)) in *.
    unfold DetectionAnalysis.run_cue in H1, H2, H3, H4, H5, H6, H7, H8, H9, H10, H11.
    simpl in H1, H2, H3, H4, H5, H6, H7, H8, H9, H10, H11.
    destruct (hits i) as [a b]. simpl in *.
    repeat split; try assumption.
    + rewrite H1. destruct b; lia.
    + rewrite H2. destruct a; lia.
    + rewrite H3. destruct b; lia.
    + rewrite H4. destruct (Nat.eqb_spec m 0); lia.
Qed.

(** A measurement run scores every cue exactly once: whatever the counters
    held before, after [run_test_logic] the true positives are the cues whose
    blink phase saw a detection, the false negatives are the others, so
    [tp + fn = total_cues]; the false positives are the cues whose relax phase
    saw one; [progress] is [total_cues], the run is marked finished and the
    detector settings and calibration readings are untouched. *)
Theorem run_test_scores_every_cue_once :
  forall hits s,
    let s' := DetectionAnalysis.run_test_logic hits s in
    let n := DetectionAnalysis.total_cues (DetectionAnalysis.stats s) in
    let st' := DetectionAnalysis.stats s' in
    DetectionAnalysis.tp st' = count_hits (fun k => snd (hits k)) 0 n /\
    DetectionAnalysis.fp st' = count_hits (fun k => fst (hits k)) 0 n /\
    (DetectionAnalysis.tp st' + DetectionAnalysis.fn st' = n)%nat /\
    (DetectionAnalysis.fp st' <= n)%nat /\
    DetectionAnalysis.progress st' = n /\
    DetectionAnalysis.total_cues st' = n /\
    DetectionAnalysis.test_active st' = false /\
    DetectionAnalysis.current_cue st' = DetectionAnalysis.Finished /\
    DetectionAnalysis.threshold_uv s' = DetectionAnalysis.threshold_uv s /\
    DetectionAnalysis.cooldown_secs s' = DetectionAnalysis.cooldown_secs s /\
    DetectionAnalysis.calibration_readings s' = DetectionAnalysis.calibration_readings s.
Proof.
  intros hits s. cbv zeta. unfold DetectionAnalysis.run_test_logic. cbv zeta.
  set (s0 := DetectionAnalysis.set_stats s _).
  pose proof (run_cues_inv hits
                (DetectionAnalysis.total_cues (DetectionAnalysis.stats s0)) 0 s0) as H.
  cbv zeta in H.
  destruct H as (H1 & H2 & H3 & H4 & H5 & H6 & H7 & H8 & H9 & H10 & H11).
  set (s1 := DetectionAnalysis.run_cues _ 0 hits s0) in *.
  simpl. subst s0. simpl in *.
  rewrite H1, H2, H5.
  repeat split; try assumption; try reflexivity.
  - rewrite H1 in H3. lia.
  - apply count_hits_le.
  - rewrite H4. destruct (Nat.eqb_spec (DetectionAnalysis.total_cues (DetectionAnalysis.stats s)) 0);
      lia.
Qed.

Lemma of_nat_le (a b : nat) :
  (a <= b)%nat -> DetectionAnalysis.of_nat a <= DetectionAnalysis.of_nat b.
Proof.
  intro H. unfold DetectionAnalysis.of_nat. rewrite <- Zle_Qle. lia.
Qed.

Lemma of_nat_pos (a : nat) : (0 < a)%nat -> 0 < DetectionAnalysis.of_nat a.
Proof.
  intro H. unfold DetectionAnalysis.of_nat. change 0 with (inject_Z 0).
  rewrite <- Zlt_Qlt. lia.
Qed.

Lemma py_div_ratio (a b : nat) :
  (a <= b)%nat -> (0 < b)%nat ->
  py_div (DetectionAnalysis.of_nat a) (DetectionAnalysis.of_nat b) =
    Returns (DetectionAnalysis.of_nat a / DetectionAnalysis.of_nat b) /\
  0 <= DetectionAnalysis.of_nat a / DetectionAnalysis.of_nat b <= 1.
Proof.
  intros Hab Hb. pose proof (of_nat_pos b Hb) as Hp.
  pose proof (of_nat_le a b Hab) as Hle.
  pose proof (of_nat_le 0 a ltac:(lia)) as H0.
  change (DetectionAnalysis.of_nat 0) with 0 in H0.
  split.
  - unfold py_div. destruct (Qeq_bool (DetectionAnalysis.of_nat b) 0) eqn:E;
      [|reflexivity].
    apply Qeq_bool_iff in E. rewrite E in Hp. exfalso. exact (Qlt_irrefl 0 Hp).
  - split.
    + apply Qle_shift_div_l; [exact Hp|]. lra.
    + apply Qle_shift_div_r; [exact Hp|]. lra.
Qed.

Lemma py_round2_unit (x : Q) : 0 <= x <= 1 -> 0 <= py_round2 x <= 1.
Proof.
  intros [H0 H1]. unfold py_round2.
  destruct (round_half_even_near (x * 100)) as [Hlo Hhi].
  set (r := round_half_even (x * 100)) in *.
  assert (Hr : (0 <= r <= 100)%Z).
  { assert (Ha : - (1 # 2) <= inject_Z r) by lra.
    assert (Hb : inject_Z r <= 100 + (1 # 2)) by lra.
    unfold Qle, inject_Z in Ha, Hb. cbn [Qnum Qden Qopp Qplus] in Ha, Hb. lia. }
  destruct Hr as [Hr0 Hr1].
  rewrite Zle_Qle in Hr0. rewrite Zle_Qle in Hr1.
  change (inject_Z 0) with 0 in Hr0. change (inject_Z 100) with 100 in Hr1.
  split.
  - apply Qle_shift_div_l; [reflexivity|]. lra.
  - apply Qle_shift_div_r; [reflexivity|]. lra.
Qed.

Lemma f1_unit (p r : Q) :
  0 <= p <= 1 -> 0 <= r <= 1 -> 0 < p + r ->
  py_div (2 * (p * r)) (p + r) = Returns (2 * (p * r) / (p + r)) /\
  0 <= 2 * (p * r) / (p + r) <= 1.
Proof.
  intros [Hp0 Hp1] [Hr0 Hr1] Hs.
  split.
  - unfold py_div. destruct (Qeq_bool (p + r) 0) eqn:E; [|reflexivity].
    apply Qeq_bool_iff in E. rewrite E in Hs. exfalso. exact (Qlt_irrefl 0 Hs).
  - assert (Hpr : 0 <= p * r) by (apply Qmult_le_0_compat; assumption).
    assert (Ha : 0 <= (1 - p) * r) by (apply Qmult_le_0_compat; lra).
    assert (Hb : 0 <= (1 - r) * p) by (apply Qmult_le_0_compat; lra).
    assert (Hc : 2 * (p * r) <= p + r).
    { assert (E : p + r - 2 * (p * r) == (1 - p) * r + (1 - r) * p) by ring.
      lra. }
    split.
    + apply Qle_shift_div_l; [exact Hs|]. lra.
    + apply Qle_shift_div_r; [exact Hs|]. lra.
Qed.

Lemma get_stats_answer (s : DetectionAnalysis.shared) :
  let tp := DetectionAnalysis.tp (DetectionAnalysis.stats s) in
  let fp := DetectionAnalysis.fp (DetectionAnalysis.stats s) in
  let fn := DetectionAnalysis.fn (DetectionAnalysis.stats s) in
  exists p r f,
    p = (if (0 <? tp + fp)%nat
         then DetectionAnalysis.of_nat tp / DetectionAnalysis.of_nat (tp + fp)
         else 0) /\
    r = (if (0 <? tp + fn)%nat
         then DetectionAnalysis.of_nat tp / DetectionAnalysis.of_nat (tp + fn)
         else 0) /\
    0 <= p <= 1 /\ 0 <= r <= 1 /\ 0 <= f <= 1 /\
    DetectionAnalysis.get_stats s =
      Returns {| DetectionAnalysis.a_stats := DetectionAnalysis.stats s;
                 DetectionAnalysis.a_precision := py_round2 p;
                 DetectionAnalysis.a_recall := py_round2 r;
                 DetectionAnalysis.a_f1 := py_round2 f;
                 DetectionAnalysis.a_running := DetectionAnalysis.detector_running s;
                 DetectionAnalysis.a_threshold_uv := DetectionAnalysis.threshold_uv s;
                 DetectionAnalysis.a_cooldown_secs := DetectionAnalysis.cooldown_secs s |}.
Proof.
  intros tp fp fn. unfold DetectionAnalysis.get_stats. fold tp fp fn.
  assert (Hp : exists p,
             p = (if (0 <? tp + fp)%nat
                  then DetectionAnalysis.of_nat tp / DetectionAnalysis.of_nat (tp + fp)
                  else 0) /\
             (if (0 <? tp + fp)%nat
              then py_div (DetectionAnalysis.of_nat tp) (DetectionAnalysis.of_nat (tp + fp))
              else Returns 0) = Returns p /\ 0 <= p <= 1).
  { destruct (Nat.ltb_spec 0 (tp + fp)).
    - destruct (py_div_ratio tp (tp + fp)) as [E B]; [lia|lia|]. eauto.
    - exists 0. split; [reflexivity|]. split; [reflexivity|lra]. }
  assert (Hr : exists r,
             r = (if (0 <? tp + fn)%nat
                  then DetectionAnalysis.of_nat tp / DetectionAnalysis.of_nat (tp + fn)
                  else 0) /\
             (if (0 <? tp + fn)%nat
              then py_div (DetectionAnalysis.of_nat tp) (DetectionAnalysis.of_nat (tp + fn))
              else Returns 0) = Returns r /\ 0 <= r <= 1).
  { destruct (Nat.ltb_spec 0 (tp + fn)).
    - destruct (py_div_ratio tp (tp + fn)) as [E B]; [lia|lia|]. eauto.
    - exists 0. split; [reflexivity|]. split; [reflexivity|lra]. }
  destruct Hp as (p & Dp & Ep & Bp). destruct Hr as (r & Dr & Er & Br).
  rewrite Ep. cbn [obind]. rewrite Er. cbn [obind].
  assert (Hf : exists f,
             (if Qgtb (p + r) 0 then py_div (2 * (p * r)) (p + r) else Returns 0)
             = Returns f /\ 0 <= f <= 1).
  { destruct (Qgtb (p + r) 0) eqn:E.
    - apply Qgtb_true in E. destruct (f1_unit p r Bp Br E) as [E1 B1]. eauto.
    - exists 0. split; [reflexivity|lra]. }
  destruct Hf as (f & Ef & Bf). rewrite Ef. cbn [obind].
  exists p, r, f. repeat split; try assumption; apply Bp || apply Br || apply Bf.
Qed.

(** [get_stats] always answers: its three divisions are guarded, so no count
    of cues makes it divide by zero, and the precision, recall and F1 it
    reports (rounded to two decimals) lie between 0 and 1.  The counters, the
    running flag and the settings are passed through as stored. *)
Theorem get_stats_never_divides_by_zero :
  forall s : DetectionAnalysis.shared,
    exists a,
      DetectionAnalysis.get_stats s = Returns a /\
      0 <= DetectionAnalysis.a_precision a <= 1 /\
      0 <= DetectionAnalysis.a_recall a <= 1 /\
      0 <= DetectionAnalysis.a_f1 a <= 1 /\
      DetectionAnalysis.a_stats a = DetectionAnalysis.stats s /\
      DetectionAnalysis.a_running a = DetectionAnalysis.detector_running s /\
      DetectionAnalysis.a_threshold_uv a = DetectionAnalysis.threshold_uv s /\
      DetectionAnalysis.a_cooldown_secs a = DetectionAnalysis.cooldown_secs s.
Proof.
  intro s. destruct (get_stats_answer s) as (p & r & f & _ & _ & Bp & Br & Bf & E).
  eexists. split; [exact E|]. cbn.
  repeat split; try reflexivity; apply py_round2_unit; assumption.
Qed.

Lemma run_test_counts (hits : nat -> bool * bool) (s : DetectionAnalysis.shared) :
  let st' := DetectionAnalysis.stats (DetectionAnalysis.run_test_logic hits s) in
  let n := DetectionAnalysis.total_cues (DetectionAnalysis.stats s) in
  DetectionAnalysis.tp st' = count_hits (fun k => snd (hits k)) 0 n /\
  (DetectionAnalysis.tp st' + DetectionAnalysis.fn st' = n)%nat.
Proof.
  cbv zeta. unfold DetectionAnalysis.run_test_logic. cbv zeta.
  set (s0 := DetectionAnalysis.set_stats s _).
  pose proof (run_cues_inv hits
                (DetectionAnalysis.total_cues (DetectionAnalysis.stats s0)) 0 s0) as H.
  cbv zeta in H. destruct H as (H1 & _ & H3 & _).
  set (s1 := DetectionAnalysis.run_cues _ 0 hits s0) in *.
  simpl. subst s0. simpl in *. split; [exact H1|lia].
Qed.

(** [py_round2 x] is a multiple of one hundredth within 0.005 of [x]. *)
Lemma py_round2_spec (x : Q) :
  Qabs (py_round2 x - x) <= 1 # 200 /\ exists n : Z, py_round2 x == inject_Z n / 100.
Proof.
  split.
  - unfold py_round2. destruct (round_half_even_near (x * 100)) as [H1 H2].
    apply Qabs_Qle_condition.
    set (n := inject_Z (round_half_even (x * 100))) in *.
    assert (Hn : n / 100 == n * (1 # 100)) by (unfold Qdiv; reflexivity).
    rewrite Hn. split; lra.
  - exists (round_half_even (x * 100)). reflexivity.
Qed.

(** After a measurement run over at least one cue, the recall that
    [get_stats] reports is the fraction of cues whose blink phase saw a
    detection, rounded to two decimals: a multiple of 0.01 within 0.005 of
    that fraction. *)
Theorem recall_after_run_is_detected_fraction :
  forall hits s,
    let n := DetectionAnalysis.total_cues (DetectionAnalysis.stats s) in
    (0 < n)%nat ->
    exists a,
      DetectionAnalysis.get_stats (DetectionAnalysis.run_test_logic hits s) = Returns a /\
      (exists k : Z, DetectionAnalysis.a_recall a == inject_Z k / 100) /\
      Qabs (DetectionAnalysis.a_recall a
            - DetectionAnalysis.of_nat (count_hits (fun k => snd (hits k)) 0 n)
              / DetectionAnalysis.of_nat n) <= 1 # 200.
Proof.
  intros hits s n Hn.
  destruct (run_test_counts hits s) as [Htp Hsum]. fold n in Htp, Hsum.
  destruct (get_stats_answer (DetectionAnalysis.run_test_logic hits s))
    as (p & r & f & _ & Dr & _ & _ & _ & E).
  eexists. split; [exact E|]. cbn [DetectionAnalysis.a_recall].
  rewrite Hsum, Htp in Dr.
  destruct (Nat.ltb_spec 0 n); [|lia].
  rewrite Dr. destruct (py_round2_spec
    (DetectionAnalysis.of_nat (count_hits (fun k => snd (hits k)) 0 n)
     / DetectionAnalysis.of_nat n)) as [B K].
  split; [exact K|exact B].
Qed.

(** ** Debounce of blink_detection_v2 *)

Lemma v2_step_ts (fs : nat) (t : Q) (st : BlinkDetectionV2.state) (v : Q) :
  match snd (BlinkDetectionV2.sample_step fs t st v) with
  | Some _ =>
      BlinkDetectionV2.last_blink_ts (fst (BlinkDetectionV2.sample_step fs t st v)) = t /\
      BlinkDetectionV2.BLINK_DEBOUNCE_S <= t - BlinkDetectionV2.last_blink_ts st
  | None =>
      BlinkDetectionV2.last_blink_ts (fst (BlinkDetectionV2.sample_step fs t st v)) =
      BlinkDetectionV2.last_blink_ts st
  end.
Proof.
  unfold BlinkDetectionV2.sample_step.
  destruct (length _ <? BlinkDetectionV2.baseline_len fs)%nat; simpl; [reflexivity|].
  destruct (np_mean _) as [base|]; simpl; [|reflexivity].
  destruct (BlinkDetectionV2.over (Qabs v) base); simpl; [|reflexivity].
  destruct (Qgeb (t - BlinkDetectionV2.last_blink_ts st) BlinkDetectionV2.BLINK_DEBOUNCE_S)
    eqn:E; simpl; [|reflexivity].
  apply Qgeb_true in E. auto.
Qed.

Lemma v2_chunk_silent (fs : nat) (t : Q) (bx : list Q) :
  forall st,
    t - BlinkDetectionV2.last_blink_ts st < BlinkDetectionV2.BLINK_DEBOUNCE_S ->
    snd (BlinkDetectionV2.process_chunk fs t st bx) = [] /\
    BlinkDetectionV2.last_blink_ts (fst (BlinkDetectionV2.process_chunk fs t st bx)) =
      BlinkDetectionV2.last_blink_ts st.
Proof.
  induction bx as [|v r IH]; intros st Hc; [simpl; auto|].
  simpl. pose proof (v2_step_ts fs t st v) as Hs.
  destruct (BlinkDetectionV2.sample_step fs t st v) as [st1 [e|]]; simpl in Hs.
  - destruct Hs as [_ Hge]. exfalso. exact (Qlt_not_le _ _ Hc Hge).
  - destruct (IH st1) as [He Ht]; [rewrite Hs; exact Hc|].
    destruct (BlinkDetectionV2.process_chunk fs t st1 r) as [st2 es]. simpl in *.
    split; congruence.
Qed.

Lemma v2_chunk_one_event (fs : nat) (t : Q) (bx : list Q) :
  forall st,
    match snd (BlinkDetectionV2.process_chunk fs t st bx) with
    | [] =>
        BlinkDetectionV2.last_blink_ts (fst (BlinkDetectionV2.process_chunk fs t st bx)) =
        BlinkDetectionV2.last_blink_ts st
    | [_] =>
        BlinkDetectionV2.last_blink_ts (fst (BlinkDetectionV2.process_chunk fs t st bx)) = t /\
        BlinkDetectionV2.BLINK_DEBOUNCE_S <= t - BlinkDetectionV2.last_blink_ts st
    | _ :: _ :: _ => False
    end.
Proof.
  induction bx as [|v r IH]; intro st; [reflexivity|].
  simpl. pose proof (v2_step_ts fs t st v) as Hs.
  destruct (BlinkDetectionV2.sample_step fs t st v) as [st1 [e|]]; simpl in Hs.
  - destruct Hs as [Hts Hge].
    destruct (v2_chunk_silent fs t r st1) as [He Ht].
    { rewrite Hts. unfold BlinkDetectionV2.BLINK_DEBOUNCE_S. lra. }
    destruct (BlinkDetectionV2.process_chunk fs t st1 r) as [st2 es]. simpl in *.
    subst es. split; [congruence|exact Hge].
  - specialize (IH st1).
    destruct (BlinkDetectionV2.process_chunk fs t st1 r) as [st2 es]. simpl in *.
    destruct es as [|e1 [|e2 es']]; [congruence| |exact IH].
    destruct IH as [H1 H2]. split; [exact H1|congruence].
Qed.

Lemma v2_main_loop_separated (fs : nat) (chunks : list (Q * list Q)) :
  forall st,
    Forall (fun a => BlinkDetectionV2.BLINK_DEBOUNCE_S
                     <= fst a - BlinkDetectionV2.last_blink_ts st)
           (snd (BlinkDetectionV2.main_loop fs st chunks)) /\
    StronglySorted (fun a b => BlinkDetectionV2.BLINK_DEBOUNCE_S <= fst b - fst a)
           (snd (BlinkDetectionV2.main_loop fs st chunks)).
Proof.
  induction chunks as [|[t bx] r IH]; intro st.
  - simpl. split; constructor.
  - simpl. pose proof (v2_chunk_one_event fs t bx st) as Hc.
    destruct (BlinkDetectionV2.process_chunk fs t st bx) as [st1 es1]. simpl in Hc.
    destruct (IH st1) as [HF HS].
    destruct (BlinkDetectionV2.main_loop fs st1 r) as [st2 es2]. simpl in *.
    destruct es1 as [|e1 [|e2 es']]; [| |contradiction].
    + simpl. rewrite Hc in HF. split; assumption.
    + destruct Hc as [Hts Hge]. simpl. rewrite Hts in HF. split.
      * constructor; [simpl; exact Hge|].
        eapply Forall_impl; [|exact HF]. intros a Ha. simpl in Ha.
        unfold BlinkDetectionV2.BLINK_DEBOUNCE_S in *. lra.
      * constructor; [exact HS|]. exact HF.
Qed.

(** blink_detection_v2 reads the clock once per chunk, so a chunk sends at
    most one [EVENT:BLINK] however many of its samples pass the test; and any
    two datagrams of a run belong to chunks whose clock readings are at least
    [BLINK_DEBOUNCE_S] apart, the first at least that long after the initial
    timestamp. *)
Theorem v2_one_event_per_chunk_and_debounce :
  (forall fs t st bx,
      (length (snd (BlinkDetectionV2.process_chunk fs t st bx)) <= 1)%nat) /\
  (forall fs st chunks,
      Forall (fun a => BlinkDetectionV2.BLINK_DEBOUNCE_S
                       <= fst a - BlinkDetectionV2.last_blink_ts st)
             (snd (BlinkDetectionV2.main_loop fs st chunks)) /\
      StronglySorted (fun a b => BlinkDetectionV2.BLINK_DEBOUNCE_S <= fst b - fst a)
             (snd (BlinkDetectionV2.main_loop fs st chunks))).
Proof.
  split.
  - intros fs t st bx. pose proof (v2_chunk_one_event fs t bx st) as H.
    destruct (snd (BlinkDetectionV2.process_chunk fs t st bx)) as [|e1 [|e2 es]];
      simpl; [lia|lia|contradiction].
  - intros fs st chunks. apply v2_main_loop_separated.
Qed.

(** blink_detection_v2 conditions its chunks like app_v3, with the guard
    [bx.size > 30] in front of [filtfilt(..., padlen=50)]: a chunk of at most
    30 samples is left as it is, and one of 31 to 50 samples raises
    [ValueError] as soon as one of the two filters is configured. *)
Theorem v2_conditioning_raises_between_guard_and_padding :
  forall (P : FilterProvider) (bx : list Q) (bp nf : option coeffs),
    ((length bx <= 30)%nat -> BlinkDetectionV2.condition bx bp nf = Ok bx) /\
    ((30 < length bx <= 50)%nat ->
     bp <> None \/ nf <> None ->
     BlinkDetectionV2.condition bx bp nf = ValueError).
Proof.
  intros P bx bp nf. unfold BlinkDetectionV2.condition. split.
  - intro H. destruct (Nat.ltb_spec 30 (length bx)); [lia|reflexivity].
  - intros H Hf. destruct (Nat.ltb_spec 30 (length bx)); [|lia].
    unfold BlinkDetectionV2.apply_filters.
    destruct nf as [c|].
    + rewrite filtfilt_short by lia. reflexivity.
    + simpl. destruct bp as [c|].
      * apply filtfilt_short. lia.
      * destruct Hf; congruence.
Qed.

(** ** The detector of detection_analysis *)

Lemma da_step_matches_v4 (th cd : Q) (d4 : AppV4.detector) (d : DetectionAnalysis.detector)
    (s : sample) :
  AppV4.blink_active d4 = DetectionAnalysis.blink_active d ->
  AppV4.last_blink_ts (AppV4.sh d4) = DetectionAnalysis.last_blink_ts d ->
  let r4 := AppV4.sample_step th cd d4 s in
  let r := DetectionAnalysis.sample_step th cd d s in
  AppV4.blink_active (fst r4) = DetectionAnalysis.blink_active (fst r) /\
  AppV4.last_blink_ts (AppV4.sh (fst r4)) = DetectionAnalysis.last_blink_ts (fst r) /\
  match snd r4 with
  | Some e => snd r = true /\ AppV4.ev_time e = now s
  | None => snd r = false
  end /\
  DetectionAnalysis.blink_detected_in_window (DetectionAnalysis.sh (fst r)) =
    (DetectionAnalysis.blink_detected_in_window (DetectionAnalysis.sh d) || snd r).
Proof.
  intros Ha Ht. cbv zeta.
  unfold AppV4.sample_step, DetectionAnalysis.sample_step.
  rewrite Ha, Ht.
  change AppV4.BLINK_OFF_FACTOR with DetectionAnalysis.BLINK_OFF_FACTOR.
  destruct (Qgtb (Qabs (v_raw s)) th && negb (DetectionAnalysis.blink_active d)
            && Qgtb (now s - DetectionAnalysis.last_blink_ts d) cd); simpl.
  { rewrite orb_true_r. auto. }
  destruct (DetectionAnalysis.blink_active d
            && Qltb (Qabs (v_raw s)) (th * DetectionAnalysis.BLINK_OFF_FACTOR)); simpl;
    rewrite orb_false_r; auto.
Qed.

(** The Schmitt trigger of detection_analysis is the one of app_v4: started
    with the same Active flag and last-event timestamp and fed the same
    samples under the same settings, [eeg_loop] takes exactly the samples as
    blinks at which app_v4 writes an event, and both end in the same trigger
    state; [blink_detected_in_window] is raised by the loop when it takes a
    blink and never lowered by it. *)
Theorem da_trigger_fires_where_app_v4_fires :
  forall th cd ss d4 d,
    AppV4.blink_active d4 = DetectionAnalysis.blink_active d ->
    AppV4.last_blink_ts (AppV4.sh d4) = DetectionAnalysis.last_blink_ts d ->
    let r4 := AppV4.detect_samples th cd d4 ss in
    let r := DetectionAnalysis.detect_samples th cd d ss in
    map AppV4.ev_time (snd r4) = snd r /\
    AppV4.blink_active (fst r4) = DetectionAnalysis.blink_active (fst r) /\
    AppV4.last_blink_ts (AppV4.sh (fst r4)) = DetectionAnalysis.last_blink_ts (fst r) /\
    DetectionAnalysis.blink_detected_in_window (DetectionAnalysis.sh (fst r)) =
      (DetectionAnalysis.blink_detected_in_window (DetectionAnalysis.sh d)
       || negb (length (snd r) =? 0)%nat).
Proof.
  intros th cd ss. induction ss as [|s r IH]; intros d4 d Ha Ht.
  - simpl. rewrite orb_false_r. auto.
  - cbv zeta. simpl.
    pose proof (da_step_matches_v4 th cd d4 d s Ha Ht) as Hs. cbv zeta in Hs.
    destruct (AppV4.sample_step th cd d4 s) as [d41 e4].
    destruct (DetectionAnalysis.sample_step th cd d s) as [d1 fired]. simpl in Hs.
    destruct Hs as (Ha1 & Ht1 & He & Hw).
    specialize (IH d41 d1 Ha1 Ht1). cbv zeta in IH.
    destruct (AppV4.detect_samples th cd d41 r) as [d42 es4].
    destruct (DetectionAnalysis.detect_samples th cd d1 r) as [d2 ts]. simpl in *.
    destruct IH as (I1 & I2 & I3 & I4).
    rewrite I4, Hw.
    destruct e4 as [e|].
    + destruct He as [Hf Het]. subst fired. simpl. rewrite Het, I1, orb_true_r.
      repeat split; auto.
    + subst fired. rewrite orb_false_r. repeat split; auto.
Qed.


(** ** One pass of the loop of app_v4 *)





(** ** Calibration readings *)

Lemma max_abs_fold (r : list Q) :
  forall m,
    let res := fold_left (fun m y => if Qltb m (Qabs y) then Qabs y else m) r m in
    m <= res /\
    (forall y, In y r -> Qabs y <= res) /\
    (res = m \/ exists y, In y r /\ res = Qabs y).
Proof.
  induction r as [|a r IH]; intro m; simpl.
  - split; [apply Qle_refl|]. split; [intros y []|]. left; reflexivity.
  - destruct (Qltb m (Qabs a)) eqn:E.
    + apply Qltb_true in E.
      destruct (IH (Qabs a)) as (H1 & H2 & H3). cbv zeta in *.
      split; [exact (Qle_trans _ _ _ (Qlt_le_weak _ _ E) H1)|]. split.
      * intros y [<-|Hy]; [exact H1|apply H2; exact Hy].
      * right. destruct H3 as [H3|(y & Hy & H3)].
        -- exists a. split; [now left|exact H3].
        -- exists y. split; [now right|exact H3].
    + apply Qltb_false in E.
      destruct (IH m) as (H1 & H2 & H3). cbv zeta in *.
      split; [exact H1|]. split.
      * intros y [<-|Hy]; [exact (Qle_trans _ _ _ E H1)|apply H2; exact Hy].
      * destruct H3 as [H3|(y & Hy & H3)]; [left; exact H3|].
        right. exists y. split; [now right|exact H3].
Qed.

Lemma max_abs_spec (l : list Q) :
  l <> [] ->
  (forall y, In y l -> Qabs y <= max_abs l) /\
  (exists y, In y l /\ max_abs l = Qabs y) /\
  0 <= max_abs l.
Proof.
  intro Hl. destruct l as [|x r]; [congruence|]. unfold max_abs.
  destruct (max_abs_fold r (Qabs x)) as (H1 & H2 & H3). cbv zeta in *.
  assert (Hpeak : exists y, In y (x :: r) /\
            fold_left (fun m y => if Qltb m (Qabs y) then Qabs y else m) r (Qabs x) = Qabs y).
  { destruct H3 as [H3|(y & Hy & H3)].
    - exists x. split; [now left|exact H3].
    - exists y. split; [now right|exact H3]. }
  split.
  - intros y [<-|Hy]; [exact H1|apply H2; exact Hy].
  - split; [exact Hpeak|].
    exact (Qle_trans _ _ _ (Qabs_nonneg x) H1).
Qed.

Lemma last_n_nonempty {A : Type} (n : nat) (l : list A) : l <> [] -> last_n n l <> [].
Proof.
  intro Hl. unfold last_n. destruct (n =? 0)%nat eqn:E; [exact Hl|].
  apply Nat.eqb_neq in E. intro H.
  assert (Hlen : length (skipn (length l - n) l) = 0%nat) by (rewrite H; reflexivity).
  rewrite length_skipn in Hlen. destruct l; [congruence|cbn [length] in Hlen; lia].
Qed.

Lemma last_n_empty {A : Type} (n : nat) : @last_n A n [] = [].
Proof. unfold last_n. destruct (n =? 0)%nat; [reflexivity|]. destruct (0 - n)%nat; reflexivity. Qed.

(** [mark_calibration] stores the peak magnitude of the last [fs_global]
    plotted samples: the reading is at least the magnitude of each of them,
    is the magnitude of one of them, and goes to the list the label names
    while the other list and the settings stay; with nothing plotted yet the
    request changes nothing.  The endpoints of app_v4 and detection_analysis
    agree. *)
Theorem mark_calibration_records_window_peak :
  (forall is_blink (s : AppV4.shared),
      (AppV4.signal_buffer s = [] -> AppV4.mark_calibration is_blink s = s) /\
      (AppV4.signal_buffer s <> [] ->
       let recent := last_n (AppV4.fs_global s) (AppV4.signal_buffer s) in
       let r := AppV4.calibration_readings s in
       exists val,
         AppV4.calibration_readings (AppV4.mark_calibration is_blink s) =
           (if is_blink
            then {| noise := noise r; blinks := blinks r ++ [val] |}
            else {| noise := noise r ++ [val]; blinks := blinks r |}) /\
         (forall y, In y recent -> Qabs y <= val) /\
         (exists y, In y recent /\ val = Qabs y) /\
         AppV4.threshold_uv (AppV4.mark_calibration is_blink s) = AppV4.threshold_uv s /\
         AppV4.signal_buffer (AppV4.mark_calibration is_blink s) = AppV4.signal_buffer s)) /\
  (forall is_blink (s : DetectionAnalysis.shared),
      (DetectionAnalysis.signal_buffer s = [] ->
       DetectionAnalysis.mark_calibration is_blink s = s) /\
      (DetectionAnalysis.signal_buffer s <> [] ->
       let recent := last_n (DetectionAnalysis.fs_global s) (DetectionAnalysis.signal_buffer s) in
       let r := DetectionAnalysis.calibration_readings s in
       exists val,
         DetectionAnalysis.calibration_readings (DetectionAnalysis.mark_calibration is_blink s) =
           (if is_blink
            then {| noise := noise r; blinks := blinks r ++ [val] |}
            else {| noise := noise r ++ [val]; blinks := blinks r |}) /\
         (forall y, In y recent -> Qabs y <= val) /\
         (exists y, In y recent /\ val = Qabs y) /\
         DetectionAnalysis.threshold_uv (DetectionAnalysis.mark_calibration is_blink s) =
           DetectionAnalysis.threshold_uv s /\
         DetectionAnalysis.signal_buffer (DetectionAnalysis.mark_calibration is_blink s) =
           DetectionAnalysis.signal_buffer s)).
Proof.
  split; intros is_blink s; split.
  - intro He. unfold AppV4.mark_calibration. rewrite He, last_n_empty. reflexivity.
  - intros Hne recent r.
    pose proof (last_n_nonempty (AppV4.fs_global s) _ Hne) as Hr. fold recent in Hr.
    destruct (max_abs_spec recent Hr) as (H1 & H2 & _).
    exists (max_abs recent). unfold AppV4.mark_calibration. fold recent.
    destruct recent as [|x0 r0]; [congruence|].
    destruct is_blink; simpl; repeat split; auto.
  - intro He. unfold DetectionAnalysis.mark_calibration. rewrite He, last_n_empty.
    reflexivity.
  - intros Hne recent r.
    pose proof (last_n_nonempty (DetectionAnalysis.fs_global s) _ Hne) as Hr.
    fold recent in Hr.
    destruct (max_abs_spec recent Hr) as (H1 & H2 & _).
    exists (max_abs recent). unfold DetectionAnalysis.mark_calibration. fold recent.
    destruct recent as [|x0 r0]; [congruence|].
    destruct is_blink; simpl; repeat split; auto.
Qed.

Lemma Qmean_nonneg (l : list Q) : Forall (fun x => 0 <= x) l -> 0 <= Qmean l.
Proof.
  intro H. destruct l as [|a r].
  - unfold Qmean. simpl. apply Qle_refl.
  - apply (np_mean_nonneg (a :: r)); [exact H|reflexivity].
Qed.

Lemma py_round1_nonneg (x : Q) : 0 <= x -> 0 <= py_round1 x.
Proof.
  intro H0. unfold py_round1.
  destruct (round_half_even_near (x * 10)) as [Hlo Hhi].
  set (r := round_half_even (x * 10)) in *.
  assert (Hr : (0 <= r)%Z).
  { assert (Ha : - (1 # 2) <= inject_Z r) by lra.
    unfold Qle, inject_Z in Ha. cbn [Qnum Qden Qopp] in Ha. lia. }
  rewrite Zle_Qle in Hr. change (inject_Z 0) with 0 in Hr.
  apply Qle_shift_div_l; [reflexivity|]. lra.
Qed.

Lemma rounded_blend_bounds (mn me : Q) :
  let th := py_round1 (blend mn me) in
  (mn <= me -> mn - (1 # 20) <= th <= me + (1 # 20)) /\
  (me <= mn -> me - (1 # 20) <= th <= mn + (1 # 20)) /\
  (0 <= mn -> 0 <= me -> 0 <= th).
Proof.
  intro th. subst th.
  destruct (py_round1_spec (blend mn me)) as [Hr _].
  apply Qabs_Qle_condition in Hr. destruct Hr as [Hr1 Hr2].
  assert (Hb : blend mn me == (4 # 10) * mn + (6 # 10) * me) by (unfold blend; ring).
  split; [intro H; split; lra|]. split; [intro H; split; lra|].
  intros H1 H2. apply py_round1_nonneg. lra.
Qed.

(** The calibrated threshold separates the two means it is computed from: it
    lies between the noise mean (30 when there is no noise reading) and the
    event mean, up to the 0.05 of the rounding.  The readings that
    [mark_calibration] stores are magnitudes, and with such readings the
    threshold applied is never negative. *)
Theorem calibrated_threshold_lies_between_means :
  forall (s : AppV4.shared) b bs,
    blinks (AppV4.calibration_readings s) = b :: bs ->
    let mn := match noise (AppV4.calibration_readings s) with
              | [] => 30
              | _ :: _ => Qmean (noise (AppV4.calibration_readings s))
              end in
    let me := Qmean (b :: bs) in
    let th := AppV4.threshold_uv (snd (AppV4.finish_calibration s)) in
    (mn <= me -> mn - (1 # 20) <= th <= me + (1 # 20)) /\
    (me <= mn -> me - (1 # 20) <= th <= mn + (1 # 20)) /\
    (nonneg_readings (AppV4.calibration_readings s) -> 0 <= th) /\
    (forall is_blink,
        nonneg_readings (AppV4.calibration_readings s) ->
        nonneg_readings (AppV4.calibration_readings (AppV4.mark_calibration is_blink s))).
Proof.
  intros s b bs Hb mn me th.
  destruct (v4_finish_success s b bs Hb mn eq_refl) as (_ & Hth & _).
  cbv zeta in Hth. fold me in Hth. fold th in Hth.
  destruct (rounded_blend_bounds mn me) as (B1 & B2 & B3). cbv zeta in B1, B2, B3.
  rewrite <- Hth in B1, B2, B3.
  split; [exact B1|]. split; [exact B2|]. split.
  - intros [Hn Hbl]. apply B3.
    + unfold mn. destruct (noise (AppV4.calibration_readings s)) eqn:En.
      * discriminate.
      * apply Qmean_nonneg. exact Hn.
    + unfold me. rewrite <- Hb. apply Qmean_nonneg. exact Hbl.
  - intros is_blink [Hn Hbl]. unfold AppV4.mark_calibration.
    destruct (last_n (AppV4.fs_global s) (AppV4.signal_buffer s)) as [|x r] eqn:E.
    + split; assumption.
    + assert (Hv : 0 <= max_abs (x :: r)).
      { apply max_abs_spec. discriminate. }
      destruct is_blink; simpl; split; try assumption;
        apply Forall_app; split; try assumption; repeat constructor; exact Hv.
Qed.

(** ** The median baseline ignores short excursions *)

Lemma count_eq_le (c : Q) (l : list Q) : (count_eq c l <= length l)%nat.
Proof. unfold count_eq. apply filter_length_le. Qed.

Lemma insert_sorted_length (x : Q) (l : list Q) :
  length (insert_sorted x l) = S (length l).
Proof.
  induction l as [|a r IH]; simpl; [reflexivity|].
  destruct (Qle_bool x a); simpl; [reflexivity|]. rewrite IH. reflexivity.
Qed.

Lemma insert_sorted_count (c x : Q) (l : list Q) :
  count_eq c (insert_sorted x l) = count_eq c (x :: l).
Proof.
  unfold count_eq. induction l as [|a r IH]; simpl; [reflexivity|].
  destruct (Qle_bool x a); simpl; [reflexivity|].
  simpl in IH. destruct (Qeq_bool a c), (Qeq_bool x c); simpl in *; rewrite IH; reflexivity.
Qed.

Lemma sort_Q_length (l : list Q) : length (sort_Q l) = length l.
Proof.
  induction l as [|a r IH]; simpl; [reflexivity|].
  rewrite insert_sorted_length, IH. reflexivity.
Qed.

Lemma sort_Q_count (c : Q) (l : list Q) : count_eq c (sort_Q l) = count_eq c l.
Proof.
  induction l as [|a r IH]; simpl; [reflexivity|].
  rewrite insert_sorted_count. unfold count_eq in *. simpl.
  destruct (Qeq_bool a c); simpl; rewrite IH; reflexivity.
Qed.

Lemma insert_sorted_sorted (x : Q) (l : list Q) :
  StronglySorted Qle l -> StronglySorted Qle (insert_sorted x l).
Proof.
  induction 1 as [|a r Hr IH Ha]; simpl.
  - repeat constructor.
  - destruct (Qle_bool x a) eqn:E.
    + apply Qle_bool_iff in E. constructor.
      * constructor; assumption.
      * constructor; [exact E|].
        eapply Forall_impl; [|exact Ha]. intros y Hy. exact (Qle_trans _ _ _ E Hy).
    + assert (Hax : a <= x).
      { apply Qlt_le_weak. apply Qnot_le_lt. intro Hle.
        apply Qle_bool_iff in Hle. congruence. }
      constructor; [exact IH|].
      rewrite Forall_forall in *. intros y Hy.
      destruct (insert_sorted_In _ _ _ Hy) as [->|Hin]; [exact Hax|auto].
Qed.

Lemma sort_Q_sorted (l : list Q) : StronglySorted Qle (sort_Q l).
Proof.
  induction l as [|a r IH]; simpl; [constructor|].
  apply insert_sorted_sorted. exact IH.
Qed.

Lemma count_eq_above (c a : Q) (r : list Q) :
  c < a -> Forall (Qle a) r -> count_eq c (a :: r) = 0%nat.
Proof.
  intros Hc Ha. unfold count_eq.
  assert (Hnone : forall y, In y (a :: r) -> Qeq_bool y c = false).
  { intros y Hy. destruct (Qeq_bool y c) eqn:E; [|reflexivity].
    apply Qeq_bool_iff in E. exfalso.
    destruct Hy as [<-|Hy].
    - rewrite E in Hc. exact (Qlt_irrefl _ Hc).
    - rewrite Forall_forall in Ha. specialize (Ha y Hy). rewrite E in Ha.
      exact (Qlt_not_le _ _ Hc Ha). }
  induction (a :: r) as [|y l IH]; [reflexivity|].
  simpl. rewrite (Hnone y) by now left. apply IH. intros z Hz. apply Hnone. now right.
Qed.

Lemma count_eq_head_below (c a : Q) (r : list Q) :
  a < c -> count_eq c (a :: r) = count_eq c r.
Proof.
  intro H. unfold count_eq. simpl.
  destruct (Qeq_bool a c) eqn:E; [|reflexivity].
  apply Qeq_bool_iff in E. rewrite E in H. exfalso. exact (Qlt_irrefl _ H).
Qed.

Lemma count_eq_cons_le (c a : Q) (r : list Q) :
  (count_eq c (a :: r) <= S (count_eq c r))%nat.
Proof. unfold count_eq. simpl. destruct (Qeq_bool a c); simpl; lia. Qed.

Lemma sorted_below_bound (c : Q) (s : list Q) :
  StronglySorted Qle s ->
  forall i, (i < length s)%nat -> nth i s 0 < c ->
            (count_eq c s + S i <= length s)%nat.
Proof.
  induction 1 as [|a r Hr IH Ha]; intros i Hi Hlt; [simpl in Hi; lia|].
  destruct i as [|i'].
  - simpl in Hlt. rewrite count_eq_head_below by exact Hlt.
    pose proof (count_eq_le c r). simpl. lia.
  - simpl in Hi, Hlt.
    assert (Hac : a < c).
    { eapply Qle_lt_trans; [|exact Hlt].
      rewrite Forall_forall in Ha. apply Ha. apply nth_In. lia. }
    rewrite count_eq_head_below by exact Hac.
    specialize (IH i' ltac:(lia) Hlt). simpl. lia.
Qed.

Lemma sorted_above_bound (c : Q) (s : list Q) :
  StronglySorted Qle s ->
  forall i, (i < length s)%nat -> c < nth i s 0 -> (count_eq c s <= i)%nat.
Proof.
  induction 1 as [|a r Hr IH Ha]; intros i Hi Hlt; [simpl in Hi; lia|].
  destruct i as [|i'].
  - simpl in Hlt. rewrite (count_eq_above c a r Hlt Ha). lia.
  - simpl in Hi, Hlt. specialize (IH i' ltac:(lia) Hlt).
    pose proof (count_eq_cons_le c a r). lia.
Qed.

Lemma sorted_majority_nth (c : Q) (s : list Q) (i : nat) :
  StronglySorted Qle s ->
  (i < length s)%nat ->
  (length s < count_eq c s + S i)%nat ->
  (i < count_eq c s)%nat ->
  nth i s 0 == c.
Proof.
  intros Hs Hi H1 H2.
  destruct (Q_dec (nth i s 0) c) as [[Hlt|Hgt]|E]; [| |exact E].
  - pose proof (sorted_below_bound c s Hs i Hi Hlt). lia.
  - pose proof (sorted_above_bound c s Hs i Hi Hgt). lia.
Qed.

Lemma median_of_majority (c : Q) (l : list Q) :
  (length l < 2 * count_eq c l)%nat ->
  exists b, np_median l = Some b /\ b == c.
Proof.
  intro Hmaj. unfold np_median.
  destruct l as [|a r]; [simpl in Hmaj; lia|].
  pose proof (sort_Q_sorted (a :: r)) as Hs.
  pose proof (sort_Q_length (a :: r)) as Hl.
  pose proof (sort_Q_count c (a :: r)) as Hc.
  set (s := sort_Q (a :: r)) in *.
  rewrite <- Hl, <- Hc in Hmaj.
  assert (Hpos : (0 < length s)%nat) by (rewrite Hl; simpl; lia).
  pose proof (Nat.div_mod_eq (length s) 2) as Hdm.
  pose proof (Nat.mod_upper_bound (length s) 2 ltac:(lia)) as Hmod.
  destruct (Nat.even (length s)) eqn:Ee.
  - apply Nat.even_spec in Ee. destruct Ee as [k Ek].
    assert (E1 : nth (length s / 2 - 1) s 0 == c).
    { apply sorted_majority_nth; [exact Hs|lia|lia|lia]. }
    assert (E2 : nth (length s / 2) s 0 == c).
    { apply sorted_majority_nth; [exact Hs|lia|lia|lia]. }
    eexists. split; [reflexivity|]. rewrite E1, E2. field.
  - assert (Ho : Nat.odd (length s) = true) by (rewrite <- Nat.negb_even, Ee; reflexivity).
    apply Nat.odd_spec in Ho. destruct Ho as [k Ek].
    assert (E2 : nth (length s / 2) s 0 == c).
    { apply sorted_majority_nth; [exact Hs|lia|lia|lia]. }
    eexists. split; [reflexivity|]. exact E2.
Qed.

(** The baseline of app_v3 is a median, so an excursion that occupies less
    than half of the window does not move it: whenever more than half of the
    window is at one level [c], [base_level] equals [c], and the sample writes
    an event exactly when it exceeds [c] by more than the threshold (and the
    threshold itself), the trigger is Quiescent and the cooldown has passed. *)
Theorem v3_baseline_is_majority_level :
  forall fs th cd d s c,
    (AppV3.baseline_len fs <= length (window_v3 fs d s))%nat ->
    (length (window_v3 fs d s) < 2 * count_eq c (window_v3 fs d s))%nat ->
    (exists b, np_median (window_v3 fs d s) = Some b /\ b == c) /\
    (snd (AppV3.sample_step fs th cd d s) <> None <->
     (th < Qabs (v_raw s) - c /\ th < Qabs (v_raw s) /\
      AppV3.blink_active d = false /\
      cd <= now s - AppV3.last_blink_ts (AppV3.sh d))).
Proof.
  intros fs th cd d s c Hready Hmaj.
  destruct (median_of_majority c _ Hmaj) as (b & Hm & Hb).
  split; [exists b; auto|].
  split.
  - intro Hev.
    destruct (AppV3.sample_step fs th cd d s) as [d' [e|]] eqn:E; simpl in Hev;
      [|congruence].
    destruct (v3_event_inv _ _ _ _ _ _ _ E) as (b' & _ & Hm' & Ho & Ha & Hcd & _).
    rewrite Hm in Hm'. injection Hm' as <-.
    apply over_on_spec in Ho. destruct Ho as [Ho1 Ho2].
    repeat split; try assumption. lra.
  - intros (H1 & H2 & Ha & Hcd).
    unfold AppV3.sample_step. fold (window_v3 fs d s).
    destruct (Nat.ltb_spec (length (window_v3 fs d s)) (AppV3.baseline_len fs)); [lia|].
    rewrite Hm. cbv zeta.
    assert (Ho : AppV3.over_on th (Qabs (v_raw s)) b = true).
    { apply over_on_spec. split; [lra|exact H2]. }
    rewrite Ho, Ha. simpl.
    apply Qgeb_true in Hcd. rewrite Hcd. simpl. discriminate.
Qed.

(** A sustained elevation ends its own excursion in app_v3: once more than
    half of the baseline window is at the level of the current sample, the
    median has caught up with the signal, the differential is zero, and for a
    positive threshold an Active trigger returns to Quiescent without an event
    although the magnitude has not dropped. *)
Theorem v3_sustained_level_ends_excursion :
  forall fs th cd d s,
    0 < th ->
    (AppV3.baseline_len fs <= length (window_v3 fs d s))%nat ->
    (length (window_v3 fs d s) < 2 * count_eq (Qabs (v_raw s)) (window_v3 fs d s))%nat ->
    snd (AppV3.sample_step fs th cd d s) = None /\
    AppV3.blink_active (fst (AppV3.sample_step fs th cd d s)) = false.
Proof.
  intros fs th cd d s Hth Hready Hmaj.
  destruct (median_of_majority _ _ Hmaj) as (b & Hm & Hb).
  unfold AppV3.sample_step. fold (window_v3 fs d s).
  destruct (Nat.ltb_spec (length (window_v3 fs d s)) (AppV3.baseline_len fs)); [lia|].
  rewrite Hm. cbv zeta.
  assert (Ho : AppV3.over_on th (Qabs (v_raw s)) b = false).
  { destruct (AppV3.over_on th (Qabs (v_raw s)) b) eqn:E; [|reflexivity].
    apply over_on_spec in E. destruct E as [E _]. exfalso. lra. }
  assert (Hx : Qltb (Qabs (v_raw s) - b) (th * AppV3.BLINK_OFF_FACTOR) = true).
  { apply Qltb_true. unfold AppV3.BLINK_OFF_FACTOR. lra. }
  rewrite Ho, Hx. simpl. split; [reflexivity|].
  destruct (AppV3.blink_active d); reflexivity.
Qed.

(** [get_signal] of detection_analysis sends every second sample of the plot
    buffer, the oldest first: half of them, rounded up. *)
Theorem da_get_signal_halves_buffer :
  forall s : DetectionAnalysis.shared,
    length (DetectionAnalysis.get_signal s) =
      ((length (DetectionAnalysis.signal_buffer s) + 1) / 2)%nat /\
    hd_error (DetectionAnalysis.get_signal s) = hd_error (DetectionAnalysis.signal_buffer s).
Proof.
  intro s. unfold DetectionAnalysis.get_signal.
  destruct (every_nth_bounds 2 (DetectionAnalysis.signal_buffer s) ltac:(lia) 0%nat)
    as [H1 H2].
  set (n := length (every_nth 0 2 (DetectionAnalysis.signal_buffer s))) in *.
  set (len := length (DetectionAnalysis.signal_buffer s)) in *.
  split.
  - pose proof (Nat.div_mod_eq (len + 1) 2) as Hdm.
    pose proof (Nat.mod_upper_bound (len + 1) 2 ltac:(lia)) as Hmod.
    destruct (Nat.eq_dec n 0) as [E|E].
    + rewrite E in *. lia.
    + specialize (H2 ltac:(lia)). lia.
  - destruct (DetectionAnalysis.signal_buffer s); reflexivity.
Qed.

(** * The further properties at concrete inputs *)

Lemma v3_buffers_hold_most_recent_samples_witness :
  let d := ready_v3 false 0 in
  let ss := clocked 1000000 [300; 20; 20] in
  let d' := fst (AppV3.detect_samples 4 150 (35 # 100) d ss) in
  AppV3.baseline_buf d' =
    skipn (length (AppV3.baseline_buf d) + length ss - AppV3.baseline_len 4)
      (AppV3.baseline_buf d ++ map (fun s => Qabs (v_raw s)) ss) /\
  AppV3.signal_buffer (AppV3.sh d') =
    skipn (length (AppV3.signal_buffer (AppV3.sh d)) + length ss - AppV3.signal_len 4)
      (AppV3.signal_buffer (AppV3.sh d) ++ map v_raw ss) /\
  (length (AppV3.baseline_buf d') <= AppV3.baseline_len 4)%nat /\
  (length (AppV3.signal_buffer (AppV3.sh d')) <= AppV3.signal_len 4)%nat.
Proof.
  apply (v3_buffers_hold_most_recent_samples 4%nat 150 (35 # 100)
           (clocked 1000000 [300; 20; 20]) (ready_v3 false 0)).
  - vm_compute. lia.
  - vm_compute. lia.
Defined.

Lemma v3_window_full_after_warm_up_witness :
  length (AppV3.baseline_buf
            (@AppV3.warmup_iteration direct_form 4 fresh_v3 (repeat 10 8) (repeat 10 8)))
    = AppV3.baseline_len 4 /\
  length (AppV3.baseline_buf
            (fst (AppV3.sample_step 4 150 (35 # 100) (ready_v3 false 0) (mkSample 300 1000))))
    = AppV3.baseline_len 4.
Proof.
  destruct (v3_window_full_after_warm_up direct_form) as (H1 & H2).
  split.
  - apply (H1 4%nat fresh_v3 (repeat 10 8) (repeat 10 8)
              (combine_channels (repeat 10 8) (repeat 10 8))).
    + vm_compute. reflexivity.
    + vm_compute. lia.
    + vm_compute. lia.
  - apply (H2 4%nat 150 (35 # 100) (ready_v3 false 0) (mkSample 300 1000)).
    reflexivity.
Defined.

Lemma v3_filters_unused_at_shipped_chunk_size_witness :
  @AppV3.loop_iteration direct_form 250 fresh_v3 (repeat 10 12) (repeat 30 12)
      (repeat 1000 12) =
    AppV3.process_chunk 250 fresh_v3
      (AppV3.with_clock (combine_channels (repeat 10 12) (repeat 30 12)) (repeat 1000 12)).
Proof.
  apply (v3_filters_unused_at_shipped_chunk_size direct_form 250%nat fresh_v3
           (repeat 10 12) (repeat 30 12) (repeat 1000 12)).
  - lia.
  - vm_compute. lia.
Defined.

Lemma v3_absolute_test_follows_from_differential_witness :
  Forall (fun x => 0 <= x)
    (AppV3.baseline_buf
       (fst (AppV3.sample_step 4 150 (35 # 100) (ready_v3 false 0) (mkSample (-300) 1000)))).
Proof.
  apply (v3_absolute_test_follows_from_differential 4%nat 150 (35 # 100)
           (ready_v3 false 0) (mkSample (-300) 1000)).
  simpl. repeat (constructor; [lra|]). constructor.
Defined.

Lemma v2_absolute_test_follows_from_differential_witness :
  Forall (fun x => 0 <= x)
    (BlinkDetectionV2.baseline_buf
       (fst (BlinkDetectionV2.sample_step 4 1000 fresh_v2 (-300)))).
Proof.
  apply (v2_absolute_test_follows_from_differential 4%nat 1000 fresh_v2 (-300)).
  simpl. constructor.
Defined.

Lemma api_signal_sends_up_to_1999_samples_witness :
  let s := fold_left (AppV3.push_signal 250) (repeat 7 1500) AppV3.initial_shared in
  exists out,
    AppV3.api_signal s = Returns out /\
    out = AppV3.signal_buffer s /\
    (1000 <= length out < 2000)%nat.
Proof.
  destruct api_signal_sends_up_to_1999_samples as (H3 & _).
  destruct (H3 (fold_left (AppV3.push_signal 250) (repeat 7 1500) AppV3.initial_shared))
    as (out & E & Hs & Hl & _).
  exists out. split; [exact E|]. split.
  - apply Hs. vm_compute. lia.
  - apply Hl. vm_compute. lia.
Defined.

Lemma settings_post_then_get_round_trip_witness :
  @AppV3.api_settings_post digits_parser
    {| body_threshold_uv := Some (JNum 0); body_cooldown_secs := Some (JInt (-3)) |}
    AppV3.initial_shared =
    (Returns tt, AppV3.with_settings AppV3.initial_shared 0 (inject_Z (-3))) /\
  AppV4.api_settings_get
    (snd (@AppV4.api_settings_post digits_parser
            {| body_threshold_uv := Some (JNum 0); body_cooldown_secs := Some (JInt (-3)) |}
            AppV4.initial_shared)) = (0, inject_Z (-3)).
Proof.
  destruct (settings_post_then_get_round_trip digits_parser (JNum 0) (JInt (-3))
              0 (inject_Z (-3)) eq_refl eq_refl) as (H3 & H4).
  split.
  - apply (H3 AppV3.initial_shared).
  - apply (H4 AppV4.initial_shared).
Defined.

Lemma settings_post_fails_after_storing_threshold_witness :
  @AppV3.api_settings_post digits_parser
    {| body_threshold_uv := Some (JNum 120); body_cooldown_secs := Some JNull |}
    AppV3.initial_shared =
    (Raises TypeError,
     AppV3.with_settings AppV3.initial_shared 120 (AppV3.cooldown_secs AppV3.initial_shared)) /\
  @AppV4.api_settings_post digits_parser
    {| body_threshold_uv := Some JNull; body_cooldown_secs := Some (JNum 120) |}
    AppV4.initial_shared =
    (Raises TypeError, AppV4.initial_shared) /\
  @AppV3.api_settings_post digits_parser
    {| body_threshold_uv := Some (JInt (10 ^ 400)); body_cooldown_secs := Some (JNum 120) |}
    AppV3.initial_shared =
    (Raises OverflowError, AppV3.initial_shared).
Proof.
  destruct (settings_post_fails_after_storing_threshold digits_parser JNull (JNum 120)
              TypeError 120 eq_refl eq_refl eq_refl) as (H3 & H4 & H5).
  split; [apply (H3 AppV3.initial_shared)|].
  split; [apply (H4 AppV4.initial_shared)|].
  apply (H5 (10 ^ 400)%Z AppV3.initial_shared AppV4.initial_shared).
  vm_compute. intro K. discriminate K.
Defined.

Lemma settings_post_empty_values_witness :
  @DetectionAnalysis.api_settings_post digits_parser
    {| body_threshold_uv := Some (JInt 0); body_cooldown_secs := Some (JInt 0) |}
    (measured_da 0 0 0 []) = (Returns tt, measured_da 0 0 0 []) /\
  @DetectionAnalysis.api_settings_post digits_parser
    {| body_threshold_uv := Some (JInt 200); body_cooldown_secs := Some (JInt 0) |}
    (measured_da 0 0 0 []) =
    (Returns tt,
     DetectionAnalysis.with_settings (measured_da 0 0 0 []) (inject_Z 200)
       (DetectionAnalysis.cooldown_secs (measured_da 0 0 0 []))) /\
  @DetectionAnalysis.api_settings_post digits_parser
    {| body_threshold_uv := Some (JStr text_zero);
       body_cooldown_secs := None |}
    (measured_da 0 0 0 []) =
    (Returns tt,
     DetectionAnalysis.with_settings (measured_da 0 0 0 []) (inject_Z 0)
       (DetectionAnalysis.cooldown_secs (measured_da 0 0 0 []))).
Proof.
  destruct (settings_post_empty_values digits_parser (JInt 0) eq_refl) as (H1 & H2 & H3 & _).
  split; [apply (H1 (measured_da 0 0 0 []))|].
  split.
  - apply (H2 (measured_da 0 0 0 []) (JInt 200) (inject_Z 200)).
    + reflexivity.
    + intro K. discriminate K.
  - apply (H3 (measured_da 0 0 0 []) text_zero
              (inject_Z 0)).
    + discriminate.
    + reflexivity.
Defined.

Lemma recall_after_run_is_detected_fraction_witness :
  exists a,
    DetectionAnalysis.get_stats
      (DetectionAnalysis.run_test_logic (fun k => (false, Nat.even k)) (measured_da 0 0 0 []))
      = Returns a /\
    (exists k : Z, DetectionAnalysis.a_recall a == inject_Z k / 100) /\
    Qabs (DetectionAnalysis.a_recall a
          - DetectionAnalysis.of_nat (count_hits (fun k => Nat.even k) 0 12)
            / DetectionAnalysis.of_nat 12) <= 1 # 200.
Proof.
  apply (recall_after_run_is_detected_fraction (fun k => (false, Nat.even k))
           (measured_da 0 0 0 [])).
  simpl. lia.
Defined.

Lemma v2_conditioning_raises_between_guard_and_padding_witness :
  @BlinkDetectionV2.condition direct_form (repeat 7 40)
    (@AppV3.loop_bp direct_form 250) None = ValueError /\
  @BlinkDetectionV2.condition direct_form (repeat 7 30)
    (@AppV3.loop_bp direct_form 250) None = Ok (repeat 7 30).
Proof.
  destruct (v2_conditioning_raises_between_guard_and_padding direct_form (repeat 7 40)
              (@AppV3.loop_bp direct_form 250) None) as (_ & H2).
  destruct (v2_conditioning_raises_between_guard_and_padding direct_form (repeat 7 30)
              (@AppV3.loop_bp direct_form 250) None) as (H1 & _).
  split.
  - apply H2.
    + vm_compute. split; lia.
    + left. vm_compute. discriminate.
  - apply H1. vm_compute. lia.
Defined.

Lemma da_trigger_fires_where_app_v4_fires_witness :
  map AppV4.ev_time
    (snd (AppV4.detect_samples 150 (35 # 100) (ready_v4 false 0)
            (clocked 1000000 [300; 300; 20; 300]))) =
  snd (DetectionAnalysis.detect_samples 150 (35 # 100) (ready_da false 0)
         (clocked 1000000 [300; 300; 20; 300])).
Proof.
  apply (da_trigger_fires_where_app_v4_fires 150 (35 # 100)
           (clocked 1000000 [300; 300; 20; 300]) (ready_v4 false 0) (ready_da false 0)).
  - reflexivity.
  - reflexivity.
Defined.



Lemma mark_calibration_records_window_peak_witness :
  AppV4.mark_calibration true (plotted_v4 []) = plotted_v4 [] /\
  exists val,
    (forall y, In y (last_n (AppV4.fs_global (plotted_v4 [5; -40; 12])) [5; -40; 12]) ->
               Qabs y <= val) /\
    AppV4.threshold_uv (AppV4.mark_calibration true (plotted_v4 [5; -40; 12])) =
      AppV4.threshold_uv (plotted_v4 [5; -40; 12]).
Proof.
  destruct mark_calibration_records_window_peak as (H1 & _).
  split.
  - destruct (H1 true (plotted_v4 [])) as (He & _). apply He. reflexivity.
  - destruct (H1 true (plotted_v4 [5; -40; 12])) as (_ & Hn).
    destruct Hn as (val & _ & Hmax & _ & Hth & _).
    + simpl. discriminate.
    + exists val. split; [exact Hmax | exact Hth].
Defined.

Lemma calibrated_threshold_lies_between_means_witness :
  let s := calibrated_v4 [20; 40] [200; 300] in
  Qmean [20; 40] - (1 # 20) <= AppV4.threshold_uv (snd (AppV4.finish_calibration s))
    <= Qmean [200; 300] + (1 # 20) /\
  0 <= AppV4.threshold_uv (snd (AppV4.finish_calibration s)).
Proof.
  destruct (calibrated_threshold_lies_between_means (calibrated_v4 [20; 40] [200; 300])
              200 [300] eq_refl) as (H1 & _ & H3 & _).
  split.
  - apply H1. vm_compute. intro K. discriminate K.
  - apply H3. split; simpl; repeat (constructor; [lra|]); constructor.
Defined.

Lemma v3_baseline_is_majority_level_witness :
  (exists b, np_median (window_v3 4 (ready_v3 false 0) (mkSample 300 1000)) = Some b /\
             b == 10) /\
  snd (AppV3.sample_step 4 150 (35 # 100) (ready_v3 false 0) (mkSample 300 1000)) <> None.
Proof.
  destruct (v3_baseline_is_majority_level 4%nat 150 (35 # 100) (ready_v3 false 0)
              (mkSample 300 1000) 10) as (H1 & H2).
  - vm_compute. lia.
  - vm_compute. lia.
  - split; [exact H1|]. apply H2.
    split; [vm_compute; reflexivity|].
    split; [vm_compute; reflexivity|].
    split; [reflexivity|].
    vm_compute. intro K. discriminate K.
Defined.

Lemma v3_sustained_level_ends_excursion_witness :
  let d := fst (AppV3.detect_samples 4 150 (35 # 100) (ready_v3 false 0)
                  (clocked 1000000 [300; 300; 300; 300])) in
  AppV3.blink_active d = true /\
  snd (AppV3.sample_step 4 150 (35 # 100) d (mkSample 300 1001)) = None /\
  AppV3.blink_active (fst (AppV3.sample_step 4 150 (35 # 100) d (mkSample 300 1001))) = false.
Proof.
  split; [vm_compute; reflexivity|].
  apply (v3_sustained_level_ends_excursion 4%nat 150 (35 # 100)
           (fst (AppV3.detect_samples 4 150 (35 # 100) (ready_v3 false 0)
                   (clocked 1000000 [300; 300; 300; 300])))
           (mkSample 300 1001)).
  - reflexivity.
  - vm_compute. lia.
  - vm_compute. lia.
Defined.
